(** * Polar-plant EC dashboard: the loader, the file-name normalizer and
      the aggregations of [main.py], embedded and verified.

    The program is a Streamlit script.  Its computational content is

    - [normalize], NFC normalization of file names and school names;
    - [load_environment_data] and [load_growth_data], which walk the data
      directory and build the frames the dashboard shows;
    - the guard that stops the script when nothing was loaded;
    - the aggregations, counts and lookups of the three tabs (summary
      counts, group means, best EC, group sizes).

    Python values are modelled as the code has them: a [str] is a sequence
    of code points, a [dict] an insertion-ordered association list, a pandas
    frame a column list with rows, a raised exception an [outcome].  The
    file system and the parsers of pandas are inputs: a directory entry
    carries its name and what reading it yields.  A float64 is the number it
    denotes, so float64 values are compared exactly; the means pandas
    computes from them round in an order that is the library's own, and
    are a parameter of the model.  The Streamlit widgets, the Plotly charts
    and the two exports are outside the model. *)

From Stdlib Require Import ZArith QArith Qreduction List Bool Lia.
From Stdlib Require Import Ascii String FMapPositive Permutation Sorted Lqa.
Import ListNotations.
Open Scope Z_scope.

(** ** Python strings *)

(** A Python [str] is a sequence of Unicode code points. *)
Definition str := list Z.

(** An ASCII literal of the source, as code points. *)
Definition lit (s : string) : str :=
  map (fun a => Z.of_N (N_of_ascii a)) (list_ascii_of_string s).

Fixpoint str_eqb (a b : str) : bool :=
  match a, b with
  | [], [] => true
  | x :: a', y :: b' => (x =? y) && str_eqb a' b'
  | _, _ => false
  end.

Fixpoint startswith (p s : str) : bool :=
  match p, s with
  | [], _ => true
  | x :: p', y :: s' => (x =? y) && startswith p' s'
  | _ :: _, [] => false
  end.

(** [contains sub s] is Python's [sub in s]. *)
Fixpoint contains (sub s : str) : bool :=
  startswith sub s ||
  match s with
  | [] => false
  | _ :: s' => contains sub s'
  end.

(** [str.lower], on the Basic Latin letters.  Outside Basic Latin no code
    point lower-cases to a letter of [".csv"] or [".xlsx"], so the suffix
    tests of the loaders are decided exactly as Python decides them. *)
Definition lower_char (c : Z) : Z :=
  if (0x41 <=? c) && (c <=? 0x5A) then c + 32 else c.

Definition lower (s : str) : str := map lower_char s.

(** Lexicographic order on code points, Python's [<] on [str]. *)
Fixpoint str_ltb (a b : str) : bool :=
  match a, b with
  | [], [] => false
  | [], _ :: _ => true
  | _ :: _, [] => false
  | x :: a', y :: b' => (x <? y) || ((x =? y) && str_ltb a' b')
  end.

(** ** Exceptions *)

Inductive exn :=
| KeyError
| ValueError
| TypeError
| NotADirectoryError
| ReadError.

(** What a call does: it returns a value or raises. *)
Inductive outcome (A : Type) :=
| Returns (a : A)
| Raises (e : exn).
Arguments Returns {A} a.
Arguments Raises {A} e.

Definition bind {A B} (m : outcome A) (k : A -> outcome B) : outcome B :=
  match m with
  | Returns a => k a
  | Raises e => Raises e
  end.

Notation "x <- m ;; k" := (bind m (fun x => k))
  (at level 61, m at next level, right associativity).

(** ** The [unicodedata] module

    [main.py] calls [unicodedata.normalize("NFC", text)].  The module is
    part of the interpreter, not of the repository; it is modelled by the
    algorithm of Unicode Standard Annex 15 over the character database of
    CPython 3.11 (Unicode 14.0.0): canonical decomposition, canonical
    ordering, canonical composition, with Hangul syllables handled
    arithmetically as the C implementation does. *)
Module unicodedata.

(** The canonical decomposition mappings of UnicodeData.txt, one level, as
    [unicodedata.decomposition] reports them (compatibility mappings and
    Hangul syllables are not in the table). *)
Definition decomposition_table : list (Z * list Z) := [
  (0xC0, [0x41; 0x300]); (0xC1, [0x41; 0x301]); (0xC2, [0x41; 0x302]); (0xC3, [0x41; 0x303]);
  (0xC4, [0x41; 0x308]); (0xC5, [0x41; 0x30A]); (0xC7, [0x43; 0x327]); (0xC8, [0x45; 0x300]);
  (0xC9, [0x45; 0x301]); (0xCA, [0x45; 0x302]); (0xCB, [0x45; 0x308]); (0xCC, [0x49; 0x300]);
  (0xCD, [0x49; 0x301]); (0xCE, [0x49; 0x302]); (0xCF, [0x49; 0x308]); (0xD1, [0x4E; 0x303]);
  (0xD2, [0x4F; 0x300]); (0xD3, [0x4F; 0x301]); (0xD4, [0x4F; 0x302]); (0xD5, [0x4F; 0x303]);
  (0xD6, [0x4F; 0x308]); (0xD9, [0x55; 0x300]); (0xDA, [0x55; 0x301]); (0xDB, [0x55; 0x302]);
  (0xDC, [0x55; 0x308]); (0xDD, [0x59; 0x301]); (0xE0, [0x61; 0x300]); (0xE1, [0x61; 0x301]);
  (0xE2, [0x61; 0x302]); (0xE3, [0x61; 0x303]); (0xE4, [0x61; 0x308]); (0xE5, [0x61; 0x30A]);
  (0xE7, [0x63; 0x327]); (0xE8, [0x65; 0x300]); (0xE9, [0x65; 0x301]); (0xEA, [0x65; 0x302]);
  (0xEB, [0x65; 0x308]); (0xEC, [0x69; 0x300]); (0xED, [0x69; 0x301]); (0xEE, [0x69; 0x302]);
  (0xEF, [0x69; 0x308]); (0xF1, [0x6E; 0x303]); (0xF2, [0x6F; 0x300]); (0xF3, [0x6F; 0x301]);
  (0xF4, [0x6F; 0x302]); (0xF5, [0x6F; 0x303]); (0xF6, [0x6F; 0x308]); (0xF9, [0x75; 0x300]);
  (0xFA, [0x75; 0x301]); (0xFB, [0x75; 0x302]); (0xFC, [0x75; 0x308]); (0xFD, [0x79; 0x301]);
  (0xFF, [0x79; 0x308]); (0x100, [0x41; 0x304]); (0x101, [0x61; 0x304]);
  (0x102, [0x41; 0x306]); (0x103, [0x61; 0x306]); (0x104, [0x41; 0x328]);
  (0x105, [0x61; 0x328]); (0x106, [0x43; 0x301]); (0x107, [0x63; 0x301]);
  (0x108, [0x43; 0x302]); (0x109, [0x63; 0x302]); (0x10A, [0x43; 0x307]);
  (0x10B, [0x63; 0x307]); (0x10C, [0x43; 0x30C]); (0x10D, [0x63; 0x30C]);
  (0x10E, [0x44; 0x30C]); (0x10F, [0x64; 0x30C]); (0x112, [0x45; 0x304]);
  (0x113, [0x65; 0x304]); (0x114, [0x45; 0x306]); (0x115, [0x65; 0x306]);
  (0x116, [0x45; 0x307]); (0x117, [0x65; 0x307]); (0x118, [0x45; 0x328]);
  (0x119, [0x65; 0x328]); (0x11A, [0x45; 0x30C]); (0x11B, [0x65; 0x30C]);
  (0x11C, [0x47; 0x302]); (0x11D, [0x67; 0x302]); (0x11E, [0x47; 0x306]);
  (0x11F, [0x67; 0x306]); (0x120, [0x47; 0x307]); (0x121, [0x67; 0x307]);
  (0x122, [0x47; 0x327]); (0x123, [0x67; 0x327]); (0x124, [0x48; 0x302]);
  (0x125, [0x68; 0x302]); (0x128, [0x49; 0x303]); (0x129, [0x69; 0x303]);
  (0x12A, [0x49; 0x304]); (0x12B, [0x69; 0x304]); (0x12C, [0x49; 0x306]);
  (0x12D, [0x69; 0x306]); (0x12E, [0x49; 0x328]); (0x12F, [0x69; 0x328]);
  (0x130, [0x49; 0x307]); (0x134, [0x4A; 0x302]); (0x135, [0x6A; 0x302]);
  (0x136, [0x4B; 0x327]); (0x137, [0x6B; 0x327]); (0x139, [0x4C; 0x301]);
  (0x13A, [0x6C; 0x301]); (0x13B, [0x4C; 0x327]); (0x13C, [0x6C; 0x327]);
  (0x13D, [0x4C; 0x30C]); (0x13E, [0x6C; 0x30C]); (0x143, [0x4E; 0x301]);
  (0x144, [0x6E; 0x301]); (0x145, [0x4E; 0x327]); (0x146, [0x6E; 0x327]);
  (0x147, [0x4E; 0x30C]); (0x148, [0x6E; 0x30C]); (0x14C, [0x4F; 0x304]);
  (0x14D, [0x6F; 0x304]); (0x14E, [0x4F; 0x306]); (0x14F, [0x6F; 0x306]);
  (0x150, [0x4F; 0x30B]); (0x151, [0x6F; 0x30B]); (0x154, [0x52; 0x301]);
  (0x155, [0x72; 0x301]); (0x156, [0x52; 0x327]); (0x157, [0x72; 0x327]);
  (0x158, [0x52; 0x30C]); (0x159, [0x72; 0x30C]); (0x15A, [0x53; 0x301]);
  (0x15B, [0x73; 0x301]); (0x15C, [0x53; 0x302]); (0x15D, [0x73; 0x302]);
  (0x15E, [0x53; 0x327]); (0x15F, [0x73; 0x327]); (0x160, [0x53; 0x30C]);
  (0x161, [0x73; 0x30C]); (0x162, [0x54; 0x327]); (0x163, [0x74; 0x327]);
  (0x164, [0x54; 0x30C]); (0x165, [0x74; 0x30C]); (0x168, [0x55; 0x303]);
  (0x169, [0x75; 0x303]); (0x16A, [0x55; 0x304]); (0x16B, [0x75; 0x304]);
  (0x16C, [0x55; 0x306]); (0x16D, [0x75; 0x306]); (0x16E, [0x55; 0x30A]);
  (0x16F, [0x75; 0x30A]); (0x170, [0x55; 0x30B]); (0x171, [0x75; 0x30B]);
  (0x172, [0x55; 0x328]); (0x173, [0x75; 0x328]); (0x174, [0x57; 0x302]);
  (0x175, [0x77; 0x302]); (0x176, [0x59; 0x302]); (0x177, [0x79; 0x302]);
  (0x178, [0x59; 0x308]); (0x179, [0x5A; 0x301]); (0x17A, [0x7A; 0x301]);
  (0x17B, [0x5A; 0x307]); (0x17C, [0x7A; 0x307]); (0x17D, [0x5A; 0x30C]);
  (0x17E, [0x7A; 0x30C]); (0x1A0, [0x4F; 0x31B]); (0x1A1, [0x6F; 0x31B]);
  (0x1AF, [0x55; 0x31B]); (0x1B0, [0x75; 0x31B]); (0x1CD, [0x41; 0x30C]);
  (0x1CE, [0x61; 0x30C]); (0x1CF, [0x49; 0x30C]); (0x1D0, [0x69; 0x30C]);
  (0x1D1, [0x4F; 0x30C]); (0x1D2, [0x6F; 0x30C]); (0x1D3, [0x55; 0x30C]);
  (0x1D4, [0x75; 0x30C]); (0x1D5, [0xDC; 0x304]); (0x1D6, [0xFC; 0x304]);
  (0x1D7, [0xDC; 0x301]); (0x1D8, [0xFC; 0x301]); (0x1D9, [0xDC; 0x30C]);
  (0x1DA, [0xFC; 0x30C]); (0x1DB, [0xDC; 0x300]); (0x1DC, [0xFC; 0x300]);
  (0x1DE, [0xC4; 0x304]); (0x1DF, [0xE4; 0x304]); (0x1E0, [0x226; 0x304]);
  (0x1E1, [0x227; 0x304]); (0x1E2, [0xC6; 0x304]); (0x1E3, [0xE6; 0x304]);
  (0x1E6, [0x47; 0x30C]); (0x1E7, [0x67; 0x30C]); (0x1E8, [0x4B; 0x30C]);
  (0x1E9, [0x6B; 0x30C]); (0x1EA, [0x4F; 0x328]); (0x1EB, [0x6F; 0x328]);
  (0x1EC, [0x1EA; 0x304]); (0x1ED, [0x1EB; 0x304]); (0x1EE, [0x1B7; 0x30C]);
  (0x1EF, [0x292; 0x30C]); (0x1F0, [0x6A; 0x30C]); (0x1F4, [0x47; 0x301]);
  (0x1F5, [0x67; 0x301]); (0x1F8, [0x4E; 0x300]); (0x1F9, [0x6E; 0x300]);
  (0x1FA, [0xC5; 0x301]); (0x1FB, [0xE5; 0x301]); (0x1FC, [0xC6; 0x301]);
  (0x1FD, [0xE6; 0x301]); (0x1FE, [0xD8; 0x301]); (0x1FF, [0xF8; 0x301]);
  (0x200, [0x41; 0x30F]); (0x201, [0x61; 0x30F]); (0x202, [0x41; 0x311]);
  (0x203, [0x61; 0x311]); (0x204, [0x45; 0x30F]); (0x205, [0x65; 0x30F]);
  (0x206, [0x45; 0x311]); (0x207, [0x65; 0x311]); (0x208, [0x49; 0x30F]);
  (0x209, [0x69; 0x30F]); (0x20A, [0x49; 0x311]); (0x20B, [0x69; 0x311]);
  (0x20C, [0x4F; 0x30F]); (0x20D, [0x6F; 0x30F]); (0x20E, [0x4F; 0x311]);
  (0x20F, [0x6F; 0x311]); (0x210, [0x52; 0x30F]); (0x211, [0x72; 0x30F]);
  (0x212, [0x52; 0x311]); (0x213, [0x72; 0x311]); (0x214, [0x55; 0x30F]);
  (0x215, [0x75; 0x30F]); (0x216, [0x55; 0x311]); (0x217, [0x75; 0x311]);
  (0x218, [0x53; 0x326]); (0x219, [0x73; 0x326]); (0x21A, [0x54; 0x326]);
  (0x21B, [0x74; 0x326]); (0x21E, [0x48; 0x30C]); (0x21F, [0x68; 0x30C]);
  (0x226, [0x41; 0x307]); (0x227, [0x61; 0x307]); (0x228, [0x45; 0x327]);
  (0x229, [0x65; 0x327]); (0x22A, [0xD6; 0x304]); (0x22B, [0xF6; 0x304]);
  (0x22C, [0xD5; 0x304]); (0x22D, [0xF5; 0x304]); (0x22E, [0x4F; 0x307]);
  (0x22F, [0x6F; 0x307]); (0x230, [0x22E; 0x304]); (0x231, [0x22F; 0x304]);
  (0x232, [0x59; 0x304]); (0x233, [0x79; 0x304]); (0x340, [0x300]); (0x341, [0x301]);
  (0x343, [0x313]); (0x344, [0x308; 0x301]); (0x374, [0x2B9]); (0x37E, [0x3B]);
  (0x385, [0xA8; 0x301]); (0x386, [0x391; 0x301]); (0x387, [0xB7]); (0x388, [0x395; 0x301]);
  (0x389, [0x397; 0x301]); (0x38A, [0x399; 0x301]); (0x38C, [0x39F; 0x301]);
  (0x38E, [0x3A5; 0x301]); (0x38F, [0x3A9; 0x301]); (0x390, [0x3CA; 0x301]);
  (0x3AA, [0x399; 0x308]); (0x3AB, [0x3A5; 0x308]); (0x3AC, [0x3B1; 0x301]);
  (0x3AD, [0x3B5; 0x301]); (0x3AE, [0x3B7; 0x301]); (0x3AF, [0x3B9; 0x301]);
  (0x3B0, [0x3CB; 0x301]); (0x3CA, [0x3B9; 0x308]); (0x3CB, [0x3C5; 0x308]);
  (0x3CC, [0x3BF; 0x301]); (0x3CD, [0x3C5; 0x301]); (0x3CE, [0x3C9; 0x301]);
  (0x3D3, [0x3D2; 0x301]); (0x3D4, [0x3D2; 0x308]); (0x400, [0x415; 0x300]);
  (0x401, [0x415; 0x308]); (0x403, [0x413; 0x301]); (0x407, [0x406; 0x308]);
  (0x40C, [0x41A; 0x301]); (0x40D, [0x418; 0x300]); (0x40E, [0x423; 0x306]);
  (0x419, [0x418; 0x306]); (0x439, [0x438; 0x306]); (0x450, [0x435; 0x300]);
  (0x451, [0x435; 0x308]); (0x453, [0x433; 0x301]); (0x457, [0x456; 0x308]);
  (0x45C, [0x43A; 0x301]); (0x45D, [0x438; 0x300]); (0x45E, [0x443; 0x306]);
  (0x476, [0x474; 0x30F]); (0x477, [0x475; 0x30F]); (0x4C1, [0x416; 0x306]);
  (0x4C2, [0x436; 0x306]); (0x4D0, [0x410; 0x306]); (0x4D1, [0x430; 0x306]);
  (0x4D2, [0x410; 0x308]); (0x4D3, [0x430; 0x308]); (0x4D6, [0x415; 0x306]);
  (0x4D7, [0x435; 0x306]); (0x4DA, [0x4D8; 0x308]); (0x4DB, [0x4D9; 0x308]);
  (0x4DC, [0x416; 0x308]); (0x4DD, [0x436; 0x308]); (0x4DE, [0x417; 0x308]);
  (0x4DF, [0x437; 0x308]); (0x4E2, [0x418; 0x304]); (0x4E3, [0x438; 0x304]);
  (0x4E4, [0x418; 0x308]); (0x4E5, [0x438; 0x308]); (0x4E6, [0x41E; 0x308]);
  (0x4E7, [0x43E; 0x308]); (0x4EA, [0x4E8; 0x308]); (0x4EB, [0x4E9; 0x308]);
  (0x4EC, [0x42D; 0x308]); (0x4ED, [0x44D; 0x308]); (0x4EE, [0x423; 0x304]);
  (0x4EF, [0x443; 0x304]); (0x4F0, [0x423; 0x308]); (0x4F1, [0x443; 0x308]);
  (0x4F2, [0x423; 0x30B]); (0x4F3, [0x443; 0x30B]); (0x4F4, [0x427; 0x308]);
  (0x4F5, [0x447; 0x308]); (0x4F8, [0x42B; 0x308]); (0x4F9, [0x44B; 0x308]);
  (0x622, [0x627; 0x653]); (0x623, [0x627; 0x654]); (0x624, [0x648; 0x654]);
  (0x625, [0x627; 0x655]); (0x626, [0x64A; 0x654]); (0x6C0, [0x6D5; 0x654]);
  (0x6C2, [0x6C1; 0x654]); (0x6D3, [0x6D2; 0x654]); (0x929, [0x928; 0x93C]);
  (0x931, [0x930; 0x93C]); (0x934, [0x933; 0x93C]); (0x958, [0x915; 0x93C]);
  (0x959, [0x916; 0x93C]); (0x95A, [0x917; 0x93C]); (0x95B, [0x91C; 0x93C]);
  (0x95C, [0x921; 0x93C]); (0x95D, [0x922; 0x93C]); (0x95E, [0x92B; 0x93C]);
  (0x95F, [0x92F; 0x93C]); (0x9CB, [0x9C7; 0x9BE]); (0x9CC, [0x9C7; 0x9D7]);
  (0x9DC, [0x9A1; 0x9BC]); (0x9DD, [0x9A2; 0x9BC]); (0x9DF, [0x9AF; 0x9BC]);
  (0xA33, [0xA32; 0xA3C]); (0xA36, [0xA38; 0xA3C]); (0xA59, [0xA16; 0xA3C]);
  (0xA5A, [0xA17; 0xA3C]); (0xA5B, [0xA1C; 0xA3C]); (0xA5E, [0xA2B; 0xA3C]);
  (0xB48, [0xB47; 0xB56]); (0xB4B, [0xB47; 0xB3E]); (0xB4C, [0xB47; 0xB57]);
  (0xB5C, [0xB21; 0xB3C]); (0xB5D, [0xB22; 0xB3C]); (0xB94, [0xB92; 0xBD7]);
  (0xBCA, [0xBC6; 0xBBE]); (0xBCB, [0xBC7; 0xBBE]); (0xBCC, [0xBC6; 0xBD7]);
  (0xC48, [0xC46; 0xC56]); (0xCC0, [0xCBF; 0xCD5]); (0xCC7, [0xCC6; 0xCD5]);
  (0xCC8, [0xCC6; 0xCD6]); (0xCCA, [0xCC6; 0xCC2]); (0xCCB, [0xCCA; 0xCD5]);
  (0xD4A, [0xD46; 0xD3E]); (0xD4B, [0xD47; 0xD3E]); (0xD4C, [0xD46; 0xD57]);
  (0xDDA, [0xDD9; 0xDCA]); (0xDDC, [0xDD9; 0xDCF]); (0xDDD, [0xDDC; 0xDCA]);
  (0xDDE, [0xDD9; 0xDDF]); (0xF43, [0xF42; 0xFB7]); (0xF4D, [0xF4C; 0xFB7]);
  (0xF52, [0xF51; 0xFB7]); (0xF57, [0xF56; 0xFB7]); (0xF5C, [0xF5B; 0xFB7]);
  (0xF69, [0xF40; 0xFB5]); (0xF73, [0xF71; 0xF72]); (0xF75, [0xF71; 0xF74]);
  (0xF76, [0xFB2; 0xF80]); (0xF78, [0xFB3; 0xF80]); (0xF81, [0xF71; 0xF80]);
  (0xF93, [0xF92; 0xFB7]); (0xF9D, [0xF9C; 0xFB7]); (0xFA2, [0xFA1; 0xFB7]);
  (0xFA7, [0xFA6; 0xFB7]); (0xFAC, [0xFAB; 0xFB7]); (0xFB9, [0xF90; 0xFB5]);
  (0x1026, [0x1025; 0x102E]); (0x1B06, [0x1B05; 0x1B35]); (0x1B08, [0x1B07; 0x1B35]);
  (0x1B0A, [0x1B09; 0x1B35]); (0x1B0C, [0x1B0B; 0x1B35]); (0x1B0E, [0x1B0D; 0x1B35]);
  (0x1B12, [0x1B11; 0x1B35]); (0x1B3B, [0x1B3A; 0x1B35]); (0x1B3D, [0x1B3C; 0x1B35]);
  (0x1B40, [0x1B3E; 0x1B35]); (0x1B41, [0x1B3F; 0x1B35]); (0x1B43, [0x1B42; 0x1B35]);
  (0x1E00, [0x41; 0x325]); (0x1E01, [0x61; 0x325]); (0x1E02, [0x42; 0x307]);
  (0x1E03, [0x62; 0x307]); (0x1E04, [0x42; 0x323]); (0x1E05, [0x62; 0x323]);
  (0x1E06, [0x42; 0x331]); (0x1E07, [0x62; 0x331]); (0x1E08, [0xC7; 0x301]);
  (0x1E09, [0xE7; 0x301]); (0x1E0A, [0x44; 0x307]); (0x1E0B, [0x64; 0x307]);
  (0x1E0C, [0x44; 0x323]); (0x1E0D, [0x64; 0x323]); (0x1E0E, [0x44; 0x331]);
  (0x1E0F, [0x64; 0x331]); (0x1E10, [0x44; 0x327]); (0x1E11, [0x64; 0x327]);
  (0x1E12, [0x44; 0x32D]); (0x1E13, [0x64; 0x32D]); (0x1E14, [0x112; 0x300]);
  (0x1E15, [0x113; 0x300]); (0x1E16, [0x112; 0x301]); (0x1E17, [0x113; 0x301]);
  (0x1E18, [0x45; 0x32D]); (0x1E19, [0x65; 0x32D]); (0x1E1A, [0x45; 0x330]);
  (0x1E1B, [0x65; 0x330]); (0x1E1C, [0x228; 0x306]); (0x1E1D, [0x229; 0x306]);
  (0x1E1E, [0x46; 0x307]); (0x1E1F, [0x66; 0x307]); (0x1E20, [0x47; 0x304]);
  (0x1E21, [0x67; 0x304]); (0x1E22, [0x48; 0x307]); (0x1E23, [0x68; 0x307]);
  (0x1E24, [0x48; 0x323]); (0x1E25, [0x68; 0x323]); (0x1E26, [0x48; 0x308]);
  (0x1E27, [0x68; 0x308]); (0x1E28, [0x48; 0x327]); (0x1E29, [0x68; 0x327]);
  (0x1E2A, [0x48; 0x32E]); (0x1E2B, [0x68; 0x32E]); (0x1E2C, [0x49; 0x330]);
  (0x1E2D, [0x69; 0x330]); (0x1E2E, [0xCF; 0x301]); (0x1E2F, [0xEF; 0x301]);
  (0x1E30, [0x4B; 0x301]); (0x1E31, [0x6B; 0x301]); (0x1E32, [0x4B; 0x323]);
  (0x1E33, [0x6B; 0x323]); (0x1E34, [0x4B; 0x331]); (0x1E35, [0x6B; 0x331]);
  (0x1E36, [0x4C; 0x323]); (0x1E37, [0x6C; 0x323]); (0x1E38, [0x1E36; 0x304]);
  (0x1E39, [0x1E37; 0x304]); (0x1E3A, [0x4C; 0x331]); (0x1E3B, [0x6C; 0x331]);
  (0x1E3C, [0x4C; 0x32D]); (0x1E3D, [0x6C; 0x32D]); (0x1E3E, [0x4D; 0x301]);
  (0x1E3F, [0x6D; 0x301]); (0x1E40, [0x4D; 0x307]); (0x1E41, [0x6D; 0x307]);
  (0x1E42, [0x4D; 0x323]); (0x1E43, [0x6D; 0x323]); (0x1E44, [0x4E; 0x307]);
  (0x1E45, [0x6E; 0x307]); (0x1E46, [0x4E; 0x323]); (0x1E47, [0x6E; 0x323]);
  (0x1E48, [0x4E; 0x331]); (0x1E49, [0x6E; 0x331]); (0x1E4A, [0x4E; 0x32D]);
  (0x1E4B, [0x6E; 0x32D]); (0x1E4C, [0xD5; 0x301]); (0x1E4D, [0xF5; 0x301]);
  (0x1E4E, [0xD5; 0x308]); (0x1E4F, [0xF5; 0x308]); (0x1E50, [0x14C; 0x300]);
  (0x1E51, [0x14D; 0x300]); (0x1E52, [0x14C; 0x301]); (0x1E53, [0x14D; 0x301]);
  (0x1E54, [0x50; 0x301]); (0x1E55, [0x70; 0x301]); (0x1E56, [0x50; 0x307]);
  (0x1E57, [0x70; 0x307]); (0x1E58, [0x52; 0x307]); (0x1E59, [0x72; 0x307]);
  (0x1E5A, [0x52; 0x323]); (0x1E5B, [0x72; 0x323]); (0x1E5C, [0x1E5A; 0x304]);
  (0x1E5D, [0x1E5B; 0x304]); (0x1E5E, [0x52; 0x331]); (0x1E5F, [0x72; 0x331]);
  (0x1E60, [0x53; 0x307]); (0x1E61, [0x73; 0x307]); (0x1E62, [0x53; 0x323]);
  (0x1E63, [0x73; 0x323]); (0x1E64, [0x15A; 0x307]); (0x1E65, [0x15B; 0x307]);
  (0x1E66, [0x160; 0x307]); (0x1E67, [0x161; 0x307]); (0x1E68, [0x1E62; 0x307]);
  (0x1E69, [0x1E63; 0x307]); (0x1E6A, [0x54; 0x307]); (0x1E6B, [0x74; 0x307]);
  (0x1E6C, [0x54; 0x323]); (0x1E6D, [0x74; 0x323]); (0x1E6E, [0x54; 0x331]);
  (0x1E6F, [0x74; 0x331]); (0x1E70, [0x54; 0x32D]); (0x1E71, [0x74; 0x32D]);
  (0x1E72, [0x55; 0x324]); (0x1E73, [0x75; 0x324]); (0x1E74, [0x55; 0x330]);
  (0x1E75, [0x75; 0x330]); (0x1E76, [0x55; 0x32D]); (0x1E77, [0x75; 0x32D]);
  (0x1E78, [0x168; 0x301]); (0x1E79, [0x169; 0x301]); (0x1E7A, [0x16A; 0x308]);
  (0x1E7B, [0x16B; 0x308]); (0x1E7C, [0x56; 0x303]); (0x1E7D, [0x76; 0x303]);
  (0x1E7E, [0x56; 0x323]); (0x1E7F, [0x76; 0x323]); (0x1E80, [0x57; 0x300]);
  (0x1E81, [0x77; 0x300]); (0x1E82, [0x57; 0x301]); (0x1E83, [0x77; 0x301]);
  (0x1E84, [0x57; 0x308]); (0x1E85, [0x77; 0x308]); (0x1E86, [0x57; 0x307]);
  (0x1E87, [0x77; 0x307]); (0x1E88, [0x57; 0x323]); (0x1E89, [0x77; 0x323]);
  (0x1E8A, [0x58; 0x307]); (0x1E8B, [0x78; 0x307]); (0x1E8C, [0x58; 0x308]);
  (0x1E8D, [0x78; 0x308]); (0x1E8E, [0x59; 0x307]); (0x1E8F, [0x79; 0x307]);
  (0x1E90, [0x5A; 0x302]); (0x1E91, [0x7A; 0x302]); (0x1E92, [0x5A; 0x323]);
  (0x1E93, [0x7A; 0x323]); (0x1E94, [0x5A; 0x331]); (0x1E95, [0x7A; 0x331]);
  (0x1E96, [0x68; 0x331]); (0x1E97, [0x74; 0x308]); (0x1E98, [0x77; 0x30A]);
  (0x1E99, [0x79; 0x30A]); (0x1E9B, [0x17F; 0x307]); (0x1EA0, [0x41; 0x323]);
  (0x1EA1, [0x61; 0x323]); (0x1EA2, [0x41; 0x309]); (0x1EA3, [0x61; 0x309]);
  (0x1EA4, [0xC2; 0x301]); (0x1EA5, [0xE2; 0x301]); (0x1EA6, [0xC2; 0x300]);
  (0x1EA7, [0xE2; 0x300]); (0x1EA8, [0xC2; 0x309]); (0x1EA9, [0xE2; 0x309]);
  (0x1EAA, [0xC2; 0x303]); (0x1EAB, [0xE2; 0x303]); (0x1EAC, [0x1EA0; 0x302]);
  (0x1EAD, [0x1EA1; 0x302]); (0x1EAE, [0x102; 0x301]); (0x1EAF, [0x103; 0x301]);
  (0x1EB0, [0x102; 0x300]); (0x1EB1, [0x103; 0x300]); (0x1EB2, [0x102; 0x309]);
  (0x1EB3, [0x103; 0x309]); (0x1EB4, [0x102; 0x303]); (0x1EB5, [0x103; 0x303]);
  (0x1EB6, [0x1EA0; 0x306]); (0x1EB7, [0x1EA1; 0x306]); (0x1EB8, [0x45; 0x323]);
  (0x1EB9, [0x65; 0x323]); (0x1EBA, [0x45; 0x309]); (0x1EBB, [0x65; 0x309]);
  (0x1EBC, [0x45; 0x303]); (0x1EBD, [0x65; 0x303]); (0x1EBE, [0xCA; 0x301]);
  (0x1EBF, [0xEA; 0x301]); (0x1EC0, [0xCA; 0x300]); (0x1EC1, [0xEA; 0x300]);
  (0x1EC2, [0xCA; 0x309]); (0x1EC3, [0xEA; 0x309]); (0x1EC4, [0xCA; 0x303]);
  (0x1EC5, [0xEA; 0x303]); (0x1EC6, [0x1EB8; 0x302]); (0x1EC7, [0x1EB9; 0x302]);
  (0x1EC8, [0x49; 0x309]); (0x1EC9, [0x69; 0x309]); (0x1ECA, [0x49; 0x323]);
  (0x1ECB, [0x69; 0x323]); (0x1ECC, [0x4F; 0x323]); (0x1ECD, [0x6F; 0x323]);
  (0x1ECE, [0x4F; 0x309]); (0x1ECF, [0x6F; 0x309]); (0x1ED0, [0xD4; 0x301]);
  (0x1ED1, [0xF4; 0x301]); (0x1ED2, [0xD4; 0x300]); (0x1ED3, [0xF4; 0x300]);
  (0x1ED4, [0xD4; 0x309]); (0x1ED5, [0xF4; 0x309]); (0x1ED6, [0xD4; 0x303]);
  (0x1ED7, [0xF4; 0x303]); (0x1ED8, [0x1ECC; 0x302]); (0x1ED9, [0x1ECD; 0x302]);
  (0x1EDA, [0x1A0; 0x301]); (0x1EDB, [0x1A1; 0x301]); (0x1EDC, [0x1A0; 0x300]);
  (0x1EDD, [0x1A1; 0x300]); (0x1EDE, [0x1A0; 0x309]); (0x1EDF, [0x1A1; 0x309]);
  (0x1EE0, [0x1A0; 0x303]); (0x1EE1, [0x1A1; 0x303]); (0x1EE2, [0x1A0; 0x323]);
  (0x1EE3, [0x1A1; 0x323]); (0x1EE4, [0x55; 0x323]); (0x1EE5, [0x75; 0x323]);
  (0x1EE6, [0x55; 0x309]); (0x1EE7, [0x75; 0x309]); (0x1EE8, [0x1AF; 0x301]);
  (0x1EE9, [0x1B0; 0x301]); (0x1EEA, [0x1AF; 0x300]); (0x1EEB, [0x1B0; 0x300]);
  (0x1EEC, [0x1AF; 0x309]); (0x1EED, [0x1B0; 0x309]); (0x1EEE, [0x1AF; 0x303]);
  (0x1EEF, [0x1B0; 0x303]); (0x1EF0, [0x1AF; 0x323]); (0x1EF1, [0x1B0; 0x323]);
  (0x1EF2, [0x59; 0x300]); (0x1EF3, [0x79; 0x300]); (0x1EF4, [0x59; 0x323]);
  (0x1EF5, [0x79; 0x323]); (0x1EF6, [0x59; 0x309]); (0x1EF7, [0x79; 0x309]);
  (0x1EF8, [0x59; 0x303]); (0x1EF9, [0x79; 0x303]); (0x1F00, [0x3B1; 0x313]);
  (0x1F01, [0x3B1; 0x314]); (0x1F02, [0x1F00; 0x300]); (0x1F03, [0x1F01; 0x300]);
  (0x1F04, [0x1F00; 0x301]); (0x1F05, [0x1F01; 0x301]); (0x1F06, [0x1F00; 0x342]);
  (0x1F07, [0x1F01; 0x342]); (0x1F08, [0x391; 0x313]); (0x1F09, [0x391; 0x314]);
  (0x1F0A, [0x1F08; 0x300]); (0x1F0B, [0x1F09; 0x300]); (0x1F0C, [0x1F08; 0x301]);
  (0x1F0D, [0x1F09; 0x301]); (0x1F0E, [0x1F08; 0x342]); (0x1F0F, [0x1F09; 0x342]);
  (0x1F10, [0x3B5; 0x313]); (0x1F11, [0x3B5; 0x314]); (0x1F12, [0x1F10; 0x300]);
  (0x1F13, [0x1F11; 0x300]); (0x1F14, [0x1F10; 0x301]); (0x1F15, [0x1F11; 0x301]);
  (0x1F18, [0x395; 0x313]); (0x1F19, [0x395; 0x314]); (0x1F1A, [0x1F18; 0x300]);
  (0x1F1B, [0x1F19; 0x300]); (0x1F1C, [0x1F18; 0x301]); (0x1F1D, [0x1F19; 0x301]);
  (0x1F20, [0x3B7; 0x313]); (0x1F21, [0x3B7; 0x314]); (0x1F22, [0x1F20; 0x300]);
  (0x1F23, [0x1F21; 0x300]); (0x1F24, [0x1F20; 0x301]); (0x1F25, [0x1F21; 0x301]);
  (0x1F26, [0x1F20; 0x342]); (0x1F27, [0x1F21; 0x342]); (0x1F28, [0x397; 0x313]);
  (0x1F29, [0x397; 0x314]); (0x1F2A, [0x1F28; 0x300]); (0x1F2B, [0x1F29; 0x300]);
  (0x1F2C, [0x1F28; 0x301]); (0x1F2D, [0x1F29; 0x301]); (0x1F2E, [0x1F28; 0x342]);
  (0x1F2F, [0x1F29; 0x342]); (0x1F30, [0x3B9; 0x313]); (0x1F31, [0x3B9; 0x314]);
  (0x1F32, [0x1F30; 0x300]); (0x1F33, [0x1F31; 0x300]); (0x1F34, [0x1F30; 0x301]);
  (0x1F35, [0x1F31; 0x301]); (0x1F36, [0x1F30; 0x342]); (0x1F37, [0x1F31; 0x342]);
  (0x1F38, [0x399; 0x313]); (0x1F39, [0x399; 0x314]); (0x1F3A, [0x1F38; 0x300]);
  (0x1F3B, [0x1F39; 0x300]); (0x1F3C, [0x1F38; 0x301]); (0x1F3D, [0x1F39; 0x301]);
  (0x1F3E, [0x1F38; 0x342]); (0x1F3F, [0x1F39; 0x342]); (0x1F40, [0x3BF; 0x313]);
  (0x1F41, [0x3BF; 0x314]); (0x1F42, [0x1F40; 0x300]); (0x1F43, [0x1F41; 0x300]);
  (0x1F44, [0x1F40; 0x301]); (0x1F45, [0x1F41; 0x301]); (0x1F48, [0x39F; 0x313]);
  (0x1F49, [0x39F; 0x314]); (0x1F4A, [0x1F48; 0x300]); (0x1F4B, [0x1F49; 0x300]);
  (0x1F4C, [0x1F48; 0x301]); (0x1F4D, [0x1F49; 0x301]); (0x1F50, [0x3C5; 0x313]);
  (0x1F51, [0x3C5; 0x314]); (0x1F52, [0x1F50; 0x300]); (0x1F53, [0x1F51; 0x300]);
  (0x1F54, [0x1F50; 0x301]); (0x1F55, [0x1F51; 0x301]); (0x1F56, [0x1F50; 0x342]);
  (0x1F57, [0x1F51; 0x342]); (0x1F59, [0x3A5; 0x314]); (0x1F5B, [0x1F59; 0x300]);
  (0x1F5D, [0x1F59; 0x301]); (0x1F5F, [0x1F59; 0x342]); (0x1F60, [0x3C9; 0x313]);
  (0x1F61, [0x3C9; 0x314]); (0x1F62, [0x1F60; 0x300]); (0x1F63, [0x1F61; 0x300]);
  (0x1F64, [0x1F60; 0x301]); (0x1F65, [0x1F61; 0x301]); (0x1F66, [0x1F60; 0x342]);
  (0x1F67, [0x1F61; 0x342]); (0x1F68, [0x3A9; 0x313]); (0x1F69, [0x3A9; 0x314]);
  (0x1F6A, [0x1F68; 0x300]); (0x1F6B, [0x1F69; 0x300]); (0x1F6C, [0x1F68; 0x301]);
  (0x1F6D, [0x1F69; 0x301]); (0x1F6E, [0x1F68; 0x342]); (0x1F6F, [0x1F69; 0x342]);
  (0x1F70, [0x3B1; 0x300]); (0x1F71, [0x3AC]); (0x1F72, [0x3B5; 0x300]); (0x1F73, [0x3AD]);
  (0x1F74, [0x3B7; 0x300]); (0x1F75, [0x3AE]); (0x1F76, [0x3B9; 0x300]); (0x1F77, [0x3AF]);
  (0x1F78, [0x3BF; 0x300]); (0x1F79, [0x3CC]); (0x1F7A, [0x3C5; 0x300]); (0x1F7B, [0x3CD]);
  (0x1F7C, [0x3C9; 0x300]); (0x1F7D, [0x3CE]); (0x1F80, [0x1F00; 0x345]);
  (0x1F81, [0x1F01; 0x345]); (0x1F82, [0x1F02; 0x345]); (0x1F83, [0x1F03; 0x345]);
  (0x1F84, [0x1F04; 0x345]); (0x1F85, [0x1F05; 0x345]); (0x1F86, [0x1F06; 0x345]);
  (0x1F87, [0x1F07; 0x345]); (0x1F88, [0x1F08; 0x345]); (0x1F89, [0x1F09; 0x345]);
  (0x1F8A, [0x1F0A; 0x345]); (0x1F8B, [0x1F0B; 0x345]); (0x1F8C, [0x1F0C; 0x345]);
  (0x1F8D, [0x1F0D; 0x345]); (0x1F8E, [0x1F0E; 0x345]); (0x1F8F, [0x1F0F; 0x345]);
  (0x1F90, [0x1F20; 0x345]); (0x1F91, [0x1F21; 0x345]); (0x1F92, [0x1F22; 0x345]);
  (0x1F93, [0x1F23; 0x345]); (0x1F94, [0x1F24; 0x345]); (0x1F95, [0x1F25; 0x345]);
  (0x1F96, [0x1F26; 0x345]); (0x1F97, [0x1F27; 0x345]); (0x1F98, [0x1F28; 0x345]);
  (0x1F99, [0x1F29; 0x345]); (0x1F9A, [0x1F2A; 0x345]); (0x1F9B, [0x1F2B; 0x345]);
  (0x1F9C, [0x1F2C; 0x345]); (0x1F9D, [0x1F2D; 0x345]); (0x1F9E, [0x1F2E; 0x345]);
  (0x1F9F, [0x1F2F; 0x345]); (0x1FA0, [0x1F60; 0x345]); (0x1FA1, [0x1F61; 0x345]);
  (0x1FA2, [0x1F62; 0x345]); (0x1FA3, [0x1F63; 0x345]); (0x1FA4, [0x1F64; 0x345]);
  (0x1FA5, [0x1F65; 0x345]); (0x1FA6, [0x1F66; 0x345]); (0x1FA7, [0x1F67; 0x345]);
  (0x1FA8, [0x1F68; 0x345]); (0x1FA9, [0x1F69; 0x345]); (0x1FAA, [0x1F6A; 0x345]);
  (0x1FAB, [0x1F6B; 0x345]); (0x1FAC, [0x1F6C; 0x345]); (0x1FAD, [0x1F6D; 0x345]);
  (0x1FAE, [0x1F6E; 0x345]); (0x1FAF, [0x1F6F; 0x345]); (0x1FB0, [0x3B1; 0x306]);
  (0x1FB1, [0x3B1; 0x304]); (0x1FB2, [0x1F70; 0x345]); (0x1FB3, [0x3B1; 0x345]);
  (0x1FB4, [0x3AC; 0x345]); (0x1FB6, [0x3B1; 0x342]); (0x1FB7, [0x1FB6; 0x345]);
  (0x1FB8, [0x391; 0x306]); (0x1FB9, [0x391; 0x304]); (0x1FBA, [0x391; 0x300]);
  (0x1FBB, [0x386]); (0x1FBC, [0x391; 0x345]); (0x1FBE, [0x3B9]); (0x1FC1, [0xA8; 0x342]);
  (0x1FC2, [0x1F74; 0x345]); (0x1FC3, [0x3B7; 0x345]); (0x1FC4, [0x3AE; 0x345]);
  (0x1FC6, [0x3B7; 0x342]); (0x1FC7, [0x1FC6; 0x345]); (0x1FC8, [0x395; 0x300]);
  (0x1FC9, [0x388]); (0x1FCA, [0x397; 0x300]); (0x1FCB, [0x389]); (0x1FCC, [0x397; 0x345]);
  (0x1FCD, [0x1FBF; 0x300]); (0x1FCE, [0x1FBF; 0x301]); (0x1FCF, [0x1FBF; 0x342]);
  (0x1FD0, [0x3B9; 0x306]); (0x1FD1, [0x3B9; 0x304]); (0x1FD2, [0x3CA; 0x300]);
  (0x1FD3, [0x390]); (0x1FD6, [0x3B9; 0x342]); (0x1FD7, [0x3CA; 0x342]);
  (0x1FD8, [0x399; 0x306]); (0x1FD9, [0x399; 0x304]); (0x1FDA, [0x399; 0x300]);
  (0x1FDB, [0x38A]); (0x1FDD, [0x1FFE; 0x300]); (0x1FDE, [0x1FFE; 0x301]);
  (0x1FDF, [0x1FFE; 0x342]); (0x1FE0, [0x3C5; 0x306]); (0x1FE1, [0x3C5; 0x304]);
  (0x1FE2, [0x3CB; 0x300]); (0x1FE3, [0x3B0]); (0x1FE4, [0x3C1; 0x313]);
  (0x1FE5, [0x3C1; 0x314]); (0x1FE6, [0x3C5; 0x342]); (0x1FE7, [0x3CB; 0x342]);
  (0x1FE8, [0x3A5; 0x306]); (0x1FE9, [0x3A5; 0x304]); (0x1FEA, [0x3A5; 0x300]);
  (0x1FEB, [0x38E]); (0x1FEC, [0x3A1; 0x314]); (0x1FED, [0xA8; 0x300]); (0x1FEE, [0x385]);
  (0x1FEF, [0x60]); (0x1FF2, [0x1F7C; 0x345]); (0x1FF3, [0x3C9; 0x345]);
  (0x1FF4, [0x3CE; 0x345]); (0x1FF6, [0x3C9; 0x342]); (0x1FF7, [0x1FF6; 0x345]);
  (0x1FF8, [0x39F; 0x300]); (0x1FF9, [0x38C]); (0x1FFA, [0x3A9; 0x300]); (0x1FFB, [0x38F]);
  (0x1FFC, [0x3A9; 0x345]); (0x1FFD, [0xB4]); (0x2000, [0x2002]); (0x2001, [0x2003]);
  (0x2126, [0x3A9]); (0x212A, [0x4B]); (0x212B, [0xC5]); (0x219A, [0x2190; 0x338]);
  (0x219B, [0x2192; 0x338]); (0x21AE, [0x2194; 0x338]); (0x21CD, [0x21D0; 0x338]);
  (0x21CE, [0x21D4; 0x338]); (0x21CF, [0x21D2; 0x338]); (0x2204, [0x2203; 0x338]);
  (0x2209, [0x2208; 0x338]); (0x220C, [0x220B; 0x338]); (0x2224, [0x2223; 0x338]);
  (0x2226, [0x2225; 0x338]); (0x2241, [0x223C; 0x338]); (0x2244, [0x2243; 0x338]);
  (0x2247, [0x2245; 0x338]); (0x2249, [0x2248; 0x338]); (0x2260, [0x3D; 0x338]);
  (0x2262, [0x2261; 0x338]); (0x226D, [0x224D; 0x338]); (0x226E, [0x3C; 0x338]);
  (0x226F, [0x3E; 0x338]); (0x2270, [0x2264; 0x338]); (0x2271, [0x2265; 0x338]);
  (0x2274, [0x2272; 0x338]); (0x2275, [0x2273; 0x338]); (0x2278, [0x2276; 0x338]);
  (0x2279, [0x2277; 0x338]); (0x2280, [0x227A; 0x338]); (0x2281, [0x227B; 0x338]);
  (0x2284, [0x2282; 0x338]); (0x2285, [0x2283; 0x338]); (0x2288, [0x2286; 0x338]);
  (0x2289, [0x2287; 0x338]); (0x22AC, [0x22A2; 0x338]); (0x22AD, [0x22A8; 0x338]);
  (0x22AE, [0x22A9; 0x338]); (0x22AF, [0x22AB; 0x338]); (0x22E0, [0x227C; 0x338]);
  (0x22E1, [0x227D; 0x338]); (0x22E2, [0x2291; 0x338]); (0x22E3, [0x2292; 0x338]);
  (0x22EA, [0x22B2; 0x338]); (0x22EB, [0x22B3; 0x338]); (0x22EC, [0x22B4; 0x338]);
  (0x22ED, [0x22B5; 0x338]); (0x2329, [0x3008]); (0x232A, [0x3009]); (0x2ADC, [0x2ADD; 0x338]);
  (0x304C, [0x304B; 0x3099]); (0x304E, [0x304D; 0x3099]); (0x3050, [0x304F; 0x3099]);
  (0x3052, [0x3051; 0x3099]); (0x3054, [0x3053; 0x3099]); (0x3056, [0x3055; 0x3099]);
  (0x3058, [0x3057; 0x3099]); (0x305A, [0x3059; 0x3099]); (0x305C, [0x305B; 0x3099]);
  (0x305E, [0x305D; 0x3099]); (0x3060, [0x305F; 0x3099]); (0x3062, [0x3061; 0x3099]);
  (0x3065, [0x3064; 0x3099]); (0x3067, [0x3066; 0x3099]); (0x3069, [0x3068; 0x3099]);
  (0x3070, [0x306F; 0x3099]); (0x3071, [0x306F; 0x309A]); (0x3073, [0x3072; 0x3099]);
  (0x3074, [0x3072; 0x309A]); (0x3076, [0x3075; 0x3099]); (0x3077, [0x3075; 0x309A]);
  (0x3079, [0x3078; 0x3099]); (0x307A, [0x3078; 0x309A]); (0x307C, [0x307B; 0x3099]);
  (0x307D, [0x307B; 0x309A]); (0x3094, [0x3046; 0x3099]); (0x309E, [0x309D; 0x3099]);
  (0x30AC, [0x30AB; 0x3099]); (0x30AE, [0x30AD; 0x3099]); (0x30B0, [0x30AF; 0x3099]);
  (0x30B2, [0x30B1; 0x3099]); (0x30B4, [0x30B3; 0x3099]); (0x30B6, [0x30B5; 0x3099]);
  (0x30B8, [0x30B7; 0x3099]); (0x30BA, [0x30B9; 0x3099]); (0x30BC, [0x30BB; 0x3099]);
  (0x30BE, [0x30BD; 0x3099]); (0x30C0, [0x30BF; 0x3099]); (0x30C2, [0x30C1; 0x3099]);
  (0x30C5, [0x30C4; 0x3099]); (0x30C7, [0x30C6; 0x3099]); (0x30C9, [0x30C8; 0x3099]);
  (0x30D0, [0x30CF; 0x3099]); (0x30D1, [0x30CF; 0x309A]); (0x30D3, [0x30D2; 0x3099]);
  (0x30D4, [0x30D2; 0x309A]); (0x30D6, [0x30D5; 0x3099]); (0x30D7, [0x30D5; 0x309A]);
  (0x30D9, [0x30D8; 0x3099]); (0x30DA, [0x30D8; 0x309A]); (0x30DC, [0x30DB; 0x3099]);
  (0x30DD, [0x30DB; 0x309A]); (0x30F4, [0x30A6; 0x3099]); (0x30F7, [0x30EF; 0x3099]);
  (0x30F8, [0x30F0; 0x3099]); (0x30F9, [0x30F1; 0x3099]); (0x30FA, [0x30F2; 0x3099]);
  (0x30FE, [0x30FD; 0x3099]); (0xF900, [0x8C48]); (0xF901, [0x66F4]); (0xF902, [0x8ECA]);
  (0xF903, [0x8CC8]); (0xF904, [0x6ED1]); (0xF905, [0x4E32]); (0xF906, [0x53E5]);
  (0xF907, [0x9F9C]); (0xF908, [0x9F9C]); (0xF909, [0x5951]); (0xF90A, [0x91D1]);
  (0xF90B, [0x5587]); (0xF90C, [0x5948]); (0xF90D, [0x61F6]); (0xF90E, [0x7669]);
  (0xF90F, [0x7F85]); (0xF910, [0x863F]); (0xF911, [0x87BA]); (0xF912, [0x88F8]);
  (0xF913, [0x908F]); (0xF914, [0x6A02]); (0xF915, [0x6D1B]); (0xF916, [0x70D9]);
  (0xF917, [0x73DE]); (0xF918, [0x843D]); (0xF919, [0x916A]); (0xF91A, [0x99F1]);
  (0xF91B, [0x4E82]); (0xF91C, [0x5375]); (0xF91D, [0x6B04]); (0xF91E, [0x721B]);
  (0xF91F, [0x862D]); (0xF920, [0x9E1E]); (0xF921, [0x5D50]); (0xF922, [0x6FEB]);
  (0xF923, [0x85CD]); (0xF924, [0x8964]); (0xF925, [0x62C9]); (0xF926, [0x81D8]);
  (0xF927, [0x881F]); (0xF928, [0x5ECA]); (0xF929, [0x6717]); (0xF92A, [0x6D6A]);
  (0xF92B, [0x72FC]); (0xF92C, [0x90CE]); (0xF92D, [0x4F86]); (0xF92E, [0x51B7]);
  (0xF92F, [0x52DE]); (0xF930, [0x64C4]); (0xF931, [0x6AD3]); (0xF932, [0x7210]);
  (0xF933, [0x76E7]); (0xF934, [0x8001]); (0xF935, [0x8606]); (0xF936, [0x865C]);
  (0xF937, [0x8DEF]); (0xF938, [0x9732]); (0xF939, [0x9B6F]); (0xF93A, [0x9DFA]);
  (0xF93B, [0x788C]); (0xF93C, [0x797F]); (0xF93D, [0x7DA0]); (0xF93E, [0x83C9]);
  (0xF93F, [0x9304]); (0xF940, [0x9E7F]); (0xF941, [0x8AD6]); (0xF942, [0x58DF]);
  (0xF943, [0x5F04]); (0xF944, [0x7C60]); (0xF945, [0x807E]); (0xF946, [0x7262]);
  (0xF947, [0x78CA]); (0xF948, [0x8CC2]); (0xF949, [0x96F7]); (0xF94A, [0x58D8]);
  (0xF94B, [0x5C62]); (0xF94C, [0x6A13]); (0xF94D, [0x6DDA]); (0xF94E, [0x6F0F]);
  (0xF94F, [0x7D2F]); (0xF950, [0x7E37]); (0xF951, [0x964B]); (0xF952, [0x52D2]);
  (0xF953, [0x808B]); (0xF954, [0x51DC]); (0xF955, [0x51CC]); (0xF956, [0x7A1C]);
  (0xF957, [0x7DBE]); (0xF958, [0x83F1]); (0xF959, [0x9675]); (0xF95A, [0x8B80]);
  (0xF95B, [0x62CF]); (0xF95C, [0x6A02]); (0xF95D, [0x8AFE]); (0xF95E, [0x4E39]);
  (0xF95F, [0x5BE7]); (0xF960, [0x6012]); (0xF961, [0x7387]); (0xF962, [0x7570]);
  (0xF963, [0x5317]); (0xF964, [0x78FB]); (0xF965, [0x4FBF]); (0xF966, [0x5FA9]);
  (0xF967, [0x4E0D]); (0xF968, [0x6CCC]); (0xF969, [0x6578]); (0xF96A, [0x7D22]);
  (0xF96B, [0x53C3]); (0xF96C, [0x585E]); (0xF96D, [0x7701]); (0xF96E, [0x8449]);
  (0xF96F, [0x8AAA]); (0xF970, [0x6BBA]); (0xF971, [0x8FB0]); (0xF972, [0x6C88]);
  (0xF973, [0x62FE]); (0xF974, [0x82E5]); (0xF975, [0x63A0]); (0xF976, [0x7565]);
  (0xF977, [0x4EAE]); (0xF978, [0x5169]); (0xF979, [0x51C9]); (0xF97A, [0x6881]);
  (0xF97B, [0x7CE7]); (0xF97C, [0x826F]); (0xF97D, [0x8AD2]); (0xF97E, [0x91CF]);
  (0xF97F, [0x52F5]); (0xF980, [0x5442]); (0xF981, [0x5973]); (0xF982, [0x5EEC]);
  (0xF983, [0x65C5]); (0xF984, [0x6FFE]); (0xF985, [0x792A]); (0xF986, [0x95AD]);
  (0xF987, [0x9A6A]); (0xF988, [0x9E97]); (0xF989, [0x9ECE]); (0xF98A, [0x529B]);
  (0xF98B, [0x66C6]); (0xF98C, [0x6B77]); (0xF98D, [0x8F62]); (0xF98E, [0x5E74]);
  (0xF98F, [0x6190]); (0xF990, [0x6200]); (0xF991, [0x649A]); (0xF992, [0x6F23]);
  (0xF993, [0x7149]); (0xF994, [0x7489]); (0xF995, [0x79CA]); (0xF996, [0x7DF4]);
  (0xF997, [0x806F]); (0xF998, [0x8F26]); (0xF999, [0x84EE]); (0xF99A, [0x9023]);
  (0xF99B, [0x934A]); (0xF99C, [0x5217]); (0xF99D, [0x52A3]); (0xF99E, [0x54BD]);
  (0xF99F, [0x70C8]); (0xF9A0, [0x88C2]); (0xF9A1, [0x8AAA]); (0xF9A2, [0x5EC9]);
  (0xF9A3, [0x5FF5]); (0xF9A4, [0x637B]); (0xF9A5, [0x6BAE]); (0xF9A6, [0x7C3E]);
  (0xF9A7, [0x7375]); (0xF9A8, [0x4EE4]); (0xF9A9, [0x56F9]); (0xF9AA, [0x5BE7]);
  (0xF9AB, [0x5DBA]); (0xF9AC, [0x601C]); (0xF9AD, [0x73B2]); (0xF9AE, [0x7469]);
  (0xF9AF, [0x7F9A]); (0xF9B0, [0x8046]); (0xF9B1, [0x9234]); (0xF9B2, [0x96F6]);
  (0xF9B3, [0x9748]); (0xF9B4, [0x9818]); (0xF9B5, [0x4F8B]); (0xF9B6, [0x79AE]);
  (0xF9B7, [0x91B4]); (0xF9B8, [0x96B8]); (0xF9B9, [0x60E1]); (0xF9BA, [0x4E86]);
  (0xF9BB, [0x50DA]); (0xF9BC, [0x5BEE]); (0xF9BD, [0x5C3F]); (0xF9BE, [0x6599]);
  (0xF9BF, [0x6A02]); (0xF9C0, [0x71CE]); (0xF9C1, [0x7642]); (0xF9C2, [0x84FC]);
  (0xF9C3, [0x907C]); (0xF9C4, [0x9F8D]); (0xF9C5, [0x6688]); (0xF9C6, [0x962E]);
  (0xF9C7, [0x5289]); (0xF9C8, [0x677B]); (0xF9C9, [0x67F3]); (0xF9CA, [0x6D41]);
  (0xF9CB, [0x6E9C]); (0xF9CC, [0x7409]); (0xF9CD, [0x7559]); (0xF9CE, [0x786B]);
  (0xF9CF, [0x7D10]); (0xF9D0, [0x985E]); (0xF9D1, [0x516D]); (0xF9D2, [0x622E]);
  (0xF9D3, [0x9678]); (0xF9D4, [0x502B]); (0xF9D5, [0x5D19]); (0xF9D6, [0x6DEA]);
  (0xF9D7, [0x8F2A]); (0xF9D8, [0x5F8B]); (0xF9D9, [0x6144]); (0xF9DA, [0x6817]);
  (0xF9DB, [0x7387]); (0xF9DC, [0x9686]); (0xF9DD, [0x5229]); (0xF9DE, [0x540F]);
  (0xF9DF, [0x5C65]); (0xF9E0, [0x6613]); (0xF9E1, [0x674E]); (0xF9E2, [0x68A8]);
  (0xF9E3, [0x6CE5]); (0xF9E4, [0x7406]); (0xF9E5, [0x75E2]); (0xF9E6, [0x7F79]);
  (0xF9E7, [0x88CF]); (0xF9E8, [0x88E1]); (0xF9E9, [0x91CC]); (0xF9EA, [0x96E2]);
  (0xF9EB, [0x533F]); (0xF9EC, [0x6EBA]); (0xF9ED, [0x541D]); (0xF9EE, [0x71D0]);
  (0xF9EF, [0x7498]); (0xF9F0, [0x85FA]); (0xF9F1, [0x96A3]); (0xF9F2, [0x9C57]);
  (0xF9F3, [0x9E9F]); (0xF9F4, [0x6797]); (0xF9F5, [0x6DCB]); (0xF9F6, [0x81E8]);
  (0xF9F7, [0x7ACB]); (0xF9F8, [0x7B20]); (0xF9F9, [0x7C92]); (0xF9FA, [0x72C0]);
  (0xF9FB, [0x7099]); (0xF9FC, [0x8B58]); (0xF9FD, [0x4EC0]); (0xF9FE, [0x8336]);
  (0xF9FF, [0x523A]); (0xFA00, [0x5207]); (0xFA01, [0x5EA6]); (0xFA02, [0x62D3]);
  (0xFA03, [0x7CD6]); (0xFA04, [0x5B85]); (0xFA05, [0x6D1E]); (0xFA06, [0x66B4]);
  (0xFA07, [0x8F3B]); (0xFA08, [0x884C]); (0xFA09, [0x964D]); (0xFA0A, [0x898B]);
  (0xFA0B, [0x5ED3]); (0xFA0C, [0x5140]); (0xFA0D, [0x55C0]); (0xFA10, [0x585A]);
  (0xFA12, [0x6674]); (0xFA15, [0x51DE]); (0xFA16, [0x732A]); (0xFA17, [0x76CA]);
  (0xFA18, [0x793C]); (0xFA19, [0x795E]); (0xFA1A, [0x7965]); (0xFA1B, [0x798F]);
  (0xFA1C, [0x9756]); (0xFA1D, [0x7CBE]); (0xFA1E, [0x7FBD]); (0xFA20, [0x8612]);
  (0xFA22, [0x8AF8]); (0xFA25, [0x9038]); (0xFA26, [0x90FD]); (0xFA2A, [0x98EF]);
  (0xFA2B, [0x98FC]); (0xFA2C, [0x9928]); (0xFA2D, [0x9DB4]); (0xFA2E, [0x90DE]);
  (0xFA2F, [0x96B7]); (0xFA30, [0x4FAE]); (0xFA31, [0x50E7]); (0xFA32, [0x514D]);
  (0xFA33, [0x52C9]); (0xFA34, [0x52E4]); (0xFA35, [0x5351]); (0xFA36, [0x559D]);
  (0xFA37, [0x5606]); (0xFA38, [0x5668]); (0xFA39, [0x5840]); (0xFA3A, [0x58A8]);
  (0xFA3B, [0x5C64]); (0xFA3C, [0x5C6E]); (0xFA3D, [0x6094]); (0xFA3E, [0x6168]);
  (0xFA3F, [0x618E]); (0xFA40, [0x61F2]); (0xFA41, [0x654F]); (0xFA42, [0x65E2]);
  (0xFA43, [0x6691]); (0xFA44, [0x6885]); (0xFA45, [0x6D77]); (0xFA46, [0x6E1A]);
  (0xFA47, [0x6F22]); (0xFA48, [0x716E]); (0xFA49, [0x722B]); (0xFA4A, [0x7422]);
  (0xFA4B, [0x7891]); (0xFA4C, [0x793E]); (0xFA4D, [0x7949]); (0xFA4E, [0x7948]);
  (0xFA4F, [0x7950]); (0xFA50, [0x7956]); (0xFA51, [0x795D]); (0xFA52, [0x798D]);
  (0xFA53, [0x798E]); (0xFA54, [0x7A40]); (0xFA55, [0x7A81]); (0xFA56, [0x7BC0]);
  (0xFA57, [0x7DF4]); (0xFA58, [0x7E09]); (0xFA59, [0x7E41]); (0xFA5A, [0x7F72]);
  (0xFA5B, [0x8005]); (0xFA5C, [0x81ED]); (0xFA5D, [0x8279]); (0xFA5E, [0x8279]);
  (0xFA5F, [0x8457]); (0xFA60, [0x8910]); (0xFA61, [0x8996]); (0xFA62, [0x8B01]);
  (0xFA63, [0x8B39]); (0xFA64, [0x8CD3]); (0xFA65, [0x8D08]); (0xFA66, [0x8FB6]);
  (0xFA67, [0x9038]); (0xFA68, [0x96E3]); (0xFA69, [0x97FF]); (0xFA6A, [0x983B]);
  (0xFA6B, [0x6075]); (0xFA6C, [0x242EE]); (0xFA6D, [0x8218]); (0xFA70, [0x4E26]);
  (0xFA71, [0x51B5]); (0xFA72, [0x5168]); (0xFA73, [0x4F80]); (0xFA74, [0x5145]);
  (0xFA75, [0x5180]); (0xFA76, [0x52C7]); (0xFA77, [0x52FA]); (0xFA78, [0x559D]);
  (0xFA79, [0x5555]); (0xFA7A, [0x5599]); (0xFA7B, [0x55E2]); (0xFA7C, [0x585A]);
  (0xFA7D, [0x58B3]); (0xFA7E, [0x5944]); (0xFA7F, [0x5954]); (0xFA80, [0x5A62]);
  (0xFA81, [0x5B28]); (0xFA82, [0x5ED2]); (0xFA83, [0x5ED9]); (0xFA84, [0x5F69]);
  (0xFA85, [0x5FAD]); (0xFA86, [0x60D8]); (0xFA87, [0x614E]); (0xFA88, [0x6108]);
  (0xFA89, [0x618E]); (0xFA8A, [0x6160]); (0xFA8B, [0x61F2]); (0xFA8C, [0x6234]);
  (0xFA8D, [0x63C4]); (0xFA8E, [0x641C]); (0xFA8F, [0x6452]); (0xFA90, [0x6556]);
  (0xFA91, [0x6674]); (0xFA92, [0x6717]); (0xFA93, [0x671B]); (0xFA94, [0x6756]);
  (0xFA95, [0x6B79]); (0xFA96, [0x6BBA]); (0xFA97, [0x6D41]); (0xFA98, [0x6EDB]);
  (0xFA99, [0x6ECB]); (0xFA9A, [0x6F22]); (0xFA9B, [0x701E]); (0xFA9C, [0x716E]);
  (0xFA9D, [0x77A7]); (0xFA9E, [0x7235]); (0xFA9F, [0x72AF]); (0xFAA0, [0x732A]);
  (0xFAA1, [0x7471]); (0xFAA2, [0x7506]); (0xFAA3, [0x753B]); (0xFAA4, [0x761D]);
  (0xFAA5, [0x761F]); (0xFAA6, [0x76CA]); (0xFAA7, [0x76DB]); (0xFAA8, [0x76F4]);
  (0xFAA9, [0x774A]); (0xFAAA, [0x7740]); (0xFAAB, [0x78CC]); (0xFAAC, [0x7AB1]);
  (0xFAAD, [0x7BC0]); (0xFAAE, [0x7C7B]); (0xFAAF, [0x7D5B]); (0xFAB0, [0x7DF4]);
  (0xFAB1, [0x7F3E]); (0xFAB2, [0x8005]); (0xFAB3, [0x8352]); (0xFAB4, [0x83EF]);
  (0xFAB5, [0x8779]); (0xFAB6, [0x8941]); (0xFAB7, [0x8986]); (0xFAB8, [0x8996]);
  (0xFAB9, [0x8ABF]); (0xFABA, [0x8AF8]); (0xFABB, [0x8ACB]); (0xFABC, [0x8B01]);
  (0xFABD, [0x8AFE]); (0xFABE, [0x8AED]); (0xFABF, [0x8B39]); (0xFAC0, [0x8B8A]);
  (0xFAC1, [0x8D08]); (0xFAC2, [0x8F38]); (0xFAC3, [0x9072]); (0xFAC4, [0x9199]);
  (0xFAC5, [0x9276]); (0xFAC6, [0x967C]); (0xFAC7, [0x96E3]); (0xFAC8, [0x9756]);
  (0xFAC9, [0x97DB]); (0xFACA, [0x97FF]); (0xFACB, [0x980B]); (0xFACC, [0x983B]);
  (0xFACD, [0x9B12]); (0xFACE, [0x9F9C]); (0xFACF, [0x2284A]); (0xFAD0, [0x22844]);
  (0xFAD1, [0x233D5]); (0xFAD2, [0x3B9D]); (0xFAD3, [0x4018]); (0xFAD4, [0x4039]);
  (0xFAD5, [0x25249]); (0xFAD6, [0x25CD0]); (0xFAD7, [0x27ED3]); (0xFAD8, [0x9F43]);
  (0xFAD9, [0x9F8E]); (0xFB1D, [0x5D9; 0x5B4]); (0xFB1F, [0x5F2; 0x5B7]);
  (0xFB2A, [0x5E9; 0x5C1]); (0xFB2B, [0x5E9; 0x5C2]); (0xFB2C, [0xFB49; 0x5C1]);
  (0xFB2D, [0xFB49; 0x5C2]); (0xFB2E, [0x5D0; 0x5B7]); (0xFB2F, [0x5D0; 0x5B8]);
  (0xFB30, [0x5D0; 0x5BC]); (0xFB31, [0x5D1; 0x5BC]); (0xFB32, [0x5D2; 0x5BC]);
  (0xFB33, [0x5D3; 0x5BC]); (0xFB34, [0x5D4; 0x5BC]); (0xFB35, [0x5D5; 0x5BC]);
  (0xFB36, [0x5D6; 0x5BC]); (0xFB38, [0x5D8; 0x5BC]); (0xFB39, [0x5D9; 0x5BC]);
  (0xFB3A, [0x5DA; 0x5BC]); (0xFB3B, [0x5DB; 0x5BC]); (0xFB3C, [0x5DC; 0x5BC]);
  (0xFB3E, [0x5DE; 0x5BC]); (0xFB40, [0x5E0; 0x5BC]); (0xFB41, [0x5E1; 0x5BC]);
  (0xFB43, [0x5E3; 0x5BC]); (0xFB44, [0x5E4; 0x5BC]); (0xFB46, [0x5E6; 0x5BC]);
  (0xFB47, [0x5E7; 0x5BC]); (0xFB48, [0x5E8; 0x5BC]); (0xFB49, [0x5E9; 0x5BC]);
  (0xFB4A, [0x5EA; 0x5BC]); (0xFB4B, [0x5D5; 0x5B9]); (0xFB4C, [0x5D1; 0x5BF]);
  (0xFB4D, [0x5DB; 0x5BF]); (0xFB4E, [0x5E4; 0x5BF]); (0x1109A, [0x11099; 0x110BA]);
  (0x1109C, [0x1109B; 0x110BA]); (0x110AB, [0x110A5; 0x110BA]); (0x1112E, [0x11131; 0x11127]);
  (0x1112F, [0x11132; 0x11127]); (0x1134B, [0x11347; 0x1133E]); (0x1134C, [0x11347; 0x11357]);
  (0x114BB, [0x114B9; 0x114BA]); (0x114BC, [0x114B9; 0x114B0]); (0x114BE, [0x114B9; 0x114BD]);
  (0x115BA, [0x115B8; 0x115AF]); (0x115BB, [0x115B9; 0x115AF]); (0x11938, [0x11935; 0x11930]);
  (0x1D15E, [0x1D157; 0x1D165]); (0x1D15F, [0x1D158; 0x1D165]); (0x1D160, [0x1D15F; 0x1D16E]);
  (0x1D161, [0x1D15F; 0x1D16F]); (0x1D162, [0x1D15F; 0x1D170]); (0x1D163, [0x1D15F; 0x1D171]);
  (0x1D164, [0x1D15F; 0x1D172]); (0x1D1BB, [0x1D1B9; 0x1D165]); (0x1D1BC, [0x1D1BA; 0x1D165]);
  (0x1D1BD, [0x1D1BB; 0x1D16E]); (0x1D1BE, [0x1D1BC; 0x1D16E]); (0x1D1BF, [0x1D1BB; 0x1D16F]);
  (0x1D1C0, [0x1D1BC; 0x1D16F]); (0x2F800, [0x4E3D]); (0x2F801, [0x4E38]); (0x2F802, [0x4E41]);
  (0x2F803, [0x20122]); (0x2F804, [0x4F60]); (0x2F805, [0x4FAE]); (0x2F806, [0x4FBB]);
  (0x2F807, [0x5002]); (0x2F808, [0x507A]); (0x2F809, [0x5099]); (0x2F80A, [0x50E7]);
  (0x2F80B, [0x50CF]); (0x2F80C, [0x349E]); (0x2F80D, [0x2063A]); (0x2F80E, [0x514D]);
  (0x2F80F, [0x5154]); (0x2F810, [0x5164]); (0x2F811, [0x5177]); (0x2F812, [0x2051C]);
  (0x2F813, [0x34B9]); (0x2F814, [0x5167]); (0x2F815, [0x518D]); (0x2F816, [0x2054B]);
  (0x2F817, [0x5197]); (0x2F818, [0x51A4]); (0x2F819, [0x4ECC]); (0x2F81A, [0x51AC]);
  (0x2F81B, [0x51B5]); (0x2F81C, [0x291DF]); (0x2F81D, [0x51F5]); (0x2F81E, [0x5203]);
  (0x2F81F, [0x34DF]); (0x2F820, [0x523B]); (0x2F821, [0x5246]); (0x2F822, [0x5272]);
  (0x2F823, [0x5277]); (0x2F824, [0x3515]); (0x2F825, [0x52C7]); (0x2F826, [0x52C9]);
  (0x2F827, [0x52E4]); (0x2F828, [0x52FA]); (0x2F829, [0x5305]); (0x2F82A, [0x5306]);
  (0x2F82B, [0x5317]); (0x2F82C, [0x5349]); (0x2F82D, [0x5351]); (0x2F82E, [0x535A]);
  (0x2F82F, [0x5373]); (0x2F830, [0x537D]); (0x2F831, [0x537F]); (0x2F832, [0x537F]);
  (0x2F833, [0x537F]); (0x2F834, [0x20A2C]); (0x2F835, [0x7070]); (0x2F836, [0x53CA]);
  (0x2F837, [0x53DF]); (0x2F838, [0x20B63]); (0x2F839, [0x53EB]); (0x2F83A, [0x53F1]);
  (0x2F83B, [0x5406]); (0x2F83C, [0x549E]); (0x2F83D, [0x5438]); (0x2F83E, [0x5448]);
  (0x2F83F, [0x5468]); (0x2F840, [0x54A2]); (0x2F841, [0x54F6]); (0x2F842, [0x5510]);
  (0x2F843, [0x5553]); (0x2F844, [0x5563]); (0x2F845, [0x5584]); (0x2F846, [0x5584]);
  (0x2F847, [0x5599]); (0x2F848, [0x55AB]); (0x2F849, [0x55B3]); (0x2F84A, [0x55C2]);
  (0x2F84B, [0x5716]); (0x2F84C, [0x5606]); (0x2F84D, [0x5717]); (0x2F84E, [0x5651]);
  (0x2F84F, [0x5674]); (0x2F850, [0x5207]); (0x2F851, [0x58EE]); (0x2F852, [0x57CE]);
  (0x2F853, [0x57F4]); (0x2F854, [0x580D]); (0x2F855, [0x578B]); (0x2F856, [0x5832]);
  (0x2F857, [0x5831]); (0x2F858, [0x58AC]); (0x2F859, [0x214E4]); (0x2F85A, [0x58F2]);
  (0x2F85B, [0x58F7]); (0x2F85C, [0x5906]); (0x2F85D, [0x591A]); (0x2F85E, [0x5922]);
  (0x2F85F, [0x5962]); (0x2F860, [0x216A8]); (0x2F861, [0x216EA]); (0x2F862, [0x59EC]);
  (0x2F863, [0x5A1B]); (0x2F864, [0x5A27]); (0x2F865, [0x59D8]); (0x2F866, [0x5A66]);
  (0x2F867, [0x36EE]); (0x2F868, [0x36FC]); (0x2F869, [0x5B08]); (0x2F86A, [0x5B3E]);
  (0x2F86B, [0x5B3E]); (0x2F86C, [0x219C8]); (0x2F86D, [0x5BC3]); (0x2F86E, [0x5BD8]);
  (0x2F86F, [0x5BE7]); (0x2F870, [0x5BF3]); (0x2F871, [0x21B18]); (0x2F872, [0x5BFF]);
  (0x2F873, [0x5C06]); (0x2F874, [0x5F53]); (0x2F875, [0x5C22]); (0x2F876, [0x3781]);
  (0x2F877, [0x5C60]); (0x2F878, [0x5C6E]); (0x2F879, [0x5CC0]); (0x2F87A, [0x5C8D]);
  (0x2F87B, [0x21DE4]); (0x2F87C, [0x5D43]); (0x2F87D, [0x21DE6]); (0x2F87E, [0x5D6E]);
  (0x2F87F, [0x5D6B]); (0x2F880, [0x5D7C]); (0x2F881, [0x5DE1]); (0x2F882, [0x5DE2]);
  (0x2F883, [0x382F]); (0x2F884, [0x5DFD]); (0x2F885, [0x5E28]); (0x2F886, [0x5E3D]);
  (0x2F887, [0x5E69]); (0x2F888, [0x3862]); (0x2F889, [0x22183]); (0x2F88A, [0x387C]);
  (0x2F88B, [0x5EB0]); (0x2F88C, [0x5EB3]); (0x2F88D, [0x5EB6]); (0x2F88E, [0x5ECA]);
  (0x2F88F, [0x2A392]); (0x2F890, [0x5EFE]); (0x2F891, [0x22331]); (0x2F892, [0x22331]);
  (0x2F893, [0x8201]); (0x2F894, [0x5F22]); (0x2F895, [0x5F22]); (0x2F896, [0x38C7]);
  (0x2F897, [0x232B8]); (0x2F898, [0x261DA]); (0x2F899, [0x5F62]); (0x2F89A, [0x5F6B]);
  (0x2F89B, [0x38E3]); (0x2F89C, [0x5F9A]); (0x2F89D, [0x5FCD]); (0x2F89E, [0x5FD7]);
  (0x2F89F, [0x5FF9]); (0x2F8A0, [0x6081]); (0x2F8A1, [0x393A]); (0x2F8A2, [0x391C]);
  (0x2F8A3, [0x6094]); (0x2F8A4, [0x226D4]); (0x2F8A5, [0x60C7]); (0x2F8A6, [0x6148]);
  (0x2F8A7, [0x614C]); (0x2F8A8, [0x614E]); (0x2F8A9, [0x614C]); (0x2F8AA, [0x617A]);
  (0x2F8AB, [0x618E]); (0x2F8AC, [0x61B2]); (0x2F8AD, [0x61A4]); (0x2F8AE, [0x61AF]);
  (0x2F8AF, [0x61DE]); (0x2F8B0, [0x61F2]); (0x2F8B1, [0x61F6]); (0x2F8B2, [0x6210]);
  (0x2F8B3, [0x621B]); (0x2F8B4, [0x625D]); (0x2F8B5, [0x62B1]); (0x2F8B6, [0x62D4]);
  (0x2F8B7, [0x6350]); (0x2F8B8, [0x22B0C]); (0x2F8B9, [0x633D]); (0x2F8BA, [0x62FC]);
  (0x2F8BB, [0x6368]); (0x2F8BC, [0x6383]); (0x2F8BD, [0x63E4]); (0x2F8BE, [0x22BF1]);
  (0x2F8BF, [0x6422]); (0x2F8C0, [0x63C5]); (0x2F8C1, [0x63A9]); (0x2F8C2, [0x3A2E]);
  (0x2F8C3, [0x6469]); (0x2F8C4, [0x647E]); (0x2F8C5, [0x649D]); (0x2F8C6, [0x6477]);
  (0x2F8C7, [0x3A6C]); (0x2F8C8, [0x654F]); (0x2F8C9, [0x656C]); (0x2F8CA, [0x2300A]);
  (0x2F8CB, [0x65E3]); (0x2F8CC, [0x66F8]); (0x2F8CD, [0x6649]); (0x2F8CE, [0x3B19]);
  (0x2F8CF, [0x6691]); (0x2F8D0, [0x3B08]); (0x2F8D1, [0x3AE4]); (0x2F8D2, [0x5192]);
  (0x2F8D3, [0x5195]); (0x2F8D4, [0x6700]); (0x2F8D5, [0x669C]); (0x2F8D6, [0x80AD]);
  (0x2F8D7, [0x43D9]); (0x2F8D8, [0x6717]); (0x2F8D9, [0x671B]); (0x2F8DA, [0x6721]);
  (0x2F8DB, [0x675E]); (0x2F8DC, [0x6753]); (0x2F8DD, [0x233C3]); (0x2F8DE, [0x3B49]);
  (0x2F8DF, [0x67FA]); (0x2F8E0, [0x6785]); (0x2F8E1, [0x6852]); (0x2F8E2, [0x6885]);
  (0x2F8E3, [0x2346D]); (0x2F8E4, [0x688E]); (0x2F8E5, [0x681F]); (0x2F8E6, [0x6914]);
  (0x2F8E7, [0x3B9D]); (0x2F8E8, [0x6942]); (0x2F8E9, [0x69A3]); (0x2F8EA, [0x69EA]);
  (0x2F8EB, [0x6AA8]); (0x2F8EC, [0x236A3]); (0x2F8ED, [0x6ADB]); (0x2F8EE, [0x3C18]);
  (0x2F8EF, [0x6B21]); (0x2F8F0, [0x238A7]); (0x2F8F1, [0x6B54]); (0x2F8F2, [0x3C4E]);
  (0x2F8F3, [0x6B72]); (0x2F8F4, [0x6B9F]); (0x2F8F5, [0x6BBA]); (0x2F8F6, [0x6BBB]);
  (0x2F8F7, [0x23A8D]); (0x2F8F8, [0x21D0B]); (0x2F8F9, [0x23AFA]); (0x2F8FA, [0x6C4E]);
  (0x2F8FB, [0x23CBC]); (0x2F8FC, [0x6CBF]); (0x2F8FD, [0x6CCD]); (0x2F8FE, [0x6C67]);
  (0x2F8FF, [0x6D16]); (0x2F900, [0x6D3E]); (0x2F901, [0x6D77]); (0x2F902, [0x6D41]);
  (0x2F903, [0x6D69]); (0x2F904, [0x6D78]); (0x2F905, [0x6D85]); (0x2F906, [0x23D1E]);
  (0x2F907, [0x6D34]); (0x2F908, [0x6E2F]); (0x2F909, [0x6E6E]); (0x2F90A, [0x3D33]);
  (0x2F90B, [0x6ECB]); (0x2F90C, [0x6EC7]); (0x2F90D, [0x23ED1]); (0x2F90E, [0x6DF9]);
  (0x2F90F, [0x6F6E]); (0x2F910, [0x23F5E]); (0x2F911, [0x23F8E]); (0x2F912, [0x6FC6]);
  (0x2F913, [0x7039]); (0x2F914, [0x701E]); (0x2F915, [0x701B]); (0x2F916, [0x3D96]);
  (0x2F917, [0x704A]); (0x2F918, [0x707D]); (0x2F919, [0x7077]); (0x2F91A, [0x70AD]);
  (0x2F91B, [0x20525]); (0x2F91C, [0x7145]); (0x2F91D, [0x24263]); (0x2F91E, [0x719C]);
  (0x2F91F, [0x243AB]); (0x2F920, [0x7228]); (0x2F921, [0x7235]); (0x2F922, [0x7250]);
  (0x2F923, [0x24608]); (0x2F924, [0x7280]); (0x2F925, [0x7295]); (0x2F926, [0x24735]);
  (0x2F927, [0x24814]); (0x2F928, [0x737A]); (0x2F929, [0x738B]); (0x2F92A, [0x3EAC]);
  (0x2F92B, [0x73A5]); (0x2F92C, [0x3EB8]); (0x2F92D, [0x3EB8]); (0x2F92E, [0x7447]);
  (0x2F92F, [0x745C]); (0x2F930, [0x7471]); (0x2F931, [0x7485]); (0x2F932, [0x74CA]);
  (0x2F933, [0x3F1B]); (0x2F934, [0x7524]); (0x2F935, [0x24C36]); (0x2F936, [0x753E]);
  (0x2F937, [0x24C92]); (0x2F938, [0x7570]); (0x2F939, [0x2219F]); (0x2F93A, [0x7610]);
  (0x2F93B, [0x24FA1]); (0x2F93C, [0x24FB8]); (0x2F93D, [0x25044]); (0x2F93E, [0x3FFC]);
  (0x2F93F, [0x4008]); (0x2F940, [0x76F4]); (0x2F941, [0x250F3]); (0x2F942, [0x250F2]);
  (0x2F943, [0x25119]); (0x2F944, [0x25133]); (0x2F945, [0x771E]); (0x2F946, [0x771F]);
  (0x2F947, [0x771F]); (0x2F948, [0x774A]); (0x2F949, [0x4039]); (0x2F94A, [0x778B]);
  (0x2F94B, [0x4046]); (0x2F94C, [0x4096]); (0x2F94D, [0x2541D]); (0x2F94E, [0x784E]);
  (0x2F94F, [0x788C]); (0x2F950, [0x78CC]); (0x2F951, [0x40E3]); (0x2F952, [0x25626]);
  (0x2F953, [0x7956]); (0x2F954, [0x2569A]); (0x2F955, [0x256C5]); (0x2F956, [0x798F]);
  (0x2F957, [0x79EB]); (0x2F958, [0x412F]); (0x2F959, [0x7A40]); (0x2F95A, [0x7A4A]);
  (0x2F95B, [0x7A4F]); (0x2F95C, [0x2597C]); (0x2F95D, [0x25AA7]); (0x2F95E, [0x25AA7]);
  (0x2F95F, [0x7AEE]); (0x2F960, [0x4202]); (0x2F961, [0x25BAB]); (0x2F962, [0x7BC6]);
  (0x2F963, [0x7BC9]); (0x2F964, [0x4227]); (0x2F965, [0x25C80]); (0x2F966, [0x7CD2]);
  (0x2F967, [0x42A0]); (0x2F968, [0x7CE8]); (0x2F969, [0x7CE3]); (0x2F96A, [0x7D00]);
  (0x2F96B, [0x25F86]); (0x2F96C, [0x7D63]); (0x2F96D, [0x4301]); (0x2F96E, [0x7DC7]);
  (0x2F96F, [0x7E02]); (0x2F970, [0x7E45]); (0x2F971, [0x4334]); (0x2F972, [0x26228]);
  (0x2F973, [0x26247]); (0x2F974, [0x4359]); (0x2F975, [0x262D9]); (0x2F976, [0x7F7A]);
  (0x2F977, [0x2633E]); (0x2F978, [0x7F95]); (0x2F979, [0x7FFA]); (0x2F97A, [0x8005]);
  (0x2F97B, [0x264DA]); (0x2F97C, [0x26523]); (0x2F97D, [0x8060]); (0x2F97E, [0x265A8]);
  (0x2F97F, [0x8070]); (0x2F980, [0x2335F]); (0x2F981, [0x43D5]); (0x2F982, [0x80B2]);
  (0x2F983, [0x8103]); (0x2F984, [0x440B]); (0x2F985, [0x813E]); (0x2F986, [0x5AB5]);
  (0x2F987, [0x267A7]); (0x2F988, [0x267B5]); (0x2F989, [0x23393]); (0x2F98A, [0x2339C]);
  (0x2F98B, [0x8201]); (0x2F98C, [0x8204]); (0x2F98D, [0x8F9E]); (0x2F98E, [0x446B]);
  (0x2F98F, [0x8291]); (0x2F990, [0x828B]); (0x2F991, [0x829D]); (0x2F992, [0x52B3]);
  (0x2F993, [0x82B1]); (0x2F994, [0x82B3]); (0x2F995, [0x82BD]); (0x2F996, [0x82E6]);
  (0x2F997, [0x26B3C]); (0x2F998, [0x82E5]); (0x2F999, [0x831D]); (0x2F99A, [0x8363]);
  (0x2F99B, [0x83AD]); (0x2F99C, [0x8323]); (0x2F99D, [0x83BD]); (0x2F99E, [0x83E7]);
  (0x2F99F, [0x8457]); (0x2F9A0, [0x8353]); (0x2F9A1, [0x83CA]); (0x2F9A2, [0x83CC]);
  (0x2F9A3, [0x83DC]); (0x2F9A4, [0x26C36]); (0x2F9A5, [0x26D6B]); (0x2F9A6, [0x26CD5]);
  (0x2F9A7, [0x452B]); (0x2F9A8, [0x84F1]); (0x2F9A9, [0x84F3]); (0x2F9AA, [0x8516]);
  (0x2F9AB, [0x273CA]); (0x2F9AC, [0x8564]); (0x2F9AD, [0x26F2C]); (0x2F9AE, [0x455D]);
  (0x2F9AF, [0x4561]); (0x2F9B0, [0x26FB1]); (0x2F9B1, [0x270D2]); (0x2F9B2, [0x456B]);
  (0x2F9B3, [0x8650]); (0x2F9B4, [0x865C]); (0x2F9B5, [0x8667]); (0x2F9B6, [0x8669]);
  (0x2F9B7, [0x86A9]); (0x2F9B8, [0x8688]); (0x2F9B9, [0x870E]); (0x2F9BA, [0x86E2]);
  (0x2F9BB, [0x8779]); (0x2F9BC, [0x8728]); (0x2F9BD, [0x876B]); (0x2F9BE, [0x8786]);
  (0x2F9BF, [0x45D7]); (0x2F9C0, [0x87E1]); (0x2F9C1, [0x8801]); (0x2F9C2, [0x45F9]);
  (0x2F9C3, [0x8860]); (0x2F9C4, [0x8863]); (0x2F9C5, [0x27667]); (0x2F9C6, [0x88D7]);
  (0x2F9C7, [0x88DE]); (0x2F9C8, [0x4635]); (0x2F9C9, [0x88FA]); (0x2F9CA, [0x34BB]);
  (0x2F9CB, [0x278AE]); (0x2F9CC, [0x27966]); (0x2F9CD, [0x46BE]); (0x2F9CE, [0x46C7]);
  (0x2F9CF, [0x8AA0]); (0x2F9D0, [0x8AED]); (0x2F9D1, [0x8B8A]); (0x2F9D2, [0x8C55]);
  (0x2F9D3, [0x27CA8]); (0x2F9D4, [0x8CAB]); (0x2F9D5, [0x8CC1]); (0x2F9D6, [0x8D1B]);
  (0x2F9D7, [0x8D77]); (0x2F9D8, [0x27F2F]); (0x2F9D9, [0x20804]); (0x2F9DA, [0x8DCB]);
  (0x2F9DB, [0x8DBC]); (0x2F9DC, [0x8DF0]); (0x2F9DD, [0x208DE]); (0x2F9DE, [0x8ED4]);
  (0x2F9DF, [0x8F38]); (0x2F9E0, [0x285D2]); (0x2F9E1, [0x285ED]); (0x2F9E2, [0x9094]);
  (0x2F9E3, [0x90F1]); (0x2F9E4, [0x9111]); (0x2F9E5, [0x2872E]); (0x2F9E6, [0x911B]);
  (0x2F9E7, [0x9238]); (0x2F9E8, [0x92D7]); (0x2F9E9, [0x92D8]); (0x2F9EA, [0x927C]);
  (0x2F9EB, [0x93F9]); (0x2F9EC, [0x9415]); (0x2F9ED, [0x28BFA]); (0x2F9EE, [0x958B]);
  (0x2F9EF, [0x4995]); (0x2F9F0, [0x95B7]); (0x2F9F1, [0x28D77]); (0x2F9F2, [0x49E6]);
  (0x2F9F3, [0x96C3]); (0x2F9F4, [0x5DB2]); (0x2F9F5, [0x9723]); (0x2F9F6, [0x29145]);
  (0x2F9F7, [0x2921A]); (0x2F9F8, [0x4A6E]); (0x2F9F9, [0x4A76]); (0x2F9FA, [0x97E0]);
  (0x2F9FB, [0x2940A]); (0x2F9FC, [0x4AB2]); (0x2F9FD, [0x29496]); (0x2F9FE, [0x980B]);
  (0x2F9FF, [0x980B]); (0x2FA00, [0x9829]); (0x2FA01, [0x295B6]); (0x2FA02, [0x98E2]);
  (0x2FA03, [0x4B33]); (0x2FA04, [0x9929]); (0x2FA05, [0x99A7]); (0x2FA06, [0x99C2]);
  (0x2FA07, [0x99FE]); (0x2FA08, [0x4BCE]); (0x2FA09, [0x29B30]); (0x2FA0A, [0x9B12]);
  (0x2FA0B, [0x9C40]); (0x2FA0C, [0x9CFD]); (0x2FA0D, [0x4CCE]); (0x2FA0E, [0x4CED]);
  (0x2FA0F, [0x9D67]); (0x2FA10, [0x2A0CE]); (0x2FA11, [0x4CF8]); (0x2FA12, [0x2A105]);
  (0x2FA13, [0x2A20E]); (0x2FA14, [0x2A291]); (0x2FA15, [0x9EBB]); (0x2FA16, [0x4D56]);
  (0x2FA17, [0x9EF9]); (0x2FA18, [0x9EFE]); (0x2FA19, [0x9F05]); (0x2FA1A, [0x9F0F]);
  (0x2FA1B, [0x9F16]); (0x2FA1C, [0x9F3B]); (0x2FA1D, [0x2A600])
]%Z.

(** The code points of non-zero canonical combining class, with the
    class, as [unicodedata.combining] reports it. *)
Definition combining_table : list (Z * Z) := [
  (0x300, 230); (0x301, 230); (0x302, 230); (0x303, 230); (0x304, 230); (0x305, 230);
  (0x306, 230); (0x307, 230); (0x308, 230); (0x309, 230); (0x30A, 230); (0x30B, 230);
  (0x30C, 230); (0x30D, 230); (0x30E, 230); (0x30F, 230); (0x310, 230); (0x311, 230);
  (0x312, 230); (0x313, 230); (0x314, 230); (0x315, 232); (0x316, 220); (0x317, 220);
  (0x318, 220); (0x319, 220); (0x31A, 232); (0x31B, 216); (0x31C, 220); (0x31D, 220);
  (0x31E, 220); (0x31F, 220); (0x320, 220); (0x321, 202); (0x322, 202); (0x323, 220);
  (0x324, 220); (0x325, 220); (0x326, 220); (0x327, 202); (0x328, 202); (0x329, 220);
  (0x32A, 220); (0x32B, 220); (0x32C, 220); (0x32D, 220); (0x32E, 220); (0x32F, 220);
  (0x330, 220); (0x331, 220); (0x332, 220); (0x333, 220); (0x334, 1); (0x335, 1); (0x336, 1);
  (0x337, 1); (0x338, 1); (0x339, 220); (0x33A, 220); (0x33B, 220); (0x33C, 220); (0x33D, 230);
  (0x33E, 230); (0x33F, 230); (0x340, 230); (0x341, 230); (0x342, 230); (0x343, 230);
  (0x344, 230); (0x345, 240); (0x346, 230); (0x347, 220); (0x348, 220); (0x349, 220);
  (0x34A, 230); (0x34B, 230); (0x34C, 230); (0x34D, 220); (0x34E, 220); (0x350, 230);
  (0x351, 230); (0x352, 230); (0x353, 220); (0x354, 220); (0x355, 220); (0x356, 220);
  (0x357, 230); (0x358, 232); (0x359, 220); (0x35A, 220); (0x35B, 230); (0x35C, 233);
  (0x35D, 234); (0x35E, 234); (0x35F, 233); (0x360, 234); (0x361, 234); (0x362, 233);
  (0x363, 230); (0x364, 230); (0x365, 230); (0x366, 230); (0x367, 230); (0x368, 230);
  (0x369, 230); (0x36A, 230); (0x36B, 230); (0x36C, 230); (0x36D, 230); (0x36E, 230);
  (0x36F, 230); (0x483, 230); (0x484, 230); (0x485, 230); (0x486, 230); (0x487, 230);
  (0x591, 220); (0x592, 230); (0x593, 230); (0x594, 230); (0x595, 230); (0x596, 220);
  (0x597, 230); (0x598, 230); (0x599, 230); (0x59A, 222); (0x59B, 220); (0x59C, 230);
  (0x59D, 230); (0x59E, 230); (0x59F, 230); (0x5A0, 230); (0x5A1, 230); (0x5A2, 220);
  (0x5A3, 220); (0x5A4, 220); (0x5A5, 220); (0x5A6, 220); (0x5A7, 220); (0x5A8, 230);
  (0x5A9, 230); (0x5AA, 220); (0x5AB, 230); (0x5AC, 230); (0x5AD, 222); (0x5AE, 228);
  (0x5AF, 230); (0x5B0, 10); (0x5B1, 11); (0x5B2, 12); (0x5B3, 13); (0x5B4, 14); (0x5B5, 15);
  (0x5B6, 16); (0x5B7, 17); (0x5B8, 18); (0x5B9, 19); (0x5BA, 19); (0x5BB, 20); (0x5BC, 21);
  (0x5BD, 22); (0x5BF, 23); (0x5C1, 24); (0x5C2, 25); (0x5C4, 230); (0x5C5, 220); (0x5C7, 18);
  (0x610, 230); (0x611, 230); (0x612, 230); (0x613, 230); (0x614, 230); (0x615, 230);
  (0x616, 230); (0x617, 230); (0x618, 30); (0x619, 31); (0x61A, 32); (0x64B, 27); (0x64C, 28);
  (0x64D, 29); (0x64E, 30); (0x64F, 31); (0x650, 32); (0x651, 33); (0x652, 34); (0x653, 230);
  (0x654, 230); (0x655, 220); (0x656, 220); (0x657, 230); (0x658, 230); (0x659, 230);
  (0x65A, 230); (0x65B, 230); (0x65C, 220); (0x65D, 230); (0x65E, 230); (0x65F, 220);
  (0x670, 35); (0x6D6, 230); (0x6D7, 230); (0x6D8, 230); (0x6D9, 230); (0x6DA, 230);
  (0x6DB, 230); (0x6DC, 230); (0x6DF, 230); (0x6E0, 230); (0x6E1, 230); (0x6E2, 230);
  (0x6E3, 220); (0x6E4, 230); (0x6E7, 230); (0x6E8, 230); (0x6EA, 220); (0x6EB, 230);
  (0x6EC, 230); (0x6ED, 220); (0x711, 36); (0x730, 230); (0x731, 220); (0x732, 230);
  (0x733, 230); (0x734, 220); (0x735, 230); (0x736, 230); (0x737, 220); (0x738, 220);
  (0x739, 220); (0x73A, 230); (0x73B, 220); (0x73C, 220); (0x73D, 230); (0x73E, 220);
  (0x73F, 230); (0x740, 230); (0x741, 230); (0x742, 220); (0x743, 230); (0x744, 220);
  (0x745, 230); (0x746, 220); (0x747, 230); (0x748, 220); (0x749, 230); (0x74A, 230);
  (0x7EB, 230); (0x7EC, 230); (0x7ED, 230); (0x7EE, 230); (0x7EF, 230); (0x7F0, 230);
  (0x7F1, 230); (0x7F2, 220); (0x7F3, 230); (0x7FD, 220); (0x816, 230); (0x817, 230);
  (0x818, 230); (0x819, 230); (0x81B, 230); (0x81C, 230); (0x81D, 230); (0x81E, 230);
  (0x81F, 230); (0x820, 230); (0x821, 230); (0x822, 230); (0x823, 230); (0x825, 230);
  (0x826, 230); (0x827, 230); (0x829, 230); (0x82A, 230); (0x82B, 230); (0x82C, 230);
  (0x82D, 230); (0x859, 220); (0x85A, 220); (0x85B, 220); (0x898, 230); (0x899, 220);
  (0x89A, 220); (0x89B, 220); (0x89C, 230); (0x89D, 230); (0x89E, 230); (0x89F, 230);
  (0x8CA, 230); (0x8CB, 230); (0x8CC, 230); (0x8CD, 230); (0x8CE, 230); (0x8CF, 220);
  (0x8D0, 220); (0x8D1, 220); (0x8D2, 220); (0x8D3, 220); (0x8D4, 230); (0x8D5, 230);
  (0x8D6, 230); (0x8D7, 230); (0x8D8, 230); (0x8D9, 230); (0x8DA, 230); (0x8DB, 230);
  (0x8DC, 230); (0x8DD, 230); (0x8DE, 230); (0x8DF, 230); (0x8E0, 230); (0x8E1, 230);
  (0x8E3, 220); (0x8E4, 230); (0x8E5, 230); (0x8E6, 220); (0x8E7, 230); (0x8E8, 230);
  (0x8E9, 220); (0x8EA, 230); (0x8EB, 230); (0x8EC, 230); (0x8ED, 220); (0x8EE, 220);
  (0x8EF, 220); (0x8F0, 27); (0x8F1, 28); (0x8F2, 29); (0x8F3, 230); (0x8F4, 230);
  (0x8F5, 230); (0x8F6, 220); (0x8F7, 230); (0x8F8, 230); (0x8F9, 220); (0x8FA, 220);
  (0x8FB, 230); (0x8FC, 230); (0x8FD, 230); (0x8FE, 230); (0x8FF, 230); (0x93C, 7); (0x94D, 9);
  (0x951, 230); (0x952, 220); (0x953, 230); (0x954, 230); (0x9BC, 7); (0x9CD, 9); (0x9FE, 230);
  (0xA3C, 7); (0xA4D, 9); (0xABC, 7); (0xACD, 9); (0xB3C, 7); (0xB4D, 9); (0xBCD, 9);
  (0xC3C, 7); (0xC4D, 9); (0xC55, 84); (0xC56, 91); (0xCBC, 7); (0xCCD, 9); (0xD3B, 9);
  (0xD3C, 9); (0xD4D, 9); (0xDCA, 9); (0xE38, 103); (0xE39, 103); (0xE3A, 9); (0xE48, 107);
  (0xE49, 107); (0xE4A, 107); (0xE4B, 107); (0xEB8, 118); (0xEB9, 118); (0xEBA, 9);
  (0xEC8, 122); (0xEC9, 122); (0xECA, 122); (0xECB, 122); (0xF18, 220); (0xF19, 220);
  (0xF35, 220); (0xF37, 220); (0xF39, 216); (0xF71, 129); (0xF72, 130); (0xF74, 132);
  (0xF7A, 130); (0xF7B, 130); (0xF7C, 130); (0xF7D, 130); (0xF80, 130); (0xF82, 230);
  (0xF83, 230); (0xF84, 9); (0xF86, 230); (0xF87, 230); (0xFC6, 220); (0x1037, 7); (0x1039, 9);
  (0x103A, 9); (0x108D, 220); (0x135D, 230); (0x135E, 230); (0x135F, 230); (0x1714, 9);
  (0x1715, 9); (0x1734, 9); (0x17D2, 9); (0x17DD, 230); (0x18A9, 228); (0x1939, 222);
  (0x193A, 230); (0x193B, 220); (0x1A17, 230); (0x1A18, 220); (0x1A60, 9); (0x1A75, 230);
  (0x1A76, 230); (0x1A77, 230); (0x1A78, 230); (0x1A79, 230); (0x1A7A, 230); (0x1A7B, 230);
  (0x1A7C, 230); (0x1A7F, 220); (0x1AB0, 230); (0x1AB1, 230); (0x1AB2, 230); (0x1AB3, 230);
  (0x1AB4, 230); (0x1AB5, 220); (0x1AB6, 220); (0x1AB7, 220); (0x1AB8, 220); (0x1AB9, 220);
  (0x1ABA, 220); (0x1ABB, 230); (0x1ABC, 230); (0x1ABD, 220); (0x1ABF, 220); (0x1AC0, 220);
  (0x1AC1, 230); (0x1AC2, 230); (0x1AC3, 220); (0x1AC4, 220); (0x1AC5, 230); (0x1AC6, 230);
  (0x1AC7, 230); (0x1AC8, 230); (0x1AC9, 230); (0x1ACA, 220); (0x1ACB, 230); (0x1ACC, 230);
  (0x1ACD, 230); (0x1ACE, 230); (0x1B34, 7); (0x1B44, 9); (0x1B6B, 230); (0x1B6C, 220);
  (0x1B6D, 230); (0x1B6E, 230); (0x1B6F, 230); (0x1B70, 230); (0x1B71, 230); (0x1B72, 230);
  (0x1B73, 230); (0x1BAA, 9); (0x1BAB, 9); (0x1BE6, 7); (0x1BF2, 9); (0x1BF3, 9); (0x1C37, 7);
  (0x1CD0, 230); (0x1CD1, 230); (0x1CD2, 230); (0x1CD4, 1); (0x1CD5, 220); (0x1CD6, 220);
  (0x1CD7, 220); (0x1CD8, 220); (0x1CD9, 220); (0x1CDA, 230); (0x1CDB, 230); (0x1CDC, 220);
  (0x1CDD, 220); (0x1CDE, 220); (0x1CDF, 220); (0x1CE0, 230); (0x1CE2, 1); (0x1CE3, 1);
  (0x1CE4, 1); (0x1CE5, 1); (0x1CE6, 1); (0x1CE7, 1); (0x1CE8, 1); (0x1CED, 220);
  (0x1CF4, 230); (0x1CF8, 230); (0x1CF9, 230); (0x1DC0, 230); (0x1DC1, 230); (0x1DC2, 220);
  (0x1DC3, 230); (0x1DC4, 230); (0x1DC5, 230); (0x1DC6, 230); (0x1DC7, 230); (0x1DC8, 230);
  (0x1DC9, 230); (0x1DCA, 220); (0x1DCB, 230); (0x1DCC, 230); (0x1DCD, 234); (0x1DCE, 214);
  (0x1DCF, 220); (0x1DD0, 202); (0x1DD1, 230); (0x1DD2, 230); (0x1DD3, 230); (0x1DD4, 230);
  (0x1DD5, 230); (0x1DD6, 230); (0x1DD7, 230); (0x1DD8, 230); (0x1DD9, 230); (0x1DDA, 230);
  (0x1DDB, 230); (0x1DDC, 230); (0x1DDD, 230); (0x1DDE, 230); (0x1DDF, 230); (0x1DE0, 230);
  (0x1DE1, 230); (0x1DE2, 230); (0x1DE3, 230); (0x1DE4, 230); (0x1DE5, 230); (0x1DE6, 230);
  (0x1DE7, 230); (0x1DE8, 230); (0x1DE9, 230); (0x1DEA, 230); (0x1DEB, 230); (0x1DEC, 230);
  (0x1DED, 230); (0x1DEE, 230); (0x1DEF, 230); (0x1DF0, 230); (0x1DF1, 230); (0x1DF2, 230);
  (0x1DF3, 230); (0x1DF4, 230); (0x1DF5, 230); (0x1DF6, 232); (0x1DF7, 228); (0x1DF8, 228);
  (0x1DF9, 220); (0x1DFA, 218); (0x1DFB, 230); (0x1DFC, 233); (0x1DFD, 220); (0x1DFE, 230);
  (0x1DFF, 220); (0x20D0, 230); (0x20D1, 230); (0x20D2, 1); (0x20D3, 1); (0x20D4, 230);
  (0x20D5, 230); (0x20D6, 230); (0x20D7, 230); (0x20D8, 1); (0x20D9, 1); (0x20DA, 1);
  (0x20DB, 230); (0x20DC, 230); (0x20E1, 230); (0x20E5, 1); (0x20E6, 1); (0x20E7, 230);
  (0x20E8, 220); (0x20E9, 230); (0x20EA, 1); (0x20EB, 1); (0x20EC, 220); (0x20ED, 220);
  (0x20EE, 220); (0x20EF, 220); (0x20F0, 230); (0x2CEF, 230); (0x2CF0, 230); (0x2CF1, 230);
  (0x2D7F, 9); (0x2DE0, 230); (0x2DE1, 230); (0x2DE2, 230); (0x2DE3, 230); (0x2DE4, 230);
  (0x2DE5, 230); (0x2DE6, 230); (0x2DE7, 230); (0x2DE8, 230); (0x2DE9, 230); (0x2DEA, 230);
  (0x2DEB, 230); (0x2DEC, 230); (0x2DED, 230); (0x2DEE, 230); (0x2DEF, 230); (0x2DF0, 230);
  (0x2DF1, 230); (0x2DF2, 230); (0x2DF3, 230); (0x2DF4, 230); (0x2DF5, 230); (0x2DF6, 230);
  (0x2DF7, 230); (0x2DF8, 230); (0x2DF9, 230); (0x2DFA, 230); (0x2DFB, 230); (0x2DFC, 230);
  (0x2DFD, 230); (0x2DFE, 230); (0x2DFF, 230); (0x302A, 218); (0x302B, 228); (0x302C, 232);
  (0x302D, 222); (0x302E, 224); (0x302F, 224); (0x3099, 8); (0x309A, 8); (0xA66F, 230);
  (0xA674, 230); (0xA675, 230); (0xA676, 230); (0xA677, 230); (0xA678, 230); (0xA679, 230);
  (0xA67A, 230); (0xA67B, 230); (0xA67C, 230); (0xA67D, 230); (0xA69E, 230); (0xA69F, 230);
  (0xA6F0, 230); (0xA6F1, 230); (0xA806, 9); (0xA82C, 9); (0xA8C4, 9); (0xA8E0, 230);
  (0xA8E1, 230); (0xA8E2, 230); (0xA8E3, 230); (0xA8E4, 230); (0xA8E5, 230); (0xA8E6, 230);
  (0xA8E7, 230); (0xA8E8, 230); (0xA8E9, 230); (0xA8EA, 230); (0xA8EB, 230); (0xA8EC, 230);
  (0xA8ED, 230); (0xA8EE, 230); (0xA8EF, 230); (0xA8F0, 230); (0xA8F1, 230); (0xA92B, 220);
  (0xA92C, 220); (0xA92D, 220); (0xA953, 9); (0xA9B3, 7); (0xA9C0, 9); (0xAAB0, 230);
  (0xAAB2, 230); (0xAAB3, 230); (0xAAB4, 220); (0xAAB7, 230); (0xAAB8, 230); (0xAABE, 230);
  (0xAABF, 230); (0xAAC1, 230); (0xAAF6, 9); (0xABED, 9); (0xFB1E, 26); (0xFE20, 230);
  (0xFE21, 230); (0xFE22, 230); (0xFE23, 230); (0xFE24, 230); (0xFE25, 230); (0xFE26, 230);
  (0xFE27, 220); (0xFE28, 220); (0xFE29, 220); (0xFE2A, 220); (0xFE2B, 220); (0xFE2C, 220);
  (0xFE2D, 220); (0xFE2E, 230); (0xFE2F, 230); (0x101FD, 220); (0x102E0, 220); (0x10376, 230);
  (0x10377, 230); (0x10378, 230); (0x10379, 230); (0x1037A, 230); (0x10A0D, 220);
  (0x10A0F, 230); (0x10A38, 230); (0x10A39, 1); (0x10A3A, 220); (0x10A3F, 9); (0x10AE5, 230);
  (0x10AE6, 220); (0x10D24, 230); (0x10D25, 230); (0x10D26, 230); (0x10D27, 230);
  (0x10EAB, 230); (0x10EAC, 230); (0x10F46, 220); (0x10F47, 220); (0x10F48, 230);
  (0x10F49, 230); (0x10F4A, 230); (0x10F4B, 220); (0x10F4C, 230); (0x10F4D, 220);
  (0x10F4E, 220); (0x10F4F, 220); (0x10F50, 220); (0x10F82, 230); (0x10F83, 220);
  (0x10F84, 230); (0x10F85, 220); (0x11046, 9); (0x11070, 9); (0x1107F, 9); (0x110B9, 9);
  (0x110BA, 7); (0x11100, 230); (0x11101, 230); (0x11102, 230); (0x11133, 9); (0x11134, 9);
  (0x11173, 7); (0x111C0, 9); (0x111CA, 7); (0x11235, 9); (0x11236, 7); (0x112E9, 7);
  (0x112EA, 9); (0x1133B, 7); (0x1133C, 7); (0x1134D, 9); (0x11366, 230); (0x11367, 230);
  (0x11368, 230); (0x11369, 230); (0x1136A, 230); (0x1136B, 230); (0x1136C, 230);
  (0x11370, 230); (0x11371, 230); (0x11372, 230); (0x11373, 230); (0x11374, 230); (0x11442, 9);
  (0x11446, 7); (0x1145E, 230); (0x114C2, 9); (0x114C3, 7); (0x115BF, 9); (0x115C0, 7);
  (0x1163F, 9); (0x116B6, 9); (0x116B7, 7); (0x1172B, 9); (0x11839, 9); (0x1183A, 7);
  (0x1193D, 9); (0x1193E, 9); (0x11943, 7); (0x119E0, 9); (0x11A34, 9); (0x11A47, 9);
  (0x11A99, 9); (0x11C3F, 9); (0x11D42, 7); (0x11D44, 9); (0x11D45, 9); (0x11D97, 9);
  (0x16AF0, 1); (0x16AF1, 1); (0x16AF2, 1); (0x16AF3, 1); (0x16AF4, 1); (0x16B30, 230);
  (0x16B31, 230); (0x16B32, 230); (0x16B33, 230); (0x16B34, 230); (0x16B35, 230);
  (0x16B36, 230); (0x16FF0, 6); (0x16FF1, 6); (0x1BC9E, 1); (0x1D165, 216); (0x1D166, 216);
  (0x1D167, 1); (0x1D168, 1); (0x1D169, 1); (0x1D16D, 226); (0x1D16E, 216); (0x1D16F, 216);
  (0x1D170, 216); (0x1D171, 216); (0x1D172, 216); (0x1D17B, 220); (0x1D17C, 220);
  (0x1D17D, 220); (0x1D17E, 220); (0x1D17F, 220); (0x1D180, 220); (0x1D181, 220);
  (0x1D182, 220); (0x1D185, 230); (0x1D186, 230); (0x1D187, 230); (0x1D188, 230);
  (0x1D189, 230); (0x1D18A, 220); (0x1D18B, 220); (0x1D1AA, 230); (0x1D1AB, 230);
  (0x1D1AC, 230); (0x1D1AD, 230); (0x1D242, 230); (0x1D243, 230); (0x1D244, 230);
  (0x1E000, 230); (0x1E001, 230); (0x1E002, 230); (0x1E003, 230); (0x1E004, 230);
  (0x1E005, 230); (0x1E006, 230); (0x1E008, 230); (0x1E009, 230); (0x1E00A, 230);
  (0x1E00B, 230); (0x1E00C, 230); (0x1E00D, 230); (0x1E00E, 230); (0x1E00F, 230);
  (0x1E010, 230); (0x1E011, 230); (0x1E012, 230); (0x1E013, 230); (0x1E014, 230);
  (0x1E015, 230); (0x1E016, 230); (0x1E017, 230); (0x1E018, 230); (0x1E01B, 230);
  (0x1E01C, 230); (0x1E01D, 230); (0x1E01E, 230); (0x1E01F, 230); (0x1E020, 230);
  (0x1E021, 230); (0x1E023, 230); (0x1E024, 230); (0x1E026, 230); (0x1E027, 230);
  (0x1E028, 230); (0x1E029, 230); (0x1E02A, 230); (0x1E130, 230); (0x1E131, 230);
  (0x1E132, 230); (0x1E133, 230); (0x1E134, 230); (0x1E135, 230); (0x1E136, 230);
  (0x1E2AE, 230); (0x1E2EC, 230); (0x1E2ED, 230); (0x1E2EE, 230); (0x1E2EF, 230);
  (0x1E8D0, 220); (0x1E8D1, 220); (0x1E8D2, 220); (0x1E8D3, 220); (0x1E8D4, 220);
  (0x1E8D5, 220); (0x1E8D6, 220); (0x1E944, 230); (0x1E945, 230); (0x1E946, 230);
  (0x1E947, 230); (0x1E948, 230); (0x1E949, 230); (0x1E94A, 7)
]%Z.

(** The primary composites: first character, second character, composite
    (the pairs the composition pass of the C code finds in its
    first/last tables; excluded and singleton mappings are not
    among them). *)
Definition composition_table : list (Z * Z * Z) := [
  (0x3C, 0x338, 0x226E); (0x3D, 0x338, 0x2260); (0x3E, 0x338, 0x226F); (0x41, 0x300, 0xC0);
  (0x41, 0x301, 0xC1); (0x41, 0x302, 0xC2); (0x41, 0x303, 0xC3); (0x41, 0x304, 0x100);
  (0x41, 0x306, 0x102); (0x41, 0x307, 0x226); (0x41, 0x308, 0xC4); (0x41, 0x309, 0x1EA2);
  (0x41, 0x30A, 0xC5); (0x41, 0x30C, 0x1CD); (0x41, 0x30F, 0x200); (0x41, 0x311, 0x202);
  (0x41, 0x323, 0x1EA0); (0x41, 0x325, 0x1E00); (0x41, 0x328, 0x104); (0x42, 0x307, 0x1E02);
  (0x42, 0x323, 0x1E04); (0x42, 0x331, 0x1E06); (0x43, 0x301, 0x106); (0x43, 0x302, 0x108);
  (0x43, 0x307, 0x10A); (0x43, 0x30C, 0x10C); (0x43, 0x327, 0xC7); (0x44, 0x307, 0x1E0A);
  (0x44, 0x30C, 0x10E); (0x44, 0x323, 0x1E0C); (0x44, 0x327, 0x1E10); (0x44, 0x32D, 0x1E12);
  (0x44, 0x331, 0x1E0E); (0x45, 0x300, 0xC8); (0x45, 0x301, 0xC9); (0x45, 0x302, 0xCA);
  (0x45, 0x303, 0x1EBC); (0x45, 0x304, 0x112); (0x45, 0x306, 0x114); (0x45, 0x307, 0x116);
  (0x45, 0x308, 0xCB); (0x45, 0x309, 0x1EBA); (0x45, 0x30C, 0x11A); (0x45, 0x30F, 0x204);
  (0x45, 0x311, 0x206); (0x45, 0x323, 0x1EB8); (0x45, 0x327, 0x228); (0x45, 0x328, 0x118);
  (0x45, 0x32D, 0x1E18); (0x45, 0x330, 0x1E1A); (0x46, 0x307, 0x1E1E); (0x47, 0x301, 0x1F4);
  (0x47, 0x302, 0x11C); (0x47, 0x304, 0x1E20); (0x47, 0x306, 0x11E); (0x47, 0x307, 0x120);
  (0x47, 0x30C, 0x1E6); (0x47, 0x327, 0x122); (0x48, 0x302, 0x124); (0x48, 0x307, 0x1E22);
  (0x48, 0x308, 0x1E26); (0x48, 0x30C, 0x21E); (0x48, 0x323, 0x1E24); (0x48, 0x327, 0x1E28);
  (0x48, 0x32E, 0x1E2A); (0x49, 0x300, 0xCC); (0x49, 0x301, 0xCD); (0x49, 0x302, 0xCE);
  (0x49, 0x303, 0x128); (0x49, 0x304, 0x12A); (0x49, 0x306, 0x12C); (0x49, 0x307, 0x130);
  (0x49, 0x308, 0xCF); (0x49, 0x309, 0x1EC8); (0x49, 0x30C, 0x1CF); (0x49, 0x30F, 0x208);
  (0x49, 0x311, 0x20A); (0x49, 0x323, 0x1ECA); (0x49, 0x328, 0x12E); (0x49, 0x330, 0x1E2C);
  (0x4A, 0x302, 0x134); (0x4B, 0x301, 0x1E30); (0x4B, 0x30C, 0x1E8); (0x4B, 0x323, 0x1E32);
  (0x4B, 0x327, 0x136); (0x4B, 0x331, 0x1E34); (0x4C, 0x301, 0x139); (0x4C, 0x30C, 0x13D);
  (0x4C, 0x323, 0x1E36); (0x4C, 0x327, 0x13B); (0x4C, 0x32D, 0x1E3C); (0x4C, 0x331, 0x1E3A);
  (0x4D, 0x301, 0x1E3E); (0x4D, 0x307, 0x1E40); (0x4D, 0x323, 0x1E42); (0x4E, 0x300, 0x1F8);
  (0x4E, 0x301, 0x143); (0x4E, 0x303, 0xD1); (0x4E, 0x307, 0x1E44); (0x4E, 0x30C, 0x147);
  (0x4E, 0x323, 0x1E46); (0x4E, 0x327, 0x145); (0x4E, 0x32D, 0x1E4A); (0x4E, 0x331, 0x1E48);
  (0x4F, 0x300, 0xD2); (0x4F, 0x301, 0xD3); (0x4F, 0x302, 0xD4); (0x4F, 0x303, 0xD5);
  (0x4F, 0x304, 0x14C); (0x4F, 0x306, 0x14E); (0x4F, 0x307, 0x22E); (0x4F, 0x308, 0xD6);
  (0x4F, 0x309, 0x1ECE); (0x4F, 0x30B, 0x150); (0x4F, 0x30C, 0x1D1); (0x4F, 0x30F, 0x20C);
  (0x4F, 0x311, 0x20E); (0x4F, 0x31B, 0x1A0); (0x4F, 0x323, 0x1ECC); (0x4F, 0x328, 0x1EA);
  (0x50, 0x301, 0x1E54); (0x50, 0x307, 0x1E56); (0x52, 0x301, 0x154); (0x52, 0x307, 0x1E58);
  (0x52, 0x30C, 0x158); (0x52, 0x30F, 0x210); (0x52, 0x311, 0x212); (0x52, 0x323, 0x1E5A);
  (0x52, 0x327, 0x156); (0x52, 0x331, 0x1E5E); (0x53, 0x301, 0x15A); (0x53, 0x302, 0x15C);
  (0x53, 0x307, 0x1E60); (0x53, 0x30C, 0x160); (0x53, 0x323, 0x1E62); (0x53, 0x326, 0x218);
  (0x53, 0x327, 0x15E); (0x54, 0x307, 0x1E6A); (0x54, 0x30C, 0x164); (0x54, 0x323, 0x1E6C);
  (0x54, 0x326, 0x21A); (0x54, 0x327, 0x162); (0x54, 0x32D, 0x1E70); (0x54, 0x331, 0x1E6E);
  (0x55, 0x300, 0xD9); (0x55, 0x301, 0xDA); (0x55, 0x302, 0xDB); (0x55, 0x303, 0x168);
  (0x55, 0x304, 0x16A); (0x55, 0x306, 0x16C); (0x55, 0x308, 0xDC); (0x55, 0x309, 0x1EE6);
  (0x55, 0x30A, 0x16E); (0x55, 0x30B, 0x170); (0x55, 0x30C, 0x1D3); (0x55, 0x30F, 0x214);
  (0x55, 0x311, 0x216); (0x55, 0x31B, 0x1AF); (0x55, 0x323, 0x1EE4); (0x55, 0x324, 0x1E72);
  (0x55, 0x328, 0x172); (0x55, 0x32D, 0x1E76); (0x55, 0x330, 0x1E74); (0x56, 0x303, 0x1E7C);
  (0x56, 0x323, 0x1E7E); (0x57, 0x300, 0x1E80); (0x57, 0x301, 0x1E82); (0x57, 0x302, 0x174);
  (0x57, 0x307, 0x1E86); (0x57, 0x308, 0x1E84); (0x57, 0x323, 0x1E88); (0x58, 0x307, 0x1E8A);
  (0x58, 0x308, 0x1E8C); (0x59, 0x300, 0x1EF2); (0x59, 0x301, 0xDD); (0x59, 0x302, 0x176);
  (0x59, 0x303, 0x1EF8); (0x59, 0x304, 0x232); (0x59, 0x307, 0x1E8E); (0x59, 0x308, 0x178);
  (0x59, 0x309, 0x1EF6); (0x59, 0x323, 0x1EF4); (0x5A, 0x301, 0x179); (0x5A, 0x302, 0x1E90);
  (0x5A, 0x307, 0x17B); (0x5A, 0x30C, 0x17D); (0x5A, 0x323, 0x1E92); (0x5A, 0x331, 0x1E94);
  (0x61, 0x300, 0xE0); (0x61, 0x301, 0xE1); (0x61, 0x302, 0xE2); (0x61, 0x303, 0xE3);
  (0x61, 0x304, 0x101); (0x61, 0x306, 0x103); (0x61, 0x307, 0x227); (0x61, 0x308, 0xE4);
  (0x61, 0x309, 0x1EA3); (0x61, 0x30A, 0xE5); (0x61, 0x30C, 0x1CE); (0x61, 0x30F, 0x201);
  (0x61, 0x311, 0x203); (0x61, 0x323, 0x1EA1); (0x61, 0x325, 0x1E01); (0x61, 0x328, 0x105);
  (0x62, 0x307, 0x1E03); (0x62, 0x323, 0x1E05); (0x62, 0x331, 0x1E07); (0x63, 0x301, 0x107);
  (0x63, 0x302, 0x109); (0x63, 0x307, 0x10B); (0x63, 0x30C, 0x10D); (0x63, 0x327, 0xE7);
  (0x64, 0x307, 0x1E0B); (0x64, 0x30C, 0x10F); (0x64, 0x323, 0x1E0D); (0x64, 0x327, 0x1E11);
  (0x64, 0x32D, 0x1E13); (0x64, 0x331, 0x1E0F); (0x65, 0x300, 0xE8); (0x65, 0x301, 0xE9);
  (0x65, 0x302, 0xEA); (0x65, 0x303, 0x1EBD); (0x65, 0x304, 0x113); (0x65, 0x306, 0x115);
  (0x65, 0x307, 0x117); (0x65, 0x308, 0xEB); (0x65, 0x309, 0x1EBB); (0x65, 0x30C, 0x11B);
  (0x65, 0x30F, 0x205); (0x65, 0x311, 0x207); (0x65, 0x323, 0x1EB9); (0x65, 0x327, 0x229);
  (0x65, 0x328, 0x119); (0x65, 0x32D, 0x1E19); (0x65, 0x330, 0x1E1B); (0x66, 0x307, 0x1E1F);
  (0x67, 0x301, 0x1F5); (0x67, 0x302, 0x11D); (0x67, 0x304, 0x1E21); (0x67, 0x306, 0x11F);
  (0x67, 0x307, 0x121); (0x67, 0x30C, 0x1E7); (0x67, 0x327, 0x123); (0x68, 0x302, 0x125);
  (0x68, 0x307, 0x1E23); (0x68, 0x308, 0x1E27); (0x68, 0x30C, 0x21F); (0x68, 0x323, 0x1E25);
  (0x68, 0x327, 0x1E29); (0x68, 0x32E, 0x1E2B); (0x68, 0x331, 0x1E96); (0x69, 0x300, 0xEC);
  (0x69, 0x301, 0xED); (0x69, 0x302, 0xEE); (0x69, 0x303, 0x129); (0x69, 0x304, 0x12B);
  (0x69, 0x306, 0x12D); (0x69, 0x308, 0xEF); (0x69, 0x309, 0x1EC9); (0x69, 0x30C, 0x1D0);
  (0x69, 0x30F, 0x209); (0x69, 0x311, 0x20B); (0x69, 0x323, 0x1ECB); (0x69, 0x328, 0x12F);
  (0x69, 0x330, 0x1E2D); (0x6A, 0x302, 0x135); (0x6A, 0x30C, 0x1F0); (0x6B, 0x301, 0x1E31);
  (0x6B, 0x30C, 0x1E9); (0x6B, 0x323, 0x1E33); (0x6B, 0x327, 0x137); (0x6B, 0x331, 0x1E35);
  (0x6C, 0x301, 0x13A); (0x6C, 0x30C, 0x13E); (0x6C, 0x323, 0x1E37); (0x6C, 0x327, 0x13C);
  (0x6C, 0x32D, 0x1E3D); (0x6C, 0x331, 0x1E3B); (0x6D, 0x301, 0x1E3F); (0x6D, 0x307, 0x1E41);
  (0x6D, 0x323, 0x1E43); (0x6E, 0x300, 0x1F9); (0x6E, 0x301, 0x144); (0x6E, 0x303, 0xF1);
  (0x6E, 0x307, 0x1E45); (0x6E, 0x30C, 0x148); (0x6E, 0x323, 0x1E47); (0x6E, 0x327, 0x146);
  (0x6E, 0x32D, 0x1E4B); (0x6E, 0x331, 0x1E49); (0x6F, 0x300, 0xF2); (0x6F, 0x301, 0xF3);
  (0x6F, 0x302, 0xF4); (0x6F, 0x303, 0xF5); (0x6F, 0x304, 0x14D); (0x6F, 0x306, 0x14F);
  (0x6F, 0x307, 0x22F); (0x6F, 0x308, 0xF6); (0x6F, 0x309, 0x1ECF); (0x6F, 0x30B, 0x151);
  (0x6F, 0x30C, 0x1D2); (0x6F, 0x30F, 0x20D); (0x6F, 0x311, 0x20F); (0x6F, 0x31B, 0x1A1);
  (0x6F, 0x323, 0x1ECD); (0x6F, 0x328, 0x1EB); (0x70, 0x301, 0x1E55); (0x70, 0x307, 0x1E57);
  (0x72, 0x301, 0x155); (0x72, 0x307, 0x1E59); (0x72, 0x30C, 0x159); (0x72, 0x30F, 0x211);
  (0x72, 0x311, 0x213); (0x72, 0x323, 0x1E5B); (0x72, 0x327, 0x157); (0x72, 0x331, 0x1E5F);
  (0x73, 0x301, 0x15B); (0x73, 0x302, 0x15D); (0x73, 0x307, 0x1E61); (0x73, 0x30C, 0x161);
  (0x73, 0x323, 0x1E63); (0x73, 0x326, 0x219); (0x73, 0x327, 0x15F); (0x74, 0x307, 0x1E6B);
  (0x74, 0x308, 0x1E97); (0x74, 0x30C, 0x165); (0x74, 0x323, 0x1E6D); (0x74, 0x326, 0x21B);
  (0x74, 0x327, 0x163); (0x74, 0x32D, 0x1E71); (0x74, 0x331, 0x1E6F); (0x75, 0x300, 0xF9);
  (0x75, 0x301, 0xFA); (0x75, 0x302, 0xFB); (0x75, 0x303, 0x169); (0x75, 0x304, 0x16B);
  (0x75, 0x306, 0x16D); (0x75, 0x308, 0xFC); (0x75, 0x309, 0x1EE7); (0x75, 0x30A, 0x16F);
  (0x75, 0x30B, 0x171); (0x75, 0x30C, 0x1D4); (0x75, 0x30F, 0x215); (0x75, 0x311, 0x217);
  (0x75, 0x31B, 0x1B0); (0x75, 0x323, 0x1EE5); (0x75, 0x324, 0x1E73); (0x75, 0x328, 0x173);
  (0x75, 0x32D, 0x1E77); (0x75, 0x330, 0x1E75); (0x76, 0x303, 0x1E7D); (0x76, 0x323, 0x1E7F);
  (0x77, 0x300, 0x1E81); (0x77, 0x301, 0x1E83); (0x77, 0x302, 0x175); (0x77, 0x307, 0x1E87);
  (0x77, 0x308, 0x1E85); (0x77, 0x30A, 0x1E98); (0x77, 0x323, 0x1E89); (0x78, 0x307, 0x1E8B);
  (0x78, 0x308, 0x1E8D); (0x79, 0x300, 0x1EF3); (0x79, 0x301, 0xFD); (0x79, 0x302, 0x177);
  (0x79, 0x303, 0x1EF9); (0x79, 0x304, 0x233); (0x79, 0x307, 0x1E8F); (0x79, 0x308, 0xFF);
  (0x79, 0x309, 0x1EF7); (0x79, 0x30A, 0x1E99); (0x79, 0x323, 0x1EF5); (0x7A, 0x301, 0x17A);
  (0x7A, 0x302, 0x1E91); (0x7A, 0x307, 0x17C); (0x7A, 0x30C, 0x17E); (0x7A, 0x323, 0x1E93);
  (0x7A, 0x331, 0x1E95); (0xA8, 0x300, 0x1FED); (0xA8, 0x301, 0x385); (0xA8, 0x342, 0x1FC1);
  (0xC2, 0x300, 0x1EA6); (0xC2, 0x301, 0x1EA4); (0xC2, 0x303, 0x1EAA); (0xC2, 0x309, 0x1EA8);
  (0xC4, 0x304, 0x1DE); (0xC5, 0x301, 0x1FA); (0xC6, 0x301, 0x1FC); (0xC6, 0x304, 0x1E2);
  (0xC7, 0x301, 0x1E08); (0xCA, 0x300, 0x1EC0); (0xCA, 0x301, 0x1EBE); (0xCA, 0x303, 0x1EC4);
  (0xCA, 0x309, 0x1EC2); (0xCF, 0x301, 0x1E2E); (0xD4, 0x300, 0x1ED2); (0xD4, 0x301, 0x1ED0);
  (0xD4, 0x303, 0x1ED6); (0xD4, 0x309, 0x1ED4); (0xD5, 0x301, 0x1E4C); (0xD5, 0x304, 0x22C);
  (0xD5, 0x308, 0x1E4E); (0xD6, 0x304, 0x22A); (0xD8, 0x301, 0x1FE); (0xDC, 0x300, 0x1DB);
  (0xDC, 0x301, 0x1D7); (0xDC, 0x304, 0x1D5); (0xDC, 0x30C, 0x1D9); (0xE2, 0x300, 0x1EA7);
  (0xE2, 0x301, 0x1EA5); (0xE2, 0x303, 0x1EAB); (0xE2, 0x309, 0x1EA9); (0xE4, 0x304, 0x1DF);
  (0xE5, 0x301, 0x1FB); (0xE6, 0x301, 0x1FD); (0xE6, 0x304, 0x1E3); (0xE7, 0x301, 0x1E09);
  (0xEA, 0x300, 0x1EC1); (0xEA, 0x301, 0x1EBF); (0xEA, 0x303, 0x1EC5); (0xEA, 0x309, 0x1EC3);
  (0xEF, 0x301, 0x1E2F); (0xF4, 0x300, 0x1ED3); (0xF4, 0x301, 0x1ED1); (0xF4, 0x303, 0x1ED7);
  (0xF4, 0x309, 0x1ED5); (0xF5, 0x301, 0x1E4D); (0xF5, 0x304, 0x22D); (0xF5, 0x308, 0x1E4F);
  (0xF6, 0x304, 0x22B); (0xF8, 0x301, 0x1FF); (0xFC, 0x300, 0x1DC); (0xFC, 0x301, 0x1D8);
  (0xFC, 0x304, 0x1D6); (0xFC, 0x30C, 0x1DA); (0x102, 0x300, 0x1EB0); (0x102, 0x301, 0x1EAE);
  (0x102, 0x303, 0x1EB4); (0x102, 0x309, 0x1EB2); (0x103, 0x300, 0x1EB1);
  (0x103, 0x301, 0x1EAF); (0x103, 0x303, 0x1EB5); (0x103, 0x309, 0x1EB3);
  (0x112, 0x300, 0x1E14); (0x112, 0x301, 0x1E16); (0x113, 0x300, 0x1E15);
  (0x113, 0x301, 0x1E17); (0x14C, 0x300, 0x1E50); (0x14C, 0x301, 0x1E52);
  (0x14D, 0x300, 0x1E51); (0x14D, 0x301, 0x1E53); (0x15A, 0x307, 0x1E64);
  (0x15B, 0x307, 0x1E65); (0x160, 0x307, 0x1E66); (0x161, 0x307, 0x1E67);
  (0x168, 0x301, 0x1E78); (0x169, 0x301, 0x1E79); (0x16A, 0x308, 0x1E7A);
  (0x16B, 0x308, 0x1E7B); (0x17F, 0x307, 0x1E9B); (0x1A0, 0x300, 0x1EDC);
  (0x1A0, 0x301, 0x1EDA); (0x1A0, 0x303, 0x1EE0); (0x1A0, 0x309, 0x1EDE);
  (0x1A0, 0x323, 0x1EE2); (0x1A1, 0x300, 0x1EDD); (0x1A1, 0x301, 0x1EDB);
  (0x1A1, 0x303, 0x1EE1); (0x1A1, 0x309, 0x1EDF); (0x1A1, 0x323, 0x1EE3);
  (0x1AF, 0x300, 0x1EEA); (0x1AF, 0x301, 0x1EE8); (0x1AF, 0x303, 0x1EEE);
  (0x1AF, 0x309, 0x1EEC); (0x1AF, 0x323, 0x1EF0); (0x1B0, 0x300, 0x1EEB);
  (0x1B0, 0x301, 0x1EE9); (0x1B0, 0x303, 0x1EEF); (0x1B0, 0x309, 0x1EED);
  (0x1B0, 0x323, 0x1EF1); (0x1B7, 0x30C, 0x1EE); (0x1EA, 0x304, 0x1EC); (0x1EB, 0x304, 0x1ED);
  (0x226, 0x304, 0x1E0); (0x227, 0x304, 0x1E1); (0x228, 0x306, 0x1E1C); (0x229, 0x306, 0x1E1D);
  (0x22E, 0x304, 0x230); (0x22F, 0x304, 0x231); (0x292, 0x30C, 0x1EF); (0x391, 0x300, 0x1FBA);
  (0x391, 0x301, 0x386); (0x391, 0x304, 0x1FB9); (0x391, 0x306, 0x1FB8);
  (0x391, 0x313, 0x1F08); (0x391, 0x314, 0x1F09); (0x391, 0x345, 0x1FBC);
  (0x395, 0x300, 0x1FC8); (0x395, 0x301, 0x388); (0x395, 0x313, 0x1F18);
  (0x395, 0x314, 0x1F19); (0x397, 0x300, 0x1FCA); (0x397, 0x301, 0x389);
  (0x397, 0x313, 0x1F28); (0x397, 0x314, 0x1F29); (0x397, 0x345, 0x1FCC);
  (0x399, 0x300, 0x1FDA); (0x399, 0x301, 0x38A); (0x399, 0x304, 0x1FD9);
  (0x399, 0x306, 0x1FD8); (0x399, 0x308, 0x3AA); (0x399, 0x313, 0x1F38);
  (0x399, 0x314, 0x1F39); (0x39F, 0x300, 0x1FF8); (0x39F, 0x301, 0x38C);
  (0x39F, 0x313, 0x1F48); (0x39F, 0x314, 0x1F49); (0x3A1, 0x314, 0x1FEC);
  (0x3A5, 0x300, 0x1FEA); (0x3A5, 0x301, 0x38E); (0x3A5, 0x304, 0x1FE9);
  (0x3A5, 0x306, 0x1FE8); (0x3A5, 0x308, 0x3AB); (0x3A5, 0x314, 0x1F59);
  (0x3A9, 0x300, 0x1FFA); (0x3A9, 0x301, 0x38F); (0x3A9, 0x313, 0x1F68);
  (0x3A9, 0x314, 0x1F69); (0x3A9, 0x345, 0x1FFC); (0x3AC, 0x345, 0x1FB4);
  (0x3AE, 0x345, 0x1FC4); (0x3B1, 0x300, 0x1F70); (0x3B1, 0x301, 0x3AC);
  (0x3B1, 0x304, 0x1FB1); (0x3B1, 0x306, 0x1FB0); (0x3B1, 0x313, 0x1F00);
  (0x3B1, 0x314, 0x1F01); (0x3B1, 0x342, 0x1FB6); (0x3B1, 0x345, 0x1FB3);
  (0x3B5, 0x300, 0x1F72); (0x3B5, 0x301, 0x3AD); (0x3B5, 0x313, 0x1F10);
  (0x3B5, 0x314, 0x1F11); (0x3B7, 0x300, 0x1F74); (0x3B7, 0x301, 0x3AE);
  (0x3B7, 0x313, 0x1F20); (0x3B7, 0x314, 0x1F21); (0x3B7, 0x342, 0x1FC6);
  (0x3B7, 0x345, 0x1FC3); (0x3B9, 0x300, 0x1F76); (0x3B9, 0x301, 0x3AF);
  (0x3B9, 0x304, 0x1FD1); (0x3B9, 0x306, 0x1FD0); (0x3B9, 0x308, 0x3CA);
  (0x3B9, 0x313, 0x1F30); (0x3B9, 0x314, 0x1F31); (0x3B9, 0x342, 0x1FD6);
  (0x3BF, 0x300, 0x1F78); (0x3BF, 0x301, 0x3CC); (0x3BF, 0x313, 0x1F40);
  (0x3BF, 0x314, 0x1F41); (0x3C1, 0x313, 0x1FE4); (0x3C1, 0x314, 0x1FE5);
  (0x3C5, 0x300, 0x1F7A); (0x3C5, 0x301, 0x3CD); (0x3C5, 0x304, 0x1FE1);
  (0x3C5, 0x306, 0x1FE0); (0x3C5, 0x308, 0x3CB); (0x3C5, 0x313, 0x1F50);
  (0x3C5, 0x314, 0x1F51); (0x3C5, 0x342, 0x1FE6); (0x3C9, 0x300, 0x1F7C);
  (0x3C9, 0x301, 0x3CE); (0x3C9, 0x313, 0x1F60); (0x3C9, 0x314, 0x1F61);
  (0x3C9, 0x342, 0x1FF6); (0x3C9, 0x345, 0x1FF3); (0x3CA, 0x300, 0x1FD2);
  (0x3CA, 0x301, 0x390); (0x3CA, 0x342, 0x1FD7); (0x3CB, 0x300, 0x1FE2); (0x3CB, 0x301, 0x3B0);
  (0x3CB, 0x342, 0x1FE7); (0x3CE, 0x345, 0x1FF4); (0x3D2, 0x301, 0x3D3); (0x3D2, 0x308, 0x3D4);
  (0x406, 0x308, 0x407); (0x410, 0x306, 0x4D0); (0x410, 0x308, 0x4D2); (0x413, 0x301, 0x403);
  (0x415, 0x300, 0x400); (0x415, 0x306, 0x4D6); (0x415, 0x308, 0x401); (0x416, 0x306, 0x4C1);
  (0x416, 0x308, 0x4DC); (0x417, 0x308, 0x4DE); (0x418, 0x300, 0x40D); (0x418, 0x304, 0x4E2);
  (0x418, 0x306, 0x419); (0x418, 0x308, 0x4E4); (0x41A, 0x301, 0x40C); (0x41E, 0x308, 0x4E6);
  (0x423, 0x304, 0x4EE); (0x423, 0x306, 0x40E); (0x423, 0x308, 0x4F0); (0x423, 0x30B, 0x4F2);
  (0x427, 0x308, 0x4F4); (0x42B, 0x308, 0x4F8); (0x42D, 0x308, 0x4EC); (0x430, 0x306, 0x4D1);
  (0x430, 0x308, 0x4D3); (0x433, 0x301, 0x453); (0x435, 0x300, 0x450); (0x435, 0x306, 0x4D7);
  (0x435, 0x308, 0x451); (0x436, 0x306, 0x4C2); (0x436, 0x308, 0x4DD); (0x437, 0x308, 0x4DF);
  (0x438, 0x300, 0x45D); (0x438, 0x304, 0x4E3); (0x438, 0x306, 0x439); (0x438, 0x308, 0x4E5);
  (0x43A, 0x301, 0x45C); (0x43E, 0x308, 0x4E7); (0x443, 0x304, 0x4EF); (0x443, 0x306, 0x45E);
  (0x443, 0x308, 0x4F1); (0x443, 0x30B, 0x4F3); (0x447, 0x308, 0x4F5); (0x44B, 0x308, 0x4F9);
  (0x44D, 0x308, 0x4ED); (0x456, 0x308, 0x457); (0x474, 0x30F, 0x476); (0x475, 0x30F, 0x477);
  (0x4D8, 0x308, 0x4DA); (0x4D9, 0x308, 0x4DB); (0x4E8, 0x308, 0x4EA); (0x4E9, 0x308, 0x4EB);
  (0x627, 0x653, 0x622); (0x627, 0x654, 0x623); (0x627, 0x655, 0x625); (0x648, 0x654, 0x624);
  (0x64A, 0x654, 0x626); (0x6C1, 0x654, 0x6C2); (0x6D2, 0x654, 0x6D3); (0x6D5, 0x654, 0x6C0);
  (0x928, 0x93C, 0x929); (0x930, 0x93C, 0x931); (0x933, 0x93C, 0x934); (0x9C7, 0x9BE, 0x9CB);
  (0x9C7, 0x9D7, 0x9CC); (0xB47, 0xB3E, 0xB4B); (0xB47, 0xB56, 0xB48); (0xB47, 0xB57, 0xB4C);
  (0xB92, 0xBD7, 0xB94); (0xBC6, 0xBBE, 0xBCA); (0xBC6, 0xBD7, 0xBCC); (0xBC7, 0xBBE, 0xBCB);
  (0xC46, 0xC56, 0xC48); (0xCBF, 0xCD5, 0xCC0); (0xCC6, 0xCC2, 0xCCA); (0xCC6, 0xCD5, 0xCC7);
  (0xCC6, 0xCD6, 0xCC8); (0xCCA, 0xCD5, 0xCCB); (0xD46, 0xD3E, 0xD4A); (0xD46, 0xD57, 0xD4C);
  (0xD47, 0xD3E, 0xD4B); (0xDD9, 0xDCA, 0xDDA); (0xDD9, 0xDCF, 0xDDC); (0xDD9, 0xDDF, 0xDDE);
  (0xDDC, 0xDCA, 0xDDD); (0x1025, 0x102E, 0x1026); (0x1B05, 0x1B35, 0x1B06);
  (0x1B07, 0x1B35, 0x1B08); (0x1B09, 0x1B35, 0x1B0A); (0x1B0B, 0x1B35, 0x1B0C);
  (0x1B0D, 0x1B35, 0x1B0E); (0x1B11, 0x1B35, 0x1B12); (0x1B3A, 0x1B35, 0x1B3B);
  (0x1B3C, 0x1B35, 0x1B3D); (0x1B3E, 0x1B35, 0x1B40); (0x1B3F, 0x1B35, 0x1B41);
  (0x1B42, 0x1B35, 0x1B43); (0x1E36, 0x304, 0x1E38); (0x1E37, 0x304, 0x1E39);
  (0x1E5A, 0x304, 0x1E5C); (0x1E5B, 0x304, 0x1E5D); (0x1E62, 0x307, 0x1E68);
  (0x1E63, 0x307, 0x1E69); (0x1EA0, 0x302, 0x1EAC); (0x1EA0, 0x306, 0x1EB6);
  (0x1EA1, 0x302, 0x1EAD); (0x1EA1, 0x306, 0x1EB7); (0x1EB8, 0x302, 0x1EC6);
  (0x1EB9, 0x302, 0x1EC7); (0x1ECC, 0x302, 0x1ED8); (0x1ECD, 0x302, 0x1ED9);
  (0x1F00, 0x300, 0x1F02); (0x1F00, 0x301, 0x1F04); (0x1F00, 0x342, 0x1F06);
  (0x1F00, 0x345, 0x1F80); (0x1F01, 0x300, 0x1F03); (0x1F01, 0x301, 0x1F05);
  (0x1F01, 0x342, 0x1F07); (0x1F01, 0x345, 0x1F81); (0x1F02, 0x345, 0x1F82);
  (0x1F03, 0x345, 0x1F83); (0x1F04, 0x345, 0x1F84); (0x1F05, 0x345, 0x1F85);
  (0x1F06, 0x345, 0x1F86); (0x1F07, 0x345, 0x1F87); (0x1F08, 0x300, 0x1F0A);
  (0x1F08, 0x301, 0x1F0C); (0x1F08, 0x342, 0x1F0E); (0x1F08, 0x345, 0x1F88);
  (0x1F09, 0x300, 0x1F0B); (0x1F09, 0x301, 0x1F0D); (0x1F09, 0x342, 0x1F0F);
  (0x1F09, 0x345, 0x1F89); (0x1F0A, 0x345, 0x1F8A); (0x1F0B, 0x345, 0x1F8B);
  (0x1F0C, 0x345, 0x1F8C); (0x1F0D, 0x345, 0x1F8D); (0x1F0E, 0x345, 0x1F8E);
  (0x1F0F, 0x345, 0x1F8F); (0x1F10, 0x300, 0x1F12); (0x1F10, 0x301, 0x1F14);
  (0x1F11, 0x300, 0x1F13); (0x1F11, 0x301, 0x1F15); (0x1F18, 0x300, 0x1F1A);
  (0x1F18, 0x301, 0x1F1C); (0x1F19, 0x300, 0x1F1B); (0x1F19, 0x301, 0x1F1D);
  (0x1F20, 0x300, 0x1F22); (0x1F20, 0x301, 0x1F24); (0x1F20, 0x342, 0x1F26);
  (0x1F20, 0x345, 0x1F90); (0x1F21, 0x300, 0x1F23); (0x1F21, 0x301, 0x1F25);
  (0x1F21, 0x342, 0x1F27); (0x1F21, 0x345, 0x1F91); (0x1F22, 0x345, 0x1F92);
  (0x1F23, 0x345, 0x1F93); (0x1F24, 0x345, 0x1F94); (0x1F25, 0x345, 0x1F95);
  (0x1F26, 0x345, 0x1F96); (0x1F27, 0x345, 0x1F97); (0x1F28, 0x300, 0x1F2A);
  (0x1F28, 0x301, 0x1F2C); (0x1F28, 0x342, 0x1F2E); (0x1F28, 0x345, 0x1F98);
  (0x1F29, 0x300, 0x1F2B); (0x1F29, 0x301, 0x1F2D); (0x1F29, 0x342, 0x1F2F);
  (0x1F29, 0x345, 0x1F99); (0x1F2A, 0x345, 0x1F9A); (0x1F2B, 0x345, 0x1F9B);
  (0x1F2C, 0x345, 0x1F9C); (0x1F2D, 0x345, 0x1F9D); (0x1F2E, 0x345, 0x1F9E);
  (0x1F2F, 0x345, 0x1F9F); (0x1F30, 0x300, 0x1F32); (0x1F30, 0x301, 0x1F34);
  (0x1F30, 0x342, 0x1F36); (0x1F31, 0x300, 0x1F33); (0x1F31, 0x301, 0x1F35);
  (0x1F31, 0x342, 0x1F37); (0x1F38, 0x300, 0x1F3A); (0x1F38, 0x301, 0x1F3C);
  (0x1F38, 0x342, 0x1F3E); (0x1F39, 0x300, 0x1F3B); (0x1F39, 0x301, 0x1F3D);
  (0x1F39, 0x342, 0x1F3F); (0x1F40, 0x300, 0x1F42); (0x1F40, 0x301, 0x1F44);
  (0x1F41, 0x300, 0x1F43); (0x1F41, 0x301, 0x1F45); (0x1F48, 0x300, 0x1F4A);
  (0x1F48, 0x301, 0x1F4C); (0x1F49, 0x300, 0x1F4B); (0x1F49, 0x301, 0x1F4D);
  (0x1F50, 0x300, 0x1F52); (0x1F50, 0x301, 0x1F54); (0x1F50, 0x342, 0x1F56);
  (0x1F51, 0x300, 0x1F53); (0x1F51, 0x301, 0x1F55); (0x1F51, 0x342, 0x1F57);
  (0x1F59, 0x300, 0x1F5B); (0x1F59, 0x301, 0x1F5D); (0x1F59, 0x342, 0x1F5F);
  (0x1F60, 0x300, 0x1F62); (0x1F60, 0x301, 0x1F64); (0x1F60, 0x342, 0x1F66);
  (0x1F60, 0x345, 0x1FA0); (0x1F61, 0x300, 0x1F63); (0x1F61, 0x301, 0x1F65);
  (0x1F61, 0x342, 0x1F67); (0x1F61, 0x345, 0x1FA1); (0x1F62, 0x345, 0x1FA2);
  (0x1F63, 0x345, 0x1FA3); (0x1F64, 0x345, 0x1FA4); (0x1F65, 0x345, 0x1FA5);
  (0x1F66, 0x345, 0x1FA6); (0x1F67, 0x345, 0x1FA7); (0x1F68, 0x300, 0x1F6A);
  (0x1F68, 0x301, 0x1F6C); (0x1F68, 0x342, 0x1F6E); (0x1F68, 0x345, 0x1FA8);
  (0x1F69, 0x300, 0x1F6B); (0x1F69, 0x301, 0x1F6D); (0x1F69, 0x342, 0x1F6F);
  (0x1F69, 0x345, 0x1FA9); (0x1F6A, 0x345, 0x1FAA); (0x1F6B, 0x345, 0x1FAB);
  (0x1F6C, 0x345, 0x1FAC); (0x1F6D, 0x345, 0x1FAD); (0x1F6E, 0x345, 0x1FAE);
  (0x1F6F, 0x345, 0x1FAF); (0x1F70, 0x345, 0x1FB2); (0x1F74, 0x345, 0x1FC2);
  (0x1F7C, 0x345, 0x1FF2); (0x1FB6, 0x345, 0x1FB7); (0x1FBF, 0x300, 0x1FCD);
  (0x1FBF, 0x301, 0x1FCE); (0x1FBF, 0x342, 0x1FCF); (0x1FC6, 0x345, 0x1FC7);
  (0x1FF6, 0x345, 0x1FF7); (0x1FFE, 0x300, 0x1FDD); (0x1FFE, 0x301, 0x1FDE);
  (0x1FFE, 0x342, 0x1FDF); (0x2190, 0x338, 0x219A); (0x2192, 0x338, 0x219B);
  (0x2194, 0x338, 0x21AE); (0x21D0, 0x338, 0x21CD); (0x21D2, 0x338, 0x21CF);
  (0x21D4, 0x338, 0x21CE); (0x2203, 0x338, 0x2204); (0x2208, 0x338, 0x2209);
  (0x220B, 0x338, 0x220C); (0x2223, 0x338, 0x2224); (0x2225, 0x338, 0x2226);
  (0x223C, 0x338, 0x2241); (0x2243, 0x338, 0x2244); (0x2245, 0x338, 0x2247);
  (0x2248, 0x338, 0x2249); (0x224D, 0x338, 0x226D); (0x2261, 0x338, 0x2262);
  (0x2264, 0x338, 0x2270); (0x2265, 0x338, 0x2271); (0x2272, 0x338, 0x2274);
  (0x2273, 0x338, 0x2275); (0x2276, 0x338, 0x2278); (0x2277, 0x338, 0x2279);
  (0x227A, 0x338, 0x2280); (0x227B, 0x338, 0x2281); (0x227C, 0x338, 0x22E0);
  (0x227D, 0x338, 0x22E1); (0x2282, 0x338, 0x2284); (0x2283, 0x338, 0x2285);
  (0x2286, 0x338, 0x2288); (0x2287, 0x338, 0x2289); (0x2291, 0x338, 0x22E2);
  (0x2292, 0x338, 0x22E3); (0x22A2, 0x338, 0x22AC); (0x22A8, 0x338, 0x22AD);
  (0x22A9, 0x338, 0x22AE); (0x22AB, 0x338, 0x22AF); (0x22B2, 0x338, 0x22EA);
  (0x22B3, 0x338, 0x22EB); (0x22B4, 0x338, 0x22EC); (0x22B5, 0x338, 0x22ED);
  (0x3046, 0x3099, 0x3094); (0x304B, 0x3099, 0x304C); (0x304D, 0x3099, 0x304E);
  (0x304F, 0x3099, 0x3050); (0x3051, 0x3099, 0x3052); (0x3053, 0x3099, 0x3054);
  (0x3055, 0x3099, 0x3056); (0x3057, 0x3099, 0x3058); (0x3059, 0x3099, 0x305A);
  (0x305B, 0x3099, 0x305C); (0x305D, 0x3099, 0x305E); (0x305F, 0x3099, 0x3060);
  (0x3061, 0x3099, 0x3062); (0x3064, 0x3099, 0x3065); (0x3066, 0x3099, 0x3067);
  (0x3068, 0x3099, 0x3069); (0x306F, 0x3099, 0x3070); (0x306F, 0x309A, 0x3071);
  (0x3072, 0x3099, 0x3073); (0x3072, 0x309A, 0x3074); (0x3075, 0x3099, 0x3076);
  (0x3075, 0x309A, 0x3077); (0x3078, 0x3099, 0x3079); (0x3078, 0x309A, 0x307A);
  (0x307B, 0x3099, 0x307C); (0x307B, 0x309A, 0x307D); (0x309D, 0x3099, 0x309E);
  (0x30A6, 0x3099, 0x30F4); (0x30AB, 0x3099, 0x30AC); (0x30AD, 0x3099, 0x30AE);
  (0x30AF, 0x3099, 0x30B0); (0x30B1, 0x3099, 0x30B2); (0x30B3, 0x3099, 0x30B4);
  (0x30B5, 0x3099, 0x30B6); (0x30B7, 0x3099, 0x30B8); (0x30B9, 0x3099, 0x30BA);
  (0x30BB, 0x3099, 0x30BC); (0x30BD, 0x3099, 0x30BE); (0x30BF, 0x3099, 0x30C0);
  (0x30C1, 0x3099, 0x30C2); (0x30C4, 0x3099, 0x30C5); (0x30C6, 0x3099, 0x30C7);
  (0x30C8, 0x3099, 0x30C9); (0x30CF, 0x3099, 0x30D0); (0x30CF, 0x309A, 0x30D1);
  (0x30D2, 0x3099, 0x30D3); (0x30D2, 0x309A, 0x30D4); (0x30D5, 0x3099, 0x30D6);
  (0x30D5, 0x309A, 0x30D7); (0x30D8, 0x3099, 0x30D9); (0x30D8, 0x309A, 0x30DA);
  (0x30DB, 0x3099, 0x30DC); (0x30DB, 0x309A, 0x30DD); (0x30EF, 0x3099, 0x30F7);
  (0x30F0, 0x3099, 0x30F8); (0x30F1, 0x3099, 0x30F9); (0x30F2, 0x3099, 0x30FA);
  (0x30FD, 0x3099, 0x30FE); (0x11099, 0x110BA, 0x1109A); (0x1109B, 0x110BA, 0x1109C);
  (0x110A5, 0x110BA, 0x110AB); (0x11131, 0x11127, 0x1112E); (0x11132, 0x11127, 0x1112F);
  (0x11347, 0x1133E, 0x1134B); (0x11347, 0x11357, 0x1134C); (0x114B9, 0x114B0, 0x114BC);
  (0x114B9, 0x114BA, 0x114BB); (0x114B9, 0x114BD, 0x114BE); (0x115B8, 0x115AF, 0x115BA);
  (0x115B9, 0x115AF, 0x115BB); (0x11935, 0x11930, 0x11938)
]%Z.

Definition table_key (c : Z) : positive := Z.to_pos (c + 1).

Definition index_table {A} (t : list (Z * A)) : PositiveMap.t A :=
  fold_right (fun kv m => PositiveMap.add (table_key (fst kv)) (snd kv) m)
             (PositiveMap.empty A) t.

Definition lookup {A} (m : PositiveMap.t A) (c : Z) : option A :=
  if c <? 0 then None else PositiveMap.find (table_key c) m.

(** A pair of code points as one key: code points are below 2^21. *)
Definition pair_key (l c : Z) : Z := l * 0x200000 + c.

Definition decomposition_map : PositiveMap.t (list Z) :=
  Eval vm_compute in index_table decomposition_table.

Definition combining_map : PositiveMap.t Z :=
  Eval vm_compute in index_table combining_table.

Definition composition_pairs : list (Z * Z) :=
  map (fun e => (pair_key (fst (fst e)) (snd (fst e)), snd e)) composition_table.

Definition composition_map : PositiveMap.t Z :=
  Eval vm_compute in index_table composition_pairs.

(** [unicodedata.combining]: the canonical combining class, 0 for a starter. *)
Definition combining (c : Z) : Z :=
  match lookup combining_map c with
  | Some k => k
  | None => 0
  end.

Definition decomposition (c : Z) : option (list Z) := lookup decomposition_map c.

(** Hangul syllable arithmetic (the constants of unicodedata.c). *)
Definition SBase := 0xAC00.
Definition LBase := 0x1100.
Definition VBase := 0x1161.
Definition TBase := 0x11A7.
Definition LCount := 19.
Definition VCount := 21.
Definition TCount := 28.
Definition NCount := VCount * TCount.
Definition SCount := LCount * NCount.

Definition is_syllable (c : Z) : bool := (SBase <=? c) && (c <? SBase + SCount).
Definition is_L (c : Z) : bool := (LBase <=? c) && (c <? LBase + LCount).
Definition is_V (c : Z) : bool := (VBase <=? c) && (c <? VBase + VCount).
Definition is_T (c : Z) : bool := (TBase <? c) && (c <? TBase + TCount).

(** The full canonical decomposition of one code point.  The C code expands
    the mappings with a stack until nothing decomposes; here the expansion
    is bounded by [depth], and [decompose_closed] below shows that the bound
    used by [nfd] exhausts the table. *)
Fixpoint decompose (depth : nat) (c : Z) : list Z :=
  if is_syllable c then
    let SIndex := c - SBase in
    let L := LBase + SIndex / NCount in
    let V := VBase + (SIndex mod NCount) / TCount in
    let T := TBase + SIndex mod TCount in
    if T =? TBase then [L; V] else [L; V; T]
  else
    match decomposition c with
    | None => [c]
    | Some ds =>
        match depth with
        | O => ds
        | S d => flat_map (decompose d) ds
        end
    end.

Definition full_decomposition (c : Z) : list Z := decompose 3 c.

(** Canonical ordering: within a run of non-starters, marks are sorted by
    combining class, stably.  [insert_mark a t] puts [a] in front of the
    ordered text [t], after the marks of [t] that must precede it. *)
Fixpoint insert_mark (a : Z) (t : list Z) : list Z :=
  match t with
  | [] => [a]
  | b :: t' =>
      if (0 <? combining b) && (combining b <? combining a)
      then b :: insert_mark a t'
      else a :: t
  end.

Definition canonical_order (s : list Z) : list Z := fold_right insert_mark [] s.

Definition nfd (s : str) : str := canonical_order (flat_map full_decomposition s).

(** The primary composite of a pair, if any: Hangul L+V and LV+T by
    arithmetic, the rest from the table. *)
Definition composition (l c : Z) : option Z :=
  if is_L l && is_V c then
    Some (SBase + ((l - LBase) * VCount + (c - VBase)) * TCount)
  else if is_syllable l && ((l - SBase) mod TCount =? 0) && is_T c then
    Some (l + (c - TBase))
  else if (0 <=? l) && (0 <=? c) && (c <? 0x200000) then
    lookup composition_map (pair_key l c)
  else None.

(** [pend] holds the marks since the last starter that did not combine,
    the latest first.  A character is blocked from the starter when such a
    mark of the same or a higher class (or any mark, for a starter) stands
    in between. *)
Definition blocked (pend : list Z) (c : Z) : bool :=
  match pend with
  | [] => false
  | b :: _ => combining c <=? combining b
  end.

(** Canonical composition from the last starter [l] on. *)
Fixpoint compose_from (l : Z) (pend : list Z) (s : list Z) : list Z :=
  match s with
  | [] => l :: rev pend
  | c :: s' =>
      match (if blocked pend c then None else composition l c) with
      | Some p => compose_from p pend s'
      | None =>
          if combining c =? 0
          then l :: rev pend ++ compose_from c [] s'
          else compose_from l (c :: pend) s'
      end
  end.

Fixpoint compose (s : list Z) : list Z :=
  match s with
  | [] => []
  | c :: s' =>
      if combining c =? 0 then compose_from c [] s' else c :: compose s'
  end.

Definition nfc (s : str) : str := compose (nfd s).

Inductive form := NFC | NFD.

Definition normalize (f : form) (text : str) : str :=
  match f with
  | NFC => nfc text
  | NFD => nfd text
  end.

Arguments combining : simpl never.
Arguments decomposition : simpl never.
Arguments composition : simpl never.
Arguments full_decomposition : simpl never.

End unicodedata.

(** ** Constants of the script *)

(** "송도고", "하늘고", "아라고", "동산고". *)
Definition songdo : str := [0xC1A1; 0xB3C4; 0xACE0].
Definition haneul : str := [0xD558; 0xB298; 0xACE0].
Definition ara : str := [0xC544; 0xB77C; 0xACE0].
Definition dongsan : str := [0xB3D9; 0xC0B0; 0xACE0].

(** A Python [dict]: keys in insertion order, no key twice. *)
Definition dict (V : Type) := list (str * V).

Fixpoint dict_get {V} (k : str) (d : dict V) : option V :=
  match d with
  | [] => None
  | (k', v) :: d' => if str_eqb k' k then Some v else dict_get k d'
  end.

(** [d[k] = v]: an existing key keeps its place, a new one goes last. *)
Fixpoint dict_set {V} (k : str) (v : V) (d : dict V) : dict V :=
  match d with
  | [] => [(k, v)]
  | (k', v') :: d' =>
      if str_eqb k' k then (k', v) :: d' else (k', v') :: dict_set k v d'
  end.

Definition keys {V} (d : dict V) : list str := map fst d.
Definition values {V} (d : dict V) : list V := map snd d.

Definition SCHOOL_EC : dict Q :=
  [(songdo, 1%Q); (haneul, 2%Q); (ara, 4%Q); (dongsan, 8%Q)].

(** "학교", the column that holds a row's school. *)
Definition col_school : str := [0xD559; 0xAD50].
(** "생중량(g)", the fresh weight of a plant. *)
Definition col_weight : str := [0xC0DD; 0xC911; 0xB7C9; 0x28; 0x67; 0x29].
Definition col_EC : str := lit "EC".
Definition col_temperature : str := lit "temperature".
Definition col_humidity : str := lit "humidity".
Definition col_ph : str := lit "ph".
Definition col_ec : str := lit "ec".

(** [normalize] of main.py. *)
Definition normalize (text : str) : str :=
  unicodedata.normalize unicodedata.NFC text.

(** ** pandas frames *)

(** A float64 that is not NaN: the rational it denotes, or an infinity.
    Float64 values compare as the numbers they denote. *)
Inductive float64 :=
| Finite (q : Q)
| Infinity (negative : bool).

Coercion Finite : Q >-> float64.
Bind Scope Q_scope with float64.

Definition float64_eqb (a b : float64) : bool :=
  match a, b with
  | Finite x, Finite y => Qeq_bool x y
  | Infinity s, Infinity t => Bool.eqb s t
  | _, _ => false
  end.

Definition float64_ltb (a b : float64) : bool :=
  match a, b with
  | Finite x, Finite y => negb (Qle_bool y x)
  | Finite _, Infinity negative => negb negative
  | Infinity negative, Finite _ => negative
  | Infinity s, Infinity t => s && negb t
  end.

Definition float64_leb (a b : float64) : bool := negb (float64_ltb b a).

(** The group means of pandas.  A float64 mean is the sum of the values
    divided by their count, where every addition rounds and may overflow:
    its value depends on the order in which the library adds, which is not
    written in the script.  [GroupBy.mean] goes through the rows of the
    frame once and keeps one running sum per group, so the mean of a group
    is a function of the numbers of the group in frame order.  That
    function is a parameter of the model: it takes the numbers of a group
    that has some, and [None] stands for NaN (the sum of two opposite
    infinities, say). *)
Class Float64Means := {
  group_mean : list float64 -> option float64
}.

(** A cell: a float, a string, or a missing value (NaN). *)
Inductive cell :=
| Num (x : float64)
| Str (s : str)
| NaN.

(** A row binds column names to cells; a column the row does not bind
    reads as missing. *)
Definition row := dict cell.

Record DataFrame := mkDataFrame {
  columns : list str;
  rows : list row
}.

Definition row_get (col : str) (r : row) : cell :=
  match dict_get col r with
  | Some v => v
  | None => NaN
  end.

Module pd.

(** [pd.DataFrame()]. *)
Definition DataFrame_ : DataFrame := mkDataFrame [] [].

Definition has_column (df : DataFrame) (col : str) : bool :=
  existsb (str_eqb col) (columns df).

(** [df.empty]: some axis has length 0. *)
Definition empty (df : DataFrame) : bool :=
  match columns df, rows df with
  | [], _ => true
  | _, [] => true
  | _, _ => false
  end.

(** [df[col]]. *)
Definition getitem (df : DataFrame) (col : str) : outcome (list cell) :=
  if has_column df col
  then Returns (map (row_get col) (rows df))
  else Raises KeyError.

(** [df[col] = v] for a scalar [v]: every row gets the value. *)
Definition setitem (df : DataFrame) (col : str) (v : cell) : DataFrame :=
  mkDataFrame
    (if has_column df col then columns df else columns df ++ [col])
    (map (dict_set col v) (rows df)).

(** [df[col] = series], the series aligned with the rows. *)
Definition setitem_series (df : DataFrame) (col : str) (vals : list cell)
  : DataFrame :=
  mkDataFrame
    (if has_column df col then columns df else columns df ++ [col])
    (map (fun rv => dict_set col (snd rv) (fst rv)) (combine (rows df) vals)).

(** [series.map(d)] for a dict [d]: a value that is no key maps to NaN. *)
Definition series_map (d : dict Q) (vals : list cell) : list cell :=
  map (fun v =>
         match v with
         | Str s => match dict_get s d with
                    | Some q => Num q
                    | None => NaN
                    end
         | _ => NaN
         end) vals.

Definition union_columns (a b : list str) : list str :=
  a ++ filter (fun c => negb (existsb (str_eqb c) a)) b.

(** [pd.concat(frames, ignore_index=True)]: the rows of the frames one
    after the other, over the union of their columns. *)
Definition concat (frames : list DataFrame) : outcome DataFrame :=
  match frames with
  | [] => Raises ValueError
  | _ =>
      Returns (mkDataFrame
                 (fold_left union_columns (map columns frames) [])
                 (flat_map rows frames))
  end.

Definition cell_eqb (a b : cell) : bool :=
  match a, b with
  | Num x, Num y => float64_eqb x y
  | Str x, Str y => str_eqb x y
  | _, _ => false
  end.

(** The order in which group keys are sorted: numbers before strings. *)
Definition cell_ltb (a b : cell) : bool :=
  match a, b with
  | Num x, Num y => float64_ltb x y
  | Num _, Str _ => true
  | Str x, Str y => str_ltb x y
  | _, _ => false
  end.

Fixpoint insert_key (k : cell) (ks : list cell) : list cell :=
  match ks with
  | [] => [k]
  | x :: ks' =>
      if cell_eqb k x then ks
      else if cell_ltb k x then k :: ks
      else x :: insert_key k ks'
  end.

(** The keys of a [groupby]: the distinct values of the key column,
    missing values dropped, in ascending order. *)
Definition group_keys (cells : list cell) : list cell :=
  fold_right (fun c acc => match c with NaN => acc | _ => insert_key c acc end)
             [] cells.

Fixpoint numeric_values (vals : list cell) : outcome (list float64) :=
  match vals with
  | [] => Returns []
  | Num x :: vs => xs <- numeric_values vs ;; Returns (x :: xs)
  | NaN :: vs => numeric_values vs
  | Str _ :: _ => Raises TypeError
  end.

(** The mean [GroupBy.mean] gives the values of one group: missing
    values are skipped, a string raises, and a group with no number has
    mean NaN. *)
Definition group_mean_of {M : Float64Means} (vals : list cell) : outcome cell :=
  xs <- numeric_values vals ;;
  Returns (match xs with
           | [] => NaN
           | _ => match group_mean xs with
                  | Some x => Num x
                  | None => NaN
                  end
           end).

Fixpoint traverse {A B} (f : A -> outcome B) (l : list A) : outcome (list B) :=
  match l with
  | [] => Returns []
  | a :: l' => b <- f a ;; bs <- traverse f l' ;; Returns (b :: bs)
  end.

Definition group_rows (df : DataFrame) (key : str) (k : cell) : list row :=
  filter (fun r => cell_eqb (row_get key r) k) (rows df).

(** [df.groupby(key)[fields].mean().reset_index()]: one row per key, with
    the key and the mean of each field over the rows of that key. *)
Definition groupby_mean {M : Float64Means} (df : DataFrame) (key : str) (fields : list str)
  : outcome DataFrame :=
  if negb (has_column df key) then Raises KeyError
  else if negb (forallb (has_column df) fields) then Raises KeyError
  else
    rs <- traverse
            (fun k =>
               ms <- traverse
                       (fun f =>
                          m <- group_mean_of
                                         (map (row_get f) (group_rows df key k)) ;;
                          Returns (f, m))
                       fields ;;
               Returns ((key, k) :: ms))
            (group_keys (map (row_get key) (rows df))) ;;
    Returns (mkDataFrame (key :: fields) rs).

(** The running maximum of [idxmax]: position and value of the first
    greatest number seen so far. *)
Fixpoint argmax (vals : list cell) (i : nat) (best : option (nat * float64))
  : option (nat * float64) :=
  match vals with
  | [] => best
  | Num x :: vs =>
      argmax vs (S i)
             (match best with
              | None => Some (i, x)
              | Some (_, b) => if float64_leb x b then best else Some (i, x)
              end)
  | _ :: vs => argmax vs (S i) best
  end.

(** [series.idxmax()]: the label of the first maximum, missing values
    skipped; it raises on a series that has no value. *)
Definition idxmax (vals : list cell) : outcome nat :=
  match argmax vals 0 None with
  | Some (i, _) => Returns i
  | None => Raises ValueError
  end.

(** [df.loc[i, col]] on a frame with the default index. *)
Definition loc (df : DataFrame) (i : nat) (col : str) : outcome cell :=
  if has_column df col then
    match nth_error (rows df) i with
    | Some r => Returns (row_get col r)
    | None => Raises KeyError
    end
  else Raises KeyError.

(** [series == s] for a string [s], element by element: a number or a
    missing value equals no string. *)
Definition eq_str (vals : list cell) (s : str) : list bool :=
  map (fun v => match v with Str x => str_eqb x s | _ => false end) vals.

(** [df[mask]] for a boolean series aligned with the rows. *)
Definition getitem_mask (df : DataFrame) (mask : list bool) : DataFrame :=
  mkDataFrame (columns df) (map fst (filter snd (combine (rows df) mask))).

(** [len(df)]: the number of rows. *)
Definition len (df : DataFrame) : nat := List.length (rows df).

(** [df.groupby(key)[field].mean()]: a series indexed by the keys. *)
Definition groupby_series_mean {M : Float64Means} (df : DataFrame) (key field : str)
  : outcome (list (cell * cell)) :=
  if negb (has_column df key) then Raises KeyError
  else if negb (has_column df field) then Raises KeyError
  else
    traverse
      (fun k =>
         m <- group_mean_of (map (row_get field) (group_rows df key k)) ;;
         Returns (k, m))
      (group_keys (map (row_get key) (rows df))).

(** [df.groupby(key).size()]: the number of rows of each key. *)
Definition groupby_size (df : DataFrame) (key : str) : outcome (list (cell * nat)) :=
  if negb (has_column df key) then Raises KeyError
  else
    Returns (map (fun k => (k, List.length (group_rows df key k)))
                 (group_keys (map (row_get key) (rows df)))).

End pd.

(** ** The data directory *)

(** An entry of the data directory: its name, and what pandas makes of it
    when asked to read it as CSV or as a workbook (sheet names in the
    order of the file, each with its parsed table). *)
Record Path := mkPath {
  name : str;
  read_csv : outcome DataFrame;
  ExcelFile : outcome (list (str * DataFrame))
}.

Inductive directory :=
| Missing
| NotADirectory
| Directory (entries : list Path).

Module pathlib.

(** [s.rfind(c)], counting from [i]. *)
Fixpoint rfind_from (c : Z) (s : str) (i : nat) : option nat :=
  match s with
  | [] => None
  | x :: s' =>
      match rfind_from c s' (S i) with
      | Some j => Some j
      | None => if x =? c then Some i else None
      end
  end.

(** [PurePath.suffix]: the name from its last dot on, when the dot is
    neither the first nor the last character. *)
Definition suffix (name : str) : str :=
  match rfind_from 0x2E name 0 with
  | Some i =>
      if ((0 <? i) && (i <? List.length name - 1))%nat then skipn i name else []
  | None => []
  end.

End pathlib.

(** What [st.error] shows. *)
Inductive message :=
| NoDataFolder
| NoGrowthFile.

(** ** The loaders *)

(** Lines 80-84: the schools tried on one file, in the order of the keys
    of [SCHOOL_EC].  Every school whose name occurs in the file name reads
    the file and takes the frame. *)
Fixpoint match_schools (file : Path) (fname : str) (schools : list str)
         (data : dict DataFrame) : outcome (dict DataFrame) :=
  match schools with
  | [] => Returns data
  | school :: rest =>
      if contains (normalize school) fname then
        df <- read_csv file ;;
        match_schools file fname rest
                      (dict_set school (pd.setitem df col_school (Str school)) data)
      else match_schools file fname rest data
  end.

Definition is_csv (file : Path) : bool :=
  str_eqb (lower (pathlib.suffix (name file))) (lit ".csv").

Definition is_xlsx (file : Path) : bool :=
  str_eqb (lower (pathlib.suffix (name file))) (lit ".xlsx").

(** Lines 75-85: the loop over the directory. *)
Fixpoint scan_entries (entries : list Path) (data : dict DataFrame)
  : outcome (dict DataFrame) :=
  match entries with
  | [] => Returns data
  | file :: rest =>
      if negb (is_csv file) then scan_entries rest data
      else
        data' <- match_schools file (normalize (name file)) (keys SCHOOL_EC) data ;;
        scan_entries rest data'
  end.

Definition load_environment_data (DATA_DIR : directory)
  : list message * outcome (dict DataFrame) :=
  match DATA_DIR with
  | Missing => ([NoDataFolder], Returns [])
  | NotADirectory => ([], Raises NotADirectoryError)
  | Directory entries => ([], scan_entries entries [])
  end.

(** Lines 107-110: every sheet is stamped with its own name. *)
Definition stamp_sheets (sheets : list (str * DataFrame)) : list DataFrame :=
  map (fun sd => pd.setitem (snd sd) col_school (Str (fst sd))) sheets.

Definition load_growth_data (DATA_DIR : directory)
  : list message * outcome DataFrame :=
  match DATA_DIR with
  | Missing => ([NoDataFolder], Returns pd.DataFrame_)
  | NotADirectory => ([], Raises NotADirectoryError)
  | Directory entries =>
      match find is_xlsx entries with
      | None => ([NoGrowthFile], Returns pd.DataFrame_)
      | Some xlsx_file =>
          ([], sheets <- ExcelFile xlsx_file ;; pd.concat (stamp_sheets sheets))
      end
  end.

(** ** The script after loading *)

(** Lines 118-123: both loaders run, and the script stops when either
    result is empty. *)
Inductive session :=
| Crashed (e : exn)
| Stopped
| Running (env_data : dict DataFrame) (growth_df : DataFrame).

Definition startup (DATA_DIR : directory) : list message * session :=
  let (m1, r1) := load_environment_data DATA_DIR in
  match r1 with
  | Raises e => (m1, Crashed e)
  | Returns env_data =>
      let (m2, r2) := load_growth_data DATA_DIR in
      match r2 with
      | Raises e => (m1 ++ m2, Crashed e)
      | Returns growth_df =>
          (m1 ++ m2,
           match env_data with
           | [] => Stopped
           | _ => if pd.empty growth_df then Stopped
                  else Running env_data growth_df
           end)
      end
  end.

Definition env_fields : list str :=
  [col_temperature; col_humidity; col_ph; col_ec].

(** Lines 183-185: the per-school means of the environment readings. *)
Definition mean_df {M : Float64Means} (env_data : dict DataFrame) : outcome DataFrame :=
  env_all <- pd.concat (values env_data) ;;
  pd.groupby_mean env_all col_school env_fields.

(** Lines 244-245. *)
Definition mean_weight {M : Float64Means} (growth_df : DataFrame) : outcome DataFrame :=
  schools <- pd.getitem growth_df col_school ;;
  let growth_df := pd.setitem_series growth_df col_EC
                                     (pd.series_map SCHOOL_EC schools) in
  pd.groupby_mean growth_df col_EC [col_weight].

(** Line 247. *)
Definition best_ec {M : Float64Means} (growth_df : DataFrame) : outcome cell :=
  mw <- mean_weight growth_df ;;
  weights <- pd.getitem mw col_weight ;;
  i <- pd.idxmax weights ;;
  pd.loc mw i col_EC.

(** ** The tabs *)

(** "잎 수(장)" and "지상부 길이(mm)": leaf count and shoot length. *)
Definition col_leaves : str := [0xC78E; 0x20; 0xC218; 0x28; 0xC7A5; 0x29].
Definition col_shoot : str :=
  [0xC9C0; 0xC0C1; 0xBD80; 0x20; 0xAE38; 0xC774; 0x28; 0x6D; 0x6D; 0x29].

(** "전체", the choice that selects no single school. *)
Definition all_schools : str := [0xC804; 0xCCB4].

(** Lines 129-132: the choices of the school selector. *)
Definition school_options : list str := all_schools :: keys SCHOOL_EC.

(** [d[k]] on a dict. *)
Definition dict_getitem {V} (d : dict V) (k : str) : outcome V :=
  match dict_get k d with
  | Some v => Returns v
  | None => Raises KeyError
  end.

(** Lines 154-157: school, target EC and number of plants, one row per
    entry of [SCHOOL_EC]. *)
Definition summary_rows (growth_df : DataFrame) : outcome (list (str * Q * nat)) :=
  pd.traverse
    (fun item =>
       schools <- pd.getitem growth_df col_school ;;
       let count := pd.len (pd.getitem_mask growth_df (pd.eq_str schools (fst item))) in
       Returns (fst item, snd item, count))
    SCHOOL_EC.

(** Line 167. *)
Definition total_count (growth_df : DataFrame) : nat := pd.len growth_df.

(** Line 198: the target EC of every school of the table of means. *)
Definition target_ecs (mean_df : DataFrame) : outcome (list Q) :=
  schools <- pd.getitem mean_df col_school ;;
  pd.traverse
    (fun s => match s with
              | Str s => dict_getitem SCHOOL_EC s
              | _ => Raises KeyError
              end)
    schools.

(** Lines 214-215: the frame of the trend charts, when one school is
    selected. *)
Definition selected_frame (env_data : dict DataFrame) (school_option : str)
  : outcome (option DataFrame) :=
  if negb (str_eqb school_option all_schools) then
    df <- dict_getitem env_data school_option ;;
    Returns (Some df)
  else Returns None.

(** Line 244: the growth frame with its EC column. *)
Definition derive_EC (growth_df : DataFrame) : outcome DataFrame :=
  schools <- pd.getitem growth_df col_school ;;
  Returns (pd.setitem_series growth_df col_EC (pd.series_map SCHOOL_EC schools)).

(** "⭐ 최적", the label of the best EC. *)
Definition star : str := [0x2B50; 0x20; 0xCD5C; 0xC801].

(** Lines 250-256: one metric per row of [mean_weight], with its EC, its
    mean fresh weight and its label. *)
Definition metrics {M : Float64Means} (growth_df : DataFrame) : outcome (list (cell * cell * str)) :=
  mean_weight <- mean_weight growth_df ;;
  best_ec <- best_ec growth_df ;;
  Returns (map (fun row =>
                  let label := if pd.cell_eqb (row_get col_EC row) best_ec
                               then star else [] in
                  (row_get col_EC row, row_get col_weight row, label))
               (rows mean_weight)).

(** Lines 267-273: the series of the other three bar charts. *)
Definition leaf_mean {M : Float64Means} (growth_df : DataFrame) : outcome (list (cell * cell)) :=
  growth_df <- derive_EC growth_df ;;
  pd.groupby_series_mean growth_df col_EC col_leaves.

Definition shoot_mean {M : Float64Means} (growth_df : DataFrame) : outcome (list (cell * cell)) :=
  growth_df <- derive_EC growth_df ;;
  pd.groupby_series_mean growth_df col_EC col_shoot.

Definition count_df (growth_df : DataFrame) : outcome (list (cell * nat)) :=
  growth_df <- derive_EC growth_df ;;
  pd.groupby_size growth_df col_EC.

(** * Definitions used in the statements and proofs *)

Module Normalization.
Import unicodedata.

(** Table audits: properties of the character database, checked entry
    by entry.  A decomposition is made of characters that decompose no
    further, a combining class is positive, a composite decomposes into its
    pair, and no table mentions a Hangul syllable or a conjoining jamo
    (those are handled by arithmetic alone). *)
Definition in_jamo_block (c : Z) : bool := (0x1100 <=? c) && (c <=? 0x11FF).

Definition inert (d : Z) : bool :=
  str_eqb (full_decomposition d) [d] && negb (in_jamo_block d) && negb (is_syllable d).

Definition decomposition_entry_ok (c : Z) (ds : list Z) : bool :=
  negb (is_syllable c) && negb (in_jamo_block c)
  && (forallb inert (full_decomposition c)
      && negb (str_eqb (full_decomposition c) [])).

Definition combining_entry_ok (c k : Z) : bool :=
  (0 <? k) && negb (in_jamo_block c) && negb (is_syllable c).

Definition composition_entry_ok (l c p : Z) : bool :=
  str_eqb (full_decomposition p) (full_decomposition l ++ [c])
  && negb (in_jamo_block l) && negb (is_syllable l)
  && negb (in_jamo_block c) && negb (is_syllable c).

Definition audit {A} (ok : Z -> A -> bool) (t : list (Z * A)) : bool :=
  forallb (fun kv => (0 <=? fst kv) && ok (fst kv) (snd kv)) t.

Definition audit_decomposition : bool := audit decomposition_entry_ok decomposition_table.

Definition audit_combining : bool := audit combining_entry_ok combining_table.

Definition audit_composition : bool :=
  audit (fun key p => composition_entry_ok (key / 0x200000) (key mod 0x200000) p)
        composition_pairs.

Definition fixed (c : Z) : Prop := full_decomposition c = [c].

(** [ordered_after k s]: [s] is in canonical order when it follows a
    character of combining class [k]. *)
Fixpoint ordered_after (k : Z) (s : list Z) : Prop :=
  match s with
  | [] => True
  | c :: s' => ~ (0 < combining c < k) /\ ordered_after (combining c) s'
  end.

Definition ordered (s : list Z) : Prop := ordered_after 0 s.

(** Texts that differ by exchanging neighbouring marks of different
    classes: what canonical ordering identifies. *)
Inductive reorder : list Z -> list Z -> Prop :=
| reorder_refl s : reorder s s
| reorder_skip x s t : reorder s t -> reorder (x :: s) (x :: t)
| reorder_swap a b s :
    0 < combining a -> 0 < combining b -> combining a <> combining b ->
    reorder (a :: b :: s) (b :: a :: s)
| reorder_trans s t u : reorder s t -> reorder t u -> reorder s u.

(** The marks that did not combine, latest first: positive classes,
    descending (with [k] the class of the last character read). *)
Fixpoint pending_ok (k : Z) (pend : list Z) : Prop :=
  match pend with
  | [] => True
  | b :: rest => 0 < combining b <= k /\ pending_ok (combining b) rest
  end.

(** Canonical equivalence (Unicode Standard, D70): the same full
    canonical decomposition. *)
Definition canonically_equivalent (s t : str) : Prop := nfd s = nfd t.


End Normalization.

(** ** The loaders *)

(** [file] is a CSV file whose normalized name contains [school]. *)
Definition matches (school : str) (file : Path) : bool :=
  is_csv file && contains (normalize school) (normalize (name file)).

(** The frame a school takes from a file: the file's table, every row
    stamped with the school. *)
Definition stamp (school : str) (df : DataFrame) : DataFrame :=
  pd.setitem df col_school (Str school).

Definition stamped (school : str) (file : Path) : option DataFrame :=
  match read_csv file with
  | Returns df => Some (stamp school df)
  | Raises _ => None
  end.

(** Every CSV file of the directory can be read. *)
Definition readable (entries : list Path) : Prop :=
  forall f, In f entries -> is_csv f = true -> exists df, read_csv f = Returns df.

Definition known (school : str) : bool := existsb (str_eqb school) (keys SCHOOL_EC).

(** What the loader keeps true of the mapping it builds. *)
Definition well_tagged (data : dict DataFrame) : Prop :=
  forall key df, In (key, df) data ->
    In key (keys SCHOOL_EC) /\
    Forall (fun r => row_get col_school r = Str key) (rows df).

(** ** Frames and group keys *)

Definition is_value (c : cell) : Prop := c <> NaN.

Definition cell_lt (a b : cell) : Prop := pd.cell_ltb a b = true.

(** Float64 values in order. *)
Definition float64_le (a b : float64) : Prop := float64_leb a b = true.
Definition float64_lt (a b : float64) : Prop := float64_ltb a b = true.
Definition float64_eq (a b : float64) : Prop := float64_eqb a b = true.

(** The numbers of a series, missing values left out. *)
Definition numbers (cells : list cell) : list float64 :=
  flat_map (fun c => match c with Num w => [w] | _ => [] end) cells.

(** The cell [GroupBy.mean] leaves for a group whose cells are [cells]:
    the float64 mean of its numbers, NaN when it has none. *)
Definition mean_cell {M : Float64Means} (cells : list cell) : cell :=
  match numbers cells with
  | [] => NaN
  | xs => match group_mean xs with
          | Some x => Num x
          | None => NaN
          end
  end.

(** No string among the cells of the fields. *)
Definition numeric_fields (fields : list str) (rs : list row) : Prop :=
  forall r f s, In r rs -> In f fields -> row_get f r <> Str s.

(** The frame [groupby_mean] builds. *)
Definition means_table {M : Float64Means} (df : DataFrame) (key : str) (fields : list str)
  : DataFrame :=
  mkDataFrame
    (key :: fields)
    (map (fun k =>
            (key, k) ::
            map (fun f => (f, mean_cell (map (row_get f) (pd.group_rows df key k))))
                fields)
         (pd.group_keys (map (row_get key) (rows df)))).

(** ** Growth records *)

(** The EC cell line 244 derives for a growth row: the target EC of the
    row's school, missing when the school is no key of [SCHOOL_EC]. *)
Definition target_ec (r : row) : cell :=
  match row_get col_school r with
  | Str s => match dict_get s SCHOOL_EC with
             | Some q => Num q
             | None => NaN
             end
  | _ => NaN
  end.

(** The rows whose target EC is [k]. *)
Definition ec_group (rs : list row) (k : cell) : list row :=
  filter (fun r => pd.cell_eqb (target_ec r) k) rs.

(** The mean fresh weight [GroupBy.mean] computes for the records at EC
    [e]. *)
Definition mean_at {M : Float64Means} (rs : list row) (e : Q) : cell :=
  mean_cell (map (row_get col_weight) (ec_group rs (Num e))).

(** Some record has target EC [e]. *)
Definition has_ec (rs : list row) (e : Q) : Prop :=
  exists r, In r rs /\ target_ec r = Num e.

(** A frame of growth records: it has the school and the weight column,
    every row's school is a key of [SCHOOL_EC], and every fresh weight is
    a number. *)
Definition growth_records (df : DataFrame) : Prop :=
  pd.has_column df col_school = true /\
  pd.has_column df col_weight = true /\
  forall r, In r (rows df) ->
            (exists e : Q, target_ec r = Num e) /\ (exists w, row_get col_weight r = Num w).

(** The table of lines 244-245: target EC values in ascending order, each
    with the mean fresh weight of its records. *)
Definition ec_means {M : Float64Means} (rs : list row) : list (cell * cell) :=
  map (fun k => (k, mean_cell (map (row_get col_weight) (ec_group rs k))))
      (pd.group_keys (map target_ec rs)).

(** ** Environment readings *)





(** ** The directory and the script *)

(** The file is a CSV file whose name holds some school. *)
Definition relevant (file : Path) : bool :=
  existsb (fun school => matches school file) (keys SCHOOL_EC).

(** Two directories with the same names, whose relevant files read alike. *)
Definition same_relevant_files (entries entries' : list Path) : Prop :=
  Forall2 (fun f f' => name f = name f' /\
                       (relevant f = true -> read_csv f = read_csv f'))
          entries entries'.

(** At most one entry of the directory satisfies [p]. *)
Definition at_most_one (p : Path -> bool) (entries : list Path) : Prop :=
  forall f g, In f entries -> In g entries -> p f = true -> p g = true -> f = g.

(** The name is [stem.ext] with a stem that is not empty and an extension
    that reads [ext] when lower-cased. *)
Definition has_extension (ext : str) (name : str) : Prop :=
  exists stem e, name = stem ++ [0x2E] ++ e /\ stem <> [] /\ lower e = ext.

(** ** Plain text *)

(** A Basic Latin character. *)
Definition ascii (c : Z) : bool := (0 <=? c) && (c <? 0x80).

(** Plain text: Basic Latin characters and precomposed Hangul syllables. *)
Definition plain (c : Z) : bool := ascii c || unicodedata.is_syllable c.

Definition starts_plain (s : str) : bool :=
  match s with
  | c :: _ => plain c
  | [] => false
  end.

(** No table of the character database has an entry for a Basic Latin
    character, and no pair composes with one as its second character. *)
Definition audit_basic_latin : bool :=
  Normalization.audit (fun c _ => negb (ascii c)) unicodedata.decomposition_table
  && Normalization.audit (fun c _ => negb (ascii c)) unicodedata.combining_table
  && Normalization.audit (fun key _ => negb (ascii (key mod 0x200000)))
                         unicodedata.composition_pairs.

(** A boundary: a starter that composes with nothing before it. *)
Definition boundary (j : Z) : Prop :=
  unicodedata.combining j = 0 /\ forall l, unicodedata.composition l j = None.

(** [f'] is the entry [f], of a plain name, as a file system that stores
    names in decomposed form lists it. *)
Definition decomposed_entry (f f' : Path) : Prop :=
  forallb plain (name f) = true /\
  name f' = unicodedata.normalize unicodedata.NFD (name f) /\
  read_csv f' = read_csv f /\
  ExcelFile f' = ExcelFile f.

(** ** Rows and counts *)

(** The rows that carry the school [school]. *)
Definition plants_of (school : str) (rs : list row) : list row :=
  filter (fun r => pd.cell_eqb (row_get col_school r) (Str school)) rs.

(** The school of the row is a key of [SCHOOL_EC]. *)
Definition known_row (r : row) : bool :=
  match row_get col_school r with
  | Str s => known s
  | _ => false
  end.

(** The frame without the rows of unknown schools. *)
Definition known_rows (df : DataFrame) : DataFrame :=
  mkDataFrame (columns df) (filter known_row (rows df)).

Definition total (counts : list nat) : nat := fold_right Nat.add 0%nat counts.

(** No cell of the column is a string. *)
Definition numeric_column (col : str) (df : DataFrame) : Prop :=
  forall r s, In r (rows df) -> row_get col r <> Str s.

(** A growth frame with its four columns and no string among the
    measurements. *)
Definition growth_measurements (df : DataFrame) : Prop :=
  pd.has_column df col_school = true /\
  Forall (fun col => pd.has_column df col = true /\ numeric_column col df)
         [col_weight; col_leaves; col_shoot].

(** ** Inputs of the examples *)

(** The group mean of the examples.  The numbers of the example frames
    are small integers and their means are integers or halves: every
    partial sum and every quotient is a float64, so float64 arithmetic
    computes these means without rounding, in whatever order it adds, and
    [exact_mean] gives the value [GroupBy.mean] gives.  It stands for the
    library on the example frames only. *)
Definition finite_values (xs : list float64) : option (list Q) :=
  fold_right (fun x acc =>
                match x, acc with
                | Finite q, Some qs => Some (q :: qs)
                | _, _ => None
                end)
             (Some []) xs.

Definition exact_mean (xs : list float64) : option float64 :=
  match finite_values xs with
  | Some (q :: qs) =>
      let sum := fold_right Qplus 0%Q (q :: qs) in
      let count := inject_Z (Z.of_nat (List.length (q :: qs))) in
      Some (Finite (Qred (sum / count)))
  | _ => None
  end.

Definition exact_means : Float64Means :=
  {| group_mean := exact_mean |}.

(** Values of [unicodedata.normalize("NFC", s)] as CPython 3.11 computes
    them, reproduced by the model: marks that combine, marks that are
    blocked, singleton and excluded mappings, Hangul jamo and syllables. *)
Definition normalize_samples : list (str * str) :=
  [
   ([0x65; 0x301], [0xE9]);
   ([0x212B], [0xC5]);
   ([0x344], [0x308; 0x301]);
   ([0x61; 0x302; 0x323], [0x1EAD]);
   ([0x61; 0x323; 0x302], [0x1EAD]);
   ([0x1E69; 0x323], [0x1E69; 0x323]);
   ([0x71; 0x307; 0x323], [0x71; 0x323; 0x307]);
   ([0x1100; 0x1161; 0x11A8], [0xAC01]);
   ([0x1100; 0x1161; 0x11A7], [0xAC00; 0x11A7]);
   ([0xAC00; 0x11A8], [0xAC01]);
   ([0xAC01; 0x11A8], [0xAC01; 0x11A8]);
   ([0x1100; 0x1161; 0x301; 0x11A8], [0xAC00; 0x301; 0x11A8]);
   ([0x9C7; 0x9BE], [0x9CB]);
   ([0xCC6; 0xCC2; 0xCD5], [0xCCB]);
   ([0xF73], [0xF71; 0xF72]);
   ([0x41; 0x30A; 0x301], [0x1FA]);
   ([0xFB1F], [0x5F2; 0x5B7]);
   ([0x1112; 0x1161; 0x1102; 0x1173; 0x11AF; 0x1100; 0x1169; 0x2E; 0x63; 0x73; 0x76], [0xD558; 0xB298; 0xACE0; 0x2E; 0x63; 0x73; 0x76]);
   ([0x1D15E], [0x1D157; 0x1D165]);
   ([0x61; 0x301; 0x301; 0x327], [0xE1; 0x327; 0x301])
  ].

(** A table of two readings, used in the examples. *)
Definition two_readings : DataFrame :=
  mkDataFrame [col_temperature]
              [[(col_temperature, Num 19)]; [(col_temperature, Num 21)]].

(** "송도고_하늘고.csv": a name with two schools in it. *)
Definition two_schools_file : Path :=
  mkPath (songdo ++ lit "_" ++ haneul ++ lit ".csv")
         (Returns two_readings) (Raises ReadError).



(** A directory with a text file and a CSV file that names no school. *)
Definition no_match_directory : list Path :=
  [mkPath (lit "README.txt") (Raises ReadError) (Raises ReadError);
   mkPath (lit "notes.csv") (Returns two_readings) (Raises ReadError)].

(** A workbook with one sheet called "Sheet1". *)
Definition one_plant : DataFrame :=
  mkDataFrame [col_weight] [[(col_weight, Num 5)]].

Definition unnamed_sheet_workbook : Path :=
  mkPath (lit "growth.xlsx") (Raises ReadError)
         (Returns [(lit "Sheet1", one_plant)]).

Definition growth_row (school : str) (w : Q) : row :=
  [(col_weight, Num w); (col_school, Str school)].

(** Records with mean fresh weight 5 at EC 1, 8 at EC 2 and 3 at EC 4. *)
Definition growth_example : DataFrame :=
  mkDataFrame [col_weight; col_school]
              [growth_row songdo 4; growth_row haneul 7; growth_row ara 3;
               growth_row haneul 9; growth_row songdo 6].

(** Records with mean fresh weight 6 at EC 1 and at EC 2, and 3 at EC 4. *)
Definition growth_tie : DataFrame :=
  mkDataFrame [col_weight; col_school]
              [growth_row haneul 6; growth_row songdo 5; growth_row ara 3;
               growth_row songdo 7].

(** A frame with the growth columns and no row. *)
Definition no_plants : DataFrame := mkDataFrame [col_weight; col_school] [].

Definition reading (school : str) (t h p e : Q) : row :=
  [(col_temperature, Num t); (col_humidity, Num h); (col_ph, Num p);
   (col_ec, Num e); (col_school, Str school)].

Definition reading_columns : list str :=
  [col_temperature; col_humidity; col_ph; col_ec; col_school].

(** Group A (송도고) with mean temperature 20, group B (하늘고) with 25. *)
Definition env_example : dict DataFrame :=
  [(songdo, mkDataFrame reading_columns
              [reading songdo 19 40 6 1; reading songdo 21 50 7 2]);
   (haneul, mkDataFrame reading_columns [reading haneul 25 60 6 2])].

(** The same readings, schools and rows in another order. *)
Definition env_example_reordered : dict DataFrame :=
  [(haneul, mkDataFrame reading_columns [reading haneul 25 60 6 2]);
   (songdo, mkDataFrame reading_columns
              [reading songdo 21 50 7 2; reading songdo 19 40 6 1])].

Definition env_example_means : DataFrame :=
  mkDataFrame (col_school :: env_fields)
    [[(col_school, Str songdo); (col_temperature, Num 20); (col_humidity, Num 45);
      (col_ph, Num (13 # 2)); (col_ec, Num (3 # 2))];
     [(col_school, Str haneul); (col_temperature, Num 25); (col_humidity, Num 60);
      (col_ph, Num 6); (col_ec, Num 2)]].

(** "하늘고.csv", a file pandas cannot read. *)
Definition unreadable_file : Path :=
  mkPath (haneul ++ lit ".csv") (Raises ReadError) (Raises ReadError).

Definition second_workbook : Path :=
  mkPath (lit "other.xlsx") (Raises ReadError) (Raises ReadError).

(** "data_송도고_2024.CSV" *)
Definition plain_name_file : Path :=
  mkPath (lit "data_" ++ songdo ++ lit "_2024.CSV") (Returns two_readings) (Raises ReadError).

(** A file of readings for "송도고", what the loader makes of it and the
    table of its means. *)
Definition songdo_readings : DataFrame :=
  mkDataFrame env_fields
    [[(col_temperature, Num 19); (col_humidity, Num 40); (col_ph, Num 6); (col_ec, Num 1)];
     [(col_temperature, Num 21); (col_humidity, Num 50); (col_ph, Num 7); (col_ec, Num 2)]].

Definition songdo_file : Path :=
  mkPath (songdo ++ lit ".csv") (Returns songdo_readings) (Raises ReadError).

Definition songdo_loaded : dict DataFrame :=
  [(songdo, mkDataFrame reading_columns
              [reading songdo 19 40 6 1; reading songdo 21 50 7 2])].

Definition songdo_means : DataFrame :=
  mkDataFrame (col_school :: env_fields)
    [[(col_school, Str songdo); (col_temperature, Num 20); (col_humidity, Num 45);
      (col_ph, Num (13 # 2)); (col_ec, Num (3 # 2))]].

(** A workbook with a sheet of one plant and a sheet without rows, and a
    directory the script runs on. *)
Definition plants_workbook : Path :=
  mkPath (lit "growth.xlsx") (Raises ReadError)
         (Returns [(songdo, one_plant); (haneul, mkDataFrame [col_weight] [])]).

Definition complete_directory : list Path := [songdo_file; plants_workbook].

(** Plants of two schools and of a sheet that names no school. *)
Definition growth_with_unknown : DataFrame :=
  mkDataFrame [col_weight; col_school]
              [growth_row songdo 4; growth_row (lit "Sheet1") 9; growth_row haneul 7;
               growth_row songdo 6].

Definition growth_unknown_only : DataFrame :=
  mkDataFrame [col_weight; col_school] [growth_row (lit "Sheet1") 9].

Definition plant (school : str) (leaves shoot weight : Q) : row :=
  [(col_leaves, Num leaves); (col_shoot, Num shoot); (col_weight, Num weight);
   (col_school, Str school)].

Definition plants_example : DataFrame :=
  mkDataFrame [col_leaves; col_shoot; col_weight; col_school]
              [plant haneul 5 30 7; plant songdo 4 20 4; plant haneul 7 40 9].

(** "하늘고_1.csv", and the same file listed with its name in decomposed
    form. *)
Definition haneul_file : Path :=
  mkPath (haneul ++ lit "_1.csv") (Returns two_readings) (Raises ReadError).

Definition haneul_file_decomposed : Path :=
  mkPath (unicodedata.nfd (haneul ++ lit "_1.csv")) (Returns two_readings) (Raises ReadError).

(** * Verification *)

(** ** Strings *)

Module StrFacts.

Lemma str_eqb_eq a b : str_eqb a b = true <-> a = b.
Proof.
  revert b. induction a as [|x a IH]; intros [|y b]; simpl; split; try easy.
  - rewrite andb_true_iff, Z.eqb_eq, IH. now intros [-> ->].
  - intros [= -> ->]. now rewrite Z.eqb_refl, (proj2 (IH b)).
Qed.

Lemma str_eqb_refl s : str_eqb s s = true.
Proof. now apply str_eqb_eq. Qed.

Lemma str_eqb_neq a b : str_eqb a b = false <-> a <> b.
Proof.
  split.
  - intros H E. apply str_eqb_eq in E. congruence.
  - intros H. destruct (str_eqb a b) eqn:E; [|reflexivity].
    apply str_eqb_eq in E. contradiction.
Qed.

Lemma existsb_str_eqb s l : existsb (str_eqb s) l = true <-> In s l.
Proof.
  rewrite existsb_exists. split.
  - intros (x & Hx & E). apply str_eqb_eq in E. now subst.
  - intros H. exists s. split; [easy|apply str_eqb_refl].
Qed.



Lemma str_ltb_irrefl a : str_ltb a a = false.
Proof.
  induction a as [|x a IH]; [reflexivity|]. cbn [str_ltb].
  now rewrite Z.ltb_irrefl, Z.eqb_refl, IH.
Qed.

Lemma str_ltb_trans a : forall b c,
  str_ltb a b = true -> str_ltb b c = true -> str_ltb a c = true.
Proof.
  induction a as [|x a IH]; intros [|y b] [|z c]; cbn [str_ltb]; try easy.
  rewrite !orb_true_iff, !andb_true_iff, !Z.ltb_lt, !Z.eqb_eq.
  intros [H1|[H1 H1']] [H2|[H2 H2']]; try (left; lia).
  right. split; [lia|]. eapply IH; eauto.
Qed.

Lemma str_ltb_total a : forall b,
  str_eqb a b = false -> str_ltb a b = false -> str_ltb b a = true.
Proof.
  induction a as [|x a IH]; intros [|y b]; cbn [str_eqb str_ltb]; try easy.
  destruct (Z.ltb_spec x y), (Z.ltb_spec y x), (Z.eqb_spec x y), (Z.eqb_spec y x);
    cbn [andb orb]; try easy; try lia.
  apply IH.
Qed.

Lemma str_ltb_neq a b : str_ltb a b = true -> str_eqb a b = false.
Proof.
  intros H. destruct (str_eqb a b) eqn:E; [|reflexivity].
  apply str_eqb_eq in E. subst. now rewrite str_ltb_irrefl in H.
Qed.

End StrFacts.

(** ** The normalizer *)

Module NormalizationFacts.
Import unicodedata Normalization StrFacts.

Lemma table_key_inj c c' : 0 <= c -> 0 <= c' -> table_key c = table_key c' -> c = c'.
Proof. unfold table_key. intros. assert (Z.pos (Z.to_pos (c+1)) = Z.pos (Z.to_pos (c'+1))) by congruence. rewrite !Z2Pos.id in * by lia. lia. Qed.

Lemma find_index_table {A} (t : list (Z * A)) p v :
  PositiveMap.find p (index_table t) = Some v ->
  exists c, In (c, v) t /\ table_key c = p.
Proof.
  induction t as [|[k x] t IH]; simpl.
  - rewrite PositiveMap.gempty. discriminate.
  - destruct (Pos.eq_dec (table_key k) p) as [<-|n].
    + rewrite PositiveMap.gss. intros [= <-]. eauto.
    + rewrite PositiveMap.gso by congruence.
      intros H. destruct (IH H) as (c & ? & ?). eauto.
Qed.

Lemma lookup_index_table {A} (t : list (Z * A)) (P : Z -> A -> bool) :
  audit P t = true ->
  forall c v, lookup (index_table t) c = Some v -> P c v = true.
Proof.
  unfold audit. intros Hall c v. unfold lookup. destruct (Z.ltb_spec c 0); [discriminate|].
  intros Hf. apply find_index_table in Hf as (c' & Hin & Hk).
  rewrite forallb_forall in Hall. apply Hall in Hin. simpl in Hin.
  apply andb_true_iff in Hin as [H0 HP]. apply Z.leb_le in H0.
  apply table_key_inj in Hk; auto. now subst.
Qed.

Lemma decomposition_map_eq : decomposition_map = index_table decomposition_table.
Proof. vm_compute. reflexivity. Qed.
Lemma combining_map_eq : combining_map = index_table combining_table.
Proof. vm_compute. reflexivity. Qed.
Lemma composition_map_eq :
  composition_map =
  index_table composition_pairs.
Proof. vm_compute. reflexivity. Qed.

Opaque decomposition_map combining_map composition_map.

Lemma audit_decomposition_ok : audit_decomposition = true.
Proof. vm_compute. reflexivity. Qed.
Lemma audit_combining_ok : audit_combining = true.
Proof. vm_compute. reflexivity. Qed.
Lemma audit_composition_ok : audit_composition = true.
Proof. vm_compute. reflexivity. Qed.

(** *** Facts about the tables *)

Lemma decompose_unfold n c :
  decompose n c =
  if is_syllable c then
    let SIndex := c - SBase in
    let L := LBase + SIndex / NCount in
    let V := VBase + (SIndex mod NCount) / TCount in
    let T := TBase + SIndex mod TCount in
    if T =? TBase then [L; V] else [L; V; T]
  else
    match decomposition c with
    | None => [c]
    | Some ds =>
        match n with
        | O => ds
        | S d => flat_map (decompose d) ds
        end
    end.
Proof. destruct n; reflexivity. Qed.

Lemma combining_nonneg c : 0 <= combining c.
Proof.
  unfold combining. destruct (lookup combining_map c) as [k|] eqn:E; [|lia].
  rewrite combining_map_eq in E.
  apply (lookup_index_table _ _ audit_combining_ok) in E.
  unfold combining_entry_ok in E. rewrite !andb_true_iff in E.
  destruct E as [[E _] _]. apply Z.ltb_lt in E. lia.
Qed.

Lemma combining_hangul c :
  in_jamo_block c = true \/ is_syllable c = true -> combining c = 0.
Proof.
  intros H. unfold combining.
  destruct (lookup combining_map c) as [k|] eqn:E; [|reflexivity].
  rewrite combining_map_eq in E.
  apply (lookup_index_table _ _ audit_combining_ok) in E.
  unfold combining_entry_ok in E. rewrite !andb_true_iff, !negb_true_iff in E.
  destruct E as [[_ E1] E2]. destruct H; congruence.
Qed.

Lemma decomposition_entry c ds :
  decomposition c = Some ds -> decomposition_entry_ok c ds = true.
Proof.
  unfold decomposition. rewrite decomposition_map_eq.
  apply (lookup_index_table _ _ audit_decomposition_ok).
Qed.

Lemma decompose_undecomposable n c :
  is_syllable c = false -> decomposition c = None -> decompose n c = [c].
Proof. intros Hs Hd. rewrite decompose_unfold. now rewrite Hs, Hd. Qed.

Lemma inert_fixed d : inert d = true -> full_decomposition d = [d].
Proof.
  unfold inert. rewrite !andb_true_iff. intros [[H _] _].
  now apply str_eqb_eq.
Qed.

Lemma jamo_fixed d : in_jamo_block d = true -> full_decomposition d = [d].
Proof.
  intros H. apply decompose_undecomposable.
  - unfold in_jamo_block, is_syllable, SBase, SCount, LCount, NCount, VCount, TCount in *. lia.
  - destruct (decomposition d) as [ds|] eqn:E; [|reflexivity].
    apply decomposition_entry in E. unfold decomposition_entry_ok in E.
    rewrite !andb_true_iff, !negb_true_iff in E. destruct E as [[_ E] _]. congruence.
Qed.

Lemma syllable_decomposition c :
  is_syllable c = true ->
  full_decomposition c =
    (let SIndex := c - SBase in
     let L := LBase + SIndex / NCount in
     let V := VBase + (SIndex mod NCount) / TCount in
     let T := TBase + SIndex mod TCount in
     if T =? TBase then [L; V] else [L; V; T]).
Proof. intros H. unfold full_decomposition. rewrite decompose_unfold. now rewrite H. Qed.

Ltac hangul_unfold :=
  unfold is_syllable, is_L, is_V, is_T, in_jamo_block,
         SBase, LBase, VBase, TBase, SCount, NCount, LCount, VCount, TCount in *.

Lemma syllable_parts_jamo c d :
  is_syllable c = true -> In d (full_decomposition c) -> in_jamo_block d = true.
Proof.
  intros H. rewrite (syllable_decomposition c H). cbv zeta.
  assert (B : 0 <= c - SBase < 11172) by (hangul_unfold; lia).
  assert (BL : 0 <= (c - SBase) / NCount < 19)
    by (unfold NCount, VCount, TCount; Z.div_mod_to_equations; lia).
  assert (BV : 0 <= ((c - SBase) mod NCount) / TCount < 21)
    by (unfold NCount, VCount, TCount; Z.div_mod_to_equations; lia).
  assert (BT : 0 <= (c - SBase) mod TCount < 28)
    by (unfold TCount; Z.div_mod_to_equations; lia).
  revert BL BV BT.
  generalize ((c - SBase) / NCount) (((c - SBase) mod NCount) / TCount)
             ((c - SBase) mod TCount).
  intros l v t BL BV BT Hin.
  unfold in_jamo_block, LBase, VBase, TBase in *.
  rewrite andb_true_iff, !Z.leb_le.
  destruct (_ =? _) in Hin; cbn [In] in Hin; intuition lia.
Qed.

(** Every character of a full decomposition is itself fully decomposed:
    the bound of [full_decomposition] exhausts the table. *)
Lemma decompose_closed c d :
  In d (full_decomposition c) -> full_decomposition d = [d].
Proof.
  intros Hin. destruct (is_syllable c) eqn:Hs.
  - apply jamo_fixed. eapply syllable_parts_jamo; eauto.
  - destruct (decomposition c) as [ds|] eqn:E.
    + apply decomposition_entry in E. unfold decomposition_entry_ok in E.
      rewrite !andb_true_iff in E. destruct E as [_ [E _]].
      rewrite forallb_forall in E. apply inert_fixed. auto.
    + unfold full_decomposition in *.
      rewrite decompose_undecomposable in Hin by auto.
      destruct Hin as [<-|[]]. now apply decompose_undecomposable.
Qed.

Lemma pair_key_decode l c :
  0 <= c < 0x200000 ->
  pair_key l c / 0x200000 = l /\ pair_key l c mod 0x200000 = c.
Proof. intros H. unfold pair_key. Z.div_mod_to_equations. lia. Qed.

Lemma composition_cases l c p :
  composition l c = Some p ->
  (is_L l = true /\ is_V c = true /\
   p = SBase + ((l - LBase) * VCount + (c - VBase)) * TCount)
  \/ (is_syllable l = true /\ (l - SBase) mod TCount = 0 /\ is_T c = true /\
      p = l + (c - TBase))
  \/ composition_entry_ok l c p = true.
Proof.
  unfold composition.
  destruct (is_L l && is_V c) eqn:E1.
  { apply andb_true_iff in E1 as [? ?]. intros E. left. repeat split; congruence. }
  destruct (is_syllable l && ((l - SBase) mod TCount =? 0) && is_T c) eqn:E2.
  { rewrite !andb_true_iff, Z.eqb_eq in E2. destruct E2 as [[? ?] ?].
    intros E. right; left. repeat split; congruence. }
  destruct ((0 <=? l) && (0 <=? c) && (c <? 0x200000)) eqn:E3; [|discriminate].
  rewrite !andb_true_iff, !Z.leb_le, Z.ltb_lt in E3. destruct E3 as [[Hl Hc] Hc'].
  rewrite composition_map_eq. intros E.
  apply (lookup_index_table _ _ audit_composition_ok) in E. cbv beta in E.
  destruct (pair_key_decode l c) as [E1' E2']; [lia|]. rewrite E1', E2' in E.
  right; right; exact E.
Qed.

(** A composite decomposes into what it was composed from. *)
Lemma composition_decomposition l c p :
  composition l c = Some p ->
  full_decomposition p = full_decomposition l ++ [c].
Proof.
  intros H. apply composition_cases in H as [(HL & HV & ->)|[(HS & Hm & HT & ->)|H]].
  - rewrite (jamo_fixed l) by (hangul_unfold; lia).
    rewrite syllable_decomposition by (hangul_unfold; lia). cbv zeta.
    hangul_unfold.
    replace ((44032 + ((l - 4352) * 21 + (c - 4449)) * 28 - 44032) mod 28) with 0
      by (Z.div_mod_to_equations; lia).
    replace ((44032 + ((l - 4352) * 21 + (c - 4449)) * 28 - 44032) / (21 * 28))
      with (l - 4352) by (Z.div_mod_to_equations; lia).
    replace ((44032 + ((l - 4352) * 21 + (c - 4449)) * 28 - 44032) mod (21 * 28) / 28)
      with (c - 4449) by (Z.div_mod_to_equations; lia).
    rewrite Z.add_0_r, Z.eqb_refl. cbn [app]. f_equal; [lia|f_equal; lia].
  - rewrite (syllable_decomposition l HS).
    rewrite syllable_decomposition by (hangul_unfold; Z.div_mod_to_equations; lia).
    cbv zeta. hangul_unfold.
    replace ((l - 44032) mod 28) with 0 by lia.
    replace ((l + (c - 4519) - 44032) mod 28) with (c - 4519)
      by (Z.div_mod_to_equations; lia).
    replace ((l + (c - 4519) - 44032) / (21 * 28)) with ((l - 44032) / (21 * 28))
      by (Z.div_mod_to_equations; lia).
    replace ((l + (c - 4519) - 44032) mod (21 * 28) / 28)
      with ((l - 44032) mod (21 * 28) / 28) by (Z.div_mod_to_equations; lia).
    rewrite Z.add_0_r, Z.eqb_refl.
    destruct (Z.eqb_spec (4519 + (c - 4519)) 4519); [lia|].
    cbn [app]. repeat f_equal. lia.
  - unfold composition_entry_ok in H. rewrite !andb_true_iff in H.
    destruct H as [[[[H _] _] _] _]. now apply str_eqb_eq.
Qed.

(** *** Canonical ordering *)

Lemma ordered_after_weaken k k' s : k' <= k -> ordered_after k s -> ordered_after k' s.
Proof. destruct s; simpl; [easy|]. intros ? [? ?]. split; [lia|easy]. Qed.

Lemma insert_mark_ordered a t k :
  ordered_after k t -> ~ (0 < combining a < k) -> ordered_after k (insert_mark a t).
Proof.
  revert k. induction t as [|b t IH]; intros k Ht Ha; simpl.
  - auto.
  - destruct Ht as [Hb Ht].
    destruct ((0 <? combining b) && (combining b <? combining a)) eqn:E.
    + apply andb_true_iff in E as [E1 E2]. apply Z.ltb_lt in E1, E2.
      simpl. split; [easy|]. apply IH; [easy|lia].
    + simpl. repeat split; try easy.
      apply andb_false_iff in E as [E|E]; [apply Z.ltb_ge in E|apply Z.ltb_ge in E]; lia.
Qed.

Lemma canonical_order_ordered s : ordered (canonical_order s).
Proof.
  induction s as [|a s IH]; simpl; [exact I|].
  apply insert_mark_ordered; [exact IH|lia].
Qed.

Lemma ordered_canonical_order s : ordered s -> canonical_order s = s.
Proof.
  induction s as [|a s IH]; [reflexivity|].
  intros [_ H]. simpl. rewrite IH by (eapply ordered_after_weaken; [|exact H]; apply combining_nonneg).
  destruct s as [|b s]; [reflexivity|]. simpl.
  destruct H as [H _].
  destruct ((0 <? combining b) && (combining b <? combining a)) eqn:E; [|reflexivity].
  apply andb_true_iff in E as [E1 E2]. apply Z.ltb_lt in E1, E2. lia.
Qed.

Ltac ltb_cases :=
  repeat match goal with
         | |- context [?x <? ?y] =>
             destruct (Z.ltb_spec x y); cbn [andb insert_mark]
         end.

Lemma insert_mark_comm a b t :
  0 < combining a -> 0 < combining b -> combining a <> combining b ->
  insert_mark a (insert_mark b t) = insert_mark b (insert_mark a t).
Proof.
  intros Ha Hb Hab. induction t as [|x t IH]; cbn [insert_mark].
  - ltb_cases; try lia; reflexivity.
  - ltb_cases; try lia; try reflexivity. now rewrite IH.
Qed.

Lemma reorder_canonical_order s t :
  reorder s t -> canonical_order s = canonical_order t.
Proof.
  induction 1; simpl.
  - reflexivity.
  - now f_equal.
  - now apply insert_mark_comm.
  - congruence.
Qed.

Lemma reorder_app_l u s t : reorder s t -> reorder (u ++ s) (u ++ t).
Proof. intros H. induction u; simpl; [easy|]. now apply reorder_skip. Qed.

Lemma reorder_app_r u s t : reorder s t -> reorder (s ++ u) (t ++ u).
Proof.
  induction 1; simpl.
  - apply reorder_refl.
  - now apply reorder_skip.
  - now apply reorder_swap.
  - eapply reorder_trans; eauto.
Qed.

(** A mark moves to the right across marks of other classes. *)
Lemma reorder_move c ms :
  0 < combining c ->
  Forall (fun m => 0 < combining m /\ combining m <> combining c) ms ->
  reorder (c :: ms) (ms ++ [c]).
Proof.
  intros Hc. induction 1 as [|m ms [Hm Hmc] _ IH]; simpl.
  - apply reorder_refl.
  - eapply reorder_trans.
    + apply reorder_swap; [easy|easy|congruence].
    + now apply reorder_skip.
Qed.

Lemma insert_mark_Forall (P : Z -> Prop) a t :
  P a -> Forall P t -> Forall P (insert_mark a t).
Proof.
  intros Ha. induction 1 as [|b t Hb Ht IH]; simpl.
  - auto.
  - destruct (_ && _); auto.
Qed.

Lemma canonical_order_Forall (P : Z -> Prop) s :
  Forall P s -> Forall P (canonical_order s).
Proof. induction 1; simpl; [constructor|]. now apply insert_mark_Forall. Qed.

(** *** Canonical composition *)

Lemma pending_ok_weaken k k' pend : k <= k' -> pending_ok k pend -> pending_ok k' pend.
Proof. destruct pend; simpl; [easy|]. intros ? [? ?]. split; [lia|easy]. Qed.

Lemma pending_ok_bound k pend :
  pending_ok k pend -> Forall (fun m => 0 < combining m <= k) pend.
Proof.
  revert k. induction pend as [|b pend IH]; intros k; simpl; [constructor|].
  intros [Hb H]. constructor; [easy|].
  eapply Forall_impl; [|apply IH, H]. simpl. lia.
Qed.

Lemma decompose_fixed (s : list Z) :
  Forall fixed s -> flat_map full_decomposition s = s.
Proof. induction 1 as [|c s Hc _ IH]; simpl; [easy|]. now rewrite Hc, IH. Qed.

Lemma compose_from_unfold l pend c s :
  compose_from l pend (c :: s) =
  match (if blocked pend c then None else composition l c) with
  | Some p => compose_from p pend s
  | None =>
      if combining c =? 0
      then l :: rev pend ++ compose_from c [] s
      else compose_from l (c :: pend) s
  end.
Proof. reflexivity. Qed.

(** Decomposing what [compose_from] built gives back the text it read,
    up to the order of marks. *)
Lemma compose_from_reorder s : forall l pend k,
  Forall fixed s -> Forall fixed pend ->
  pending_ok k pend -> ordered_after k s ->
  reorder (flat_map full_decomposition (compose_from l pend s))
          (full_decomposition l ++ rev pend ++ s).
Proof.
  induction s as [|c s IH]; intros l pend k Hs Hp Hk Ho.
  - cbn [compose_from flat_map]. rewrite app_nil_r.
    rewrite (decompose_fixed (rev pend)) by now apply Forall_rev.
    apply reorder_refl.
  - rewrite compose_from_unfold. inversion Hs as [|? ? Hc Hs']; subst.
    destruct Ho as [Hck Ho].
    assert (Hflush : combining c = 0 ->
      reorder (flat_map full_decomposition (l :: rev pend ++ compose_from c [] s))
              (full_decomposition l ++ rev pend ++ c :: s)).
    { intros H0. cbn [flat_map]. rewrite flat_map_app.
      rewrite (decompose_fixed (rev pend)) by now apply Forall_rev.
      do 2 apply reorder_app_l.
      specialize (IH c [] 0 Hs' (Forall_nil _) I).
      rewrite Hc in IH. apply IH. now rewrite <- H0. }
    assert (Hpush : combining c <> 0 ->
      reorder (flat_map full_decomposition (compose_from l (c :: pend) s))
              (full_decomposition l ++ rev pend ++ c :: s)).
    { intros H0. pose proof (combining_nonneg c).
      specialize (IH l (c :: pend) (combining c) Hs' (Forall_cons _ Hc Hp)).
      cbn [rev] in IH. rewrite <- app_assoc in IH. apply IH; [|easy].
      split; [lia|]. eapply pending_ok_weaken; [|exact Hk]. lia. }
    destruct (blocked pend c) eqn:Hb.
    { destruct (Z.eqb_spec (combining c) 0); auto. }
    destruct (composition l c) as [p|] eqn:Hcomp.
    2:{ destruct (Z.eqb_spec (combining c) 0); auto. }
    apply composition_decomposition in Hcomp.
    assert (Hk' : pending_ok (combining c) pend).
    { destruct pend as [|b pend]; [exact I|].
      simpl in Hb. apply Z.leb_gt in Hb. destruct Hk as [Hb' Hk].
      split; [lia|easy]. }
    specialize (IH p pend (combining c) Hs' Hp Hk' Ho).
    eapply reorder_trans; [exact IH|].
    rewrite Hcomp, <- app_assoc. apply reorder_app_l.
    destruct pend as [|b pend]; [apply reorder_refl|].
    change ([c] ++ rev (b :: pend) ++ s) with ((c :: rev (b :: pend)) ++ s).
    change (rev (b :: pend) ++ c :: s) with (rev (b :: pend) ++ [c] ++ s).
    rewrite (app_assoc _ [c]). apply reorder_app_r.
    simpl in Hb. apply Z.leb_gt in Hb.
    apply reorder_move.
    + destruct Hk as [? _]. lia.
    + destruct Hk as [Hb1 Hk]. apply pending_ok_bound in Hk. apply Forall_rev.
      constructor; [lia|]. eapply Forall_impl; [|exact Hk]. simpl. lia.
Qed.

Lemma compose_reorder s :
  Forall fixed s -> ordered s ->
  reorder (flat_map full_decomposition (compose s)) s.
Proof.
  induction s as [|c s IH]; intros Hs Ho; [apply reorder_refl|].
  inversion Hs as [|? ? Hc Hs']; subst. destruct Ho as [_ Ho].
  cbn [compose]. destruct (Z.eqb_spec (combining c) 0) as [E|E].
  - pose proof (compose_from_reorder s c [] 0 Hs' (Forall_nil _) I) as H.
    rewrite Hc in H. apply H. now rewrite <- E.
  - cbn [flat_map]. rewrite Hc. apply reorder_skip, IH; [easy|].
    eapply ordered_after_weaken; [|exact Ho]. apply combining_nonneg.
Qed.

(** A text in NFD is what its composition decomposes to. *)
Lemma nfd_compose s : Forall fixed s -> ordered s -> nfd (compose s) = s.
Proof.
  intros Hs Ho. unfold nfd.
  rewrite (reorder_canonical_order _ _ (compose_reorder s Hs Ho)).
  now apply ordered_canonical_order.
Qed.

Lemma nfd_fixed s : Forall fixed (nfd s).
Proof.
  apply canonical_order_Forall. apply Forall_forall. intros d Hd.
  apply in_flat_map in Hd as (c & _ & Hd). eapply decompose_closed; eauto.
Qed.

Lemma nfd_ordered s : ordered (nfd s).
Proof. apply canonical_order_ordered. Qed.

Lemma nfd_nfd s : nfd (nfd s) = nfd s.
Proof.
  unfold nfd at 1. rewrite decompose_fixed by apply nfd_fixed.
  apply ordered_canonical_order, nfd_ordered.
Qed.

Lemma nfd_nfc s : nfd (nfc s) = nfd s.
Proof. apply nfd_compose; [apply nfd_fixed|apply nfd_ordered]. Qed.

End NormalizationFacts.

(** ** School names inside file names *)

Module EmbeddingFacts.
Import unicodedata Normalization StrFacts NormalizationFacts.

Lemma insert_mark_starter j t : combining j = 0 -> insert_mark j t = j :: t.
Proof.
  intros H. destruct t as [|b t]; [reflexivity|]. cbn [insert_mark]. rewrite H.
  destruct (Z.ltb_spec 0 (combining b)), (Z.ltb_spec (combining b) 0);
    try reflexivity; lia.
Qed.

Lemma insert_mark_app_starter a u j t :
  combining j = 0 -> insert_mark a (u ++ j :: t) = insert_mark a u ++ j :: t.
Proof.
  intros H. induction u as [|b u IH]; cbn [insert_mark app].
  - rewrite H. reflexivity.
  - destruct (_ && _); [now rewrite IH|reflexivity].
Qed.

Lemma canonical_order_app_starter a j t :
  combining j = 0 ->
  canonical_order (a ++ j :: t) = canonical_order a ++ j :: canonical_order t.
Proof.
  intros H. induction a as [|x a IH]; cbn [canonical_order app fold_right].
  - now apply insert_mark_starter.
  - fold (canonical_order (a ++ j :: t)). rewrite IH.
    fold (canonical_order a). now apply insert_mark_app_starter.
Qed.

Lemma canonical_order_starters J t :
  Forall (fun c => combining c = 0) J ->
  canonical_order (J ++ t) = J ++ canonical_order t.
Proof.
  induction 1 as [|j J Hj _ IH]; [reflexivity|].
  cbn [app]. change (j :: J ++ t) with ([] ++ j :: (J ++ t)).
  rewrite canonical_order_app_starter by easy. now rewrite IH.
Qed.


Lemma compose_from_app_starter a : forall l pend j r,
  combining j = 0 -> (forall l', composition l' j = None) ->
  compose_from l pend (a ++ j :: r) = compose_from l pend a ++ compose_from j [] r.
Proof.
  induction a as [|c a IH]; intros l pend j r Hj Hn; cbn [app].
  - rewrite compose_from_unfold, Hn, Hj. destruct (blocked pend j); reflexivity.
  - rewrite !compose_from_unfold.
    destruct (if blocked pend c then None else composition l c).
    + now apply IH.
    + destruct (combining c =? 0).
      * cbn [app]. rewrite <- app_assoc. f_equal. f_equal. now apply IH.
      * now apply IH.
Qed.

Lemma compose_app_starter a j r :
  combining j = 0 -> (forall l', composition l' j = None) ->
  compose (a ++ j :: r) = compose a ++ compose_from j [] r.
Proof.
  intros Hj Hn. induction a as [|c a IH]; cbn [app compose].
  - now rewrite Hj.
  - destruct (combining c =? 0).
    + now apply compose_from_app_starter.
    + cbn [app]. now rewrite IH.
Qed.



Lemma composition_second l c p :
  composition l c = Some p ->
  is_V c = true \/ is_T c = true \/ in_jamo_block c = false.
Proof.
  intros H. apply composition_cases in H as [(_ & H & _)|[(_ & _ & H & _)|H]]; auto.
  unfold composition_entry_ok in H. rewrite !andb_true_iff, !negb_true_iff in H.
  tauto.
Qed.

Lemma composition_leading_none l j : is_L j = true -> composition l j = None.
Proof.
  intros H. destruct (composition l j) as [p|] eqn:E; [|reflexivity].
  apply composition_second in E. hangul_unfold. lia.
Qed.







Lemma schools_normalized school :
  In school (keys SCHOOL_EC) -> nfc school = school.
Proof.
  cbn [keys SCHOOL_EC map fst In].
  intros [<-|[<-|[<-|[<-|[]]]]]; vm_compute; reflexivity.
Qed.

End EmbeddingFacts.

(** ** The loaders *)

Module LoaderFacts.
Import StrFacts.

Section Dict.
Context {V : Type}.

Lemma dict_get_set_eq k (v : V) d : dict_get k (dict_set k v d) = Some v.
Proof.
  induction d as [|[k' v'] d IH]; simpl.
  - now rewrite str_eqb_refl.
  - destruct (str_eqb k' k) eqn:E; simpl; now rewrite E.
Qed.

Lemma dict_get_set_neq k k' (v : V) d :
  k <> k' -> dict_get k' (dict_set k v d) = dict_get k' d.
Proof.
  intros H. induction d as [|[k0 v0] d IH]; simpl.
  - now rewrite (proj2 (str_eqb_neq k k')).
  - destruct (str_eqb k0 k) eqn:E; simpl.
    + apply str_eqb_eq in E. subst. now rewrite (proj2 (str_eqb_neq k k')).
    + destruct (str_eqb k0 k'); [reflexivity|apply IH].
Qed.

Lemma dict_get_set k k' (v : V) d :
  dict_get k' (dict_set k v d) = if str_eqb k' k then Some v else dict_get k' d.
Proof.
  destruct (str_eqb k' k) eqn:E.
  - apply str_eqb_eq in E. subst. apply dict_get_set_eq.
  - apply dict_get_set_neq. apply str_eqb_neq in E. congruence.
Qed.

Lemma dict_get_In k (d : dict V) :
  In k (keys d) <-> exists v, dict_get k d = Some v.
Proof.
  induction d as [|[k' v'] d IH]; simpl.
  - split; [easy|]. now intros [? ?].
  - destruct (str_eqb k' k) eqn:E.
    + apply str_eqb_eq in E. split; eauto.
    + rewrite <- IH. apply str_eqb_neq in E. tauto.
Qed.

End Dict.

Lemma row_get_set col v r : row_get col (dict_set col v r) = v.
Proof. unfold row_get. now rewrite dict_get_set_eq. Qed.

Lemma row_get_set_other col col' v r :
  col <> col' -> row_get col' (dict_set col v r) = row_get col' r.
Proof. intros H. unfold row_get. now rewrite dict_get_set_neq. Qed.

Lemma stamp_rows school df :
  rows (stamp school df) = map (dict_set col_school (Str school)) (rows df).
Proof. reflexivity. Qed.

Lemma stamp_tagged school df :
  Forall (fun r => row_get col_school r = Str school) (rows (stamp school df)).
Proof.
  rewrite stamp_rows. apply Forall_forall. intros r Hr.
  apply in_map_iff in Hr as (r0 & <- & _). apply row_get_set.
Qed.

Lemma match_schools_unfold file fname school rest data :
  match_schools file fname (school :: rest) data =
  if contains (normalize school) fname then
    df <- read_csv file ;;
    match_schools file fname rest (dict_set school (stamp school df) data)
  else match_schools file fname rest data.
Proof. reflexivity. Qed.

(** One file: every school of the list whose name occurs in the file
    name takes the file's frame; the other keys are left alone. *)
Lemma match_schools_spec file fname df schools : forall data,
  read_csv file = Returns df ->
  exists data',
    match_schools file fname schools data = Returns data' /\
    forall s, dict_get s data' =
              if existsb (str_eqb s) schools && contains (normalize s) fname
              then Some (stamp s df) else dict_get s data.
Proof.
  induction schools as [|school rest IH]; intros data Hr.
  - exists data. split; [reflexivity|]. intros s. reflexivity.
  - rewrite match_schools_unfold.
    destruct (contains (normalize school) fname) eqn:Hc.
    + rewrite Hr. cbn [bind].
      destruct (IH (dict_set school (stamp school df) data) Hr) as (data' & -> & H).
      exists data'. split; [reflexivity|]. intros s. rewrite H, dict_get_set.
      cbn [existsb]. destruct (str_eqb s school) eqn:E.
      * apply str_eqb_eq in E. subst. rewrite Hc. cbn [orb andb].
        now destruct (existsb _ rest).
      * reflexivity.
    + destruct (IH data Hr) as (data' & -> & H).
      exists data'. split; [reflexivity|]. intros s. rewrite H.
      cbn [existsb]. destruct (str_eqb s school) eqn:E; [|reflexivity].
      apply str_eqb_eq in E. subst. rewrite Hc.
      now rewrite !andb_false_r.
Qed.

(** Without a school in the file name nothing is read. *)
Lemma match_schools_none file fname schools data :
  (forall s, In s schools -> contains (normalize s) fname = false) ->
  match_schools file fname schools data = Returns data.
Proof.
  induction schools as [|school rest IH]; intros H; [reflexivity|].
  rewrite match_schools_unfold, H by (left; reflexivity).
  apply IH. intros s Hs. apply H. now right.
Qed.

Lemma find_snoc {A} (p : A -> bool) l x :
  find p (l ++ [x]) =
  match find p l with
  | Some y => Some y
  | None => if p x then Some x else None
  end.
Proof.
  induction l as [|y l IH]; simpl; [reflexivity|].
  destruct (p y); [reflexivity|apply IH].
Qed.

(** The whole directory: a known school holds the frame of the last CSV
    file whose name contains it. *)
Lemma scan_entries_spec entries : forall data,
  readable entries ->
  exists data',
    scan_entries entries data = Returns data' /\
    forall s, dict_get s data' =
              if known s then
                match find (matches s) (rev entries) with
                | Some f => stamped s f
                | None => dict_get s data
                end
              else dict_get s data.
Proof.
  induction entries as [|file rest IH]; intros data Hr.
  - exists data. split; [reflexivity|]. intros s. now destruct (known s).
  - assert (Hr' : readable rest) by (intros f Hf; apply Hr; now right).
    cbn [scan_entries rev]. destruct (is_csv file) eqn:Hcsv; cbn [negb].
    + destruct (Hr file (or_introl eq_refl) Hcsv) as (df & Hdf).
      destruct (match_schools_spec file (normalize (name file)) df
                  (keys SCHOOL_EC) data Hdf) as (data1 & -> & H1).
      cbn [bind]. destruct (IH data1 Hr') as (data' & -> & H).
      exists data'. split; [reflexivity|]. intros s. rewrite H, H1, find_snoc.
      fold (known s). destruct (known s); [|reflexivity]. cbn [andb].
      destruct (find (matches s) (rev rest)); [reflexivity|].
      unfold matches. rewrite Hcsv. cbn [andb].
      destruct (contains _ _); [unfold stamped; rewrite Hdf|]; reflexivity.
    + destruct (IH data Hr') as (data' & -> & H).
      exists data'. split; [reflexivity|]. intros s. rewrite H, find_snoc.
      destruct (known s); [|reflexivity].
      destruct (find (matches s) (rev rest)); [reflexivity|].
      unfold matches. now rewrite Hcsv.
Qed.

Lemma dict_set_In {V} k (v : V) d k' v' :
  In (k', v') (dict_set k v d) -> (k' = k /\ v' = v) \/ In (k', v') d.
Proof.
  induction d as [|[k0 v0] d IH]; simpl.
  - intros [[= <- <-]|[]]. auto.
  - destruct (str_eqb k0 k) eqn:E; simpl.
    + apply str_eqb_eq in E. subst. intros [[= <- <-]|H]; auto.
    + intros [H|H]; auto. apply IH in H. tauto.
Qed.

Lemma match_schools_tagged file fname schools : forall data data',
  (forall s, In s schools -> In s (keys SCHOOL_EC)) ->
  match_schools file fname schools data = Returns data' ->
  well_tagged data -> well_tagged data'.
Proof.
  induction schools as [|school rest IH]; intros data data' Hs.
  - cbn [match_schools]. now intros [= <-].
  - rewrite match_schools_unfold.
    assert (Hrest : forall s, In s rest -> In s (keys SCHOOL_EC))
      by (intros; apply Hs; now right).
    destruct (contains (normalize school) fname); [|now apply IH].
    destruct (read_csv file) as [df|e]; cbn [bind]; [|discriminate].
    intros H Hd. apply (IH _ _ Hrest H).
    intros key d Hin. apply dict_set_In in Hin as [[-> ->]|Hin]; [|now apply Hd].
    split; [apply Hs; now left|apply stamp_tagged].
Qed.

Lemma scan_entries_tagged entries : forall data data',
  scan_entries entries data = Returns data' ->
  well_tagged data -> well_tagged data'.
Proof.
  induction entries as [|file rest IH]; intros data data'.
  - cbn [scan_entries]. now intros [= <-].
  - cbn [scan_entries]. destruct (is_csv file); cbn [negb]; [|apply IH].
    destruct (match_schools file _ _ data) as [data1|e] eqn:E; cbn [bind];
      [|discriminate].
    intros H Hd. apply (IH _ _ H).
    eapply match_schools_tagged; [|exact E|exact Hd]. auto.
Qed.

Lemma load_environment_tagged DATA_DIR data :
  snd (load_environment_data DATA_DIR) = Returns data -> well_tagged data.
Proof.
  destruct DATA_DIR as [| |entries]; cbn [load_environment_data snd].
  - intros [= <-]. intros ? ? [].
  - discriminate.
  - intros H. apply (scan_entries_tagged _ _ _ H). intros ? ? [].
Qed.

(** The mapping the loader returns for a readable directory. *)
Lemma load_environment_lookup entries :
  readable entries ->
  exists data,
    load_environment_data (Directory entries) = ([], Returns data) /\
    forall s, dict_get s data =
              if known s then
                match find (matches s) (rev entries) with
                | Some f => stamped s f
                | None => None
                end
              else None.
Proof.
  intros Hr. destruct (scan_entries_spec entries [] Hr) as (data & H & Hs).
  exists data. cbn [load_environment_data]. rewrite H. split; [reflexivity|].
  intros s. rewrite Hs. cbn [dict_get]. reflexivity.
Qed.

Lemma find_last_here {A} (p : A -> bool) before x after :
  p x = true -> Forall (fun y => p y = false) after ->
  find p (rev (before ++ x :: after)) = Some x.
Proof.
  intros Hx Ha. rewrite rev_app_distr. cbn [rev]. rewrite <- app_assoc. cbn [app].
  assert (Hn : find p (rev after) = None).
  { apply Forall_rev in Ha. induction Ha as [|y l Hy _ IH]; simpl; [easy|].
    now rewrite Hy. }
  induction (rev after) as [|y l IH]; simpl in *.
  - now rewrite Hx.
  - destruct (p y); [discriminate|auto].
Qed.

Lemma find_last_some {A} (p : A -> bool) l x :
  In x l -> p x = true -> exists y, find p (rev l) = Some y /\ In y l /\ p y = true.
Proof.
  intros Hin Hx. destruct (find p (rev l)) as [y|] eqn:E.
  - apply find_some in E as [H1 H2]. exists y. rewrite <- in_rev in H1. auto.
  - eapply find_none in E; [|rewrite <- in_rev; exact Hin]. congruence.
Qed.

Lemma known_In s : known s = true <-> In s (keys SCHOOL_EC).
Proof. apply existsb_str_eqb. Qed.

End LoaderFacts.

(** ** The order of float64 values *)

Module Float64Facts.

Lemma Qlt_bool_iff x y : negb (Qle_bool y x) = true <-> (x < y)%Q.
Proof.
  rewrite negb_true_iff. split.
  - intros H. apply Qnot_le_lt. intros Hle. apply Qle_bool_iff in Hle. congruence.
  - intros H. destruct (Qle_bool y x) eqn:E; [|reflexivity].
    apply Qle_bool_iff in E. apply Qlt_not_le in H. contradiction.
Qed.

(** Case analysis on float64 values, down to facts about rationals. *)
Ltac float64_cases :=
  unfold float64_le, float64_lt, float64_eq, float64_leb in *;
  repeat match goal with
         | x : float64 |- _ => destruct x as [?|[|]]
         end;
  cbn [float64_ltb float64_eqb Bool.eqb andb negb] in *;
  try discriminate; try reflexivity;
  repeat match goal with
         | H : negb _ = true |- _ => apply negb_true_iff in H
         | H : negb _ = false |- _ => apply negb_false_iff in H
         | H : Qle_bool _ _ = true |- _ => apply Qle_bool_iff in H
         | H : Qeq_bool _ _ = true |- _ => apply Qeq_bool_iff in H
         | H : Qle_bool ?a ?b = false |- _ =>
             assert (b < a)%Q by (apply Qlt_bool_iff; now rewrite H); clear H
         | H : Qeq_bool ?a ?b = false |- _ => apply Qeq_bool_neq in H
         end;
  rewrite ?negb_true_iff, ?negb_false_iff;
  repeat match goal with
         | |- Qle_bool _ _ = true => apply Qle_bool_iff
         | |- Qeq_bool _ _ = true => apply Qeq_bool_iff
         | |- Qle_bool ?a ?b = false =>
             apply negb_true_iff, Qlt_bool_iff
         | |- Qeq_bool ?a ?b = false =>
             let E := fresh in
             destruct (Qeq_bool a b) eqn:E; [apply Qeq_bool_iff in E; exfalso|reflexivity]
         end.

Lemma eqb_refl a : float64_eqb a a = true.
Proof. float64_cases; lra. Qed.

Lemma eqb_sym a b : float64_eqb a b = float64_eqb b a.
Proof.
  destruct (float64_eqb a b) eqn:E1, (float64_eqb b a) eqn:E2; try reflexivity;
    exfalso; float64_cases; lra.
Qed.

Lemma eqb_trans a b c :
  float64_eqb a b = true -> float64_eqb b c = true -> float64_eqb a c = true.
Proof. intros H1 H2. float64_cases; lra. Qed.

Lemma lt_trans a b c : float64_lt a b -> float64_lt b c -> float64_lt a c.
Proof. intros H1 H2. float64_cases; lra. Qed.

Lemma lt_total a b :
  float64_eqb a b = false -> float64_ltb a b = false -> float64_lt b a.
Proof. intros H1 H2. float64_cases; lra. Qed.

Lemma lt_neq a b : float64_lt a b -> float64_eqb a b = false.
Proof. intros H. float64_cases; lra. Qed.

Lemma lt_eqb_l a b c : float64_eqb a b = true -> float64_lt a c -> float64_lt b c.
Proof. intros H1 H2. float64_cases; lra. Qed.

Lemma lt_eqb_r a b c : float64_eqb a b = true -> float64_lt c a -> float64_lt c b.
Proof. intros H1 H2. float64_cases; lra. Qed.

Lemma le_refl a : float64_le a a.
Proof. float64_cases; lra. Qed.

Lemma le_lt_trans a b c : float64_le a b -> float64_lt b c -> float64_lt a c.
Proof. intros H1 H2. float64_cases; lra. Qed.

Lemma lt_le_weak a b : float64_lt a b -> float64_le a b.
Proof. intros H. float64_cases; lra. Qed.

Lemma leb_false a b : float64_leb a b = false -> float64_lt b a.
Proof. unfold float64_leb, float64_lt. now rewrite negb_false_iff. Qed.


End Float64Facts.

(** ** Frames, group keys and means *)

Module FrameFacts.
Import StrFacts LoaderFacts Float64Facts.

Lemma cell_eqb_value a b : pd.cell_eqb a b = true -> is_value a /\ is_value b.
Proof. destruct a, b; cbn; try discriminate; intros _; split; discriminate. Qed.

Lemma cell_eqb_refl a : is_value a -> pd.cell_eqb a a = true.
Proof.
  destruct a; cbn; intros H.
  - apply eqb_refl.
  - apply str_eqb_refl.
  - now contradiction H.
Qed.

Lemma cell_eqb_sym a b : pd.cell_eqb a b = pd.cell_eqb b a.
Proof.
  destruct a, b; cbn; try reflexivity.
  - apply eqb_sym.
  - apply eq_true_iff_eq. rewrite !str_eqb_eq. split; congruence.
Qed.

Lemma cell_eqb_trans a b c :
  pd.cell_eqb a b = true -> pd.cell_eqb b c = true -> pd.cell_eqb a c = true.
Proof.
  destruct a, b, c; cbn; try discriminate.
  - apply eqb_trans.
  - rewrite !str_eqb_eq. congruence.
Qed.

Lemma cell_ltb_trans a b c : cell_lt a b -> cell_lt b c -> cell_lt a c.
Proof.
  unfold cell_lt. destruct a, b, c; cbn; try discriminate; try reflexivity.
  - apply lt_trans.
  - apply str_ltb_trans.
Qed.

Lemma cell_ltb_total a b :
  is_value a -> is_value b ->
  pd.cell_eqb a b = false -> pd.cell_ltb a b = false -> cell_lt b a.
Proof.
  unfold cell_lt, is_value. destruct a, b; cbn; try congruence.
  - intros _ _. apply lt_total.
  - intros _ _. apply str_ltb_total.
Qed.

Lemma cell_ltb_neq a b : cell_lt a b -> pd.cell_eqb a b = false.
Proof.
  unfold cell_lt. destruct a, b; cbn; try reflexivity; try discriminate.
  - apply lt_neq.
  - apply str_ltb_neq.
Qed.

Lemma cell_ltb_eqb_l a b c :
  pd.cell_eqb a b = true -> cell_lt a c -> cell_lt b c.
Proof.
  unfold cell_lt. destruct a, b, c; cbn; try discriminate; try reflexivity.
  - apply lt_eqb_l.
  - rewrite str_eqb_eq. congruence.
Qed.

Lemma cell_ltb_eqb_r a b c :
  pd.cell_eqb a b = true -> cell_lt c a -> cell_lt c b.
Proof.
  unfold cell_lt. destruct a, b, c; cbn; try discriminate; try reflexivity.
  - apply lt_eqb_r.
  - rewrite str_eqb_eq. congruence.
Qed.

Lemma insert_key_In k ks x :
  In x (pd.insert_key k ks) -> x = k \/ In x ks.
Proof.
  induction ks as [|y ks IH]; cbn [pd.insert_key].
  - intros [<-|[]]. now left.
  - destruct (pd.cell_eqb k y); [now right|].
    destruct (pd.cell_ltb k y); cbn [In]; [intuition|].
    intros [<-|H]; [right; now left|]. apply IH in H. intuition.
Qed.

Lemma insert_key_keeps k ks x : In x ks -> In x (pd.insert_key k ks).
Proof.
  induction ks as [|y ks IH]; [easy|]. cbn [pd.insert_key].
  destruct (pd.cell_eqb k y); [easy|].
  destruct (pd.cell_ltb k y); cbn [In]; [intuition|].
  intros [<-|H]; auto.
Qed.

Lemma insert_key_has k ks :
  is_value k -> exists x, In x (pd.insert_key k ks) /\ pd.cell_eqb k x = true.
Proof.
  intros Hk. induction ks as [|y ks IH]; cbn [pd.insert_key].
  - exists k. split; [now left|now apply cell_eqb_refl].
  - destruct (pd.cell_eqb k y) eqn:E; [exists y; split; [now left|easy]|].
    destruct (pd.cell_ltb k y).
    + exists k. split; [now left|now apply cell_eqb_refl].
    + destruct IH as (x & Hx & Hkx). exists x. split; [now right|easy].
Qed.

Lemma insert_key_sorted k ks :
  is_value k -> Forall is_value ks ->
  StronglySorted cell_lt ks -> StronglySorted cell_lt (pd.insert_key k ks).
Proof.
  intros Hk Hv Hs. induction Hs as [|y ks Hs IH Hy]; cbn [pd.insert_key].
  - repeat constructor.
  - inversion Hv as [|? ? Hvy Hvks]; subst.
    destruct (pd.cell_eqb k y) eqn:E; [now constructor|].
    destruct (pd.cell_ltb k y) eqn:L.
    + constructor; [now constructor|]. constructor; [exact L|].
      eapply Forall_impl; [|exact Hy]. intros z Hz. eapply cell_ltb_trans; eauto.
    + constructor; [now apply IH|]. apply Forall_forall. intros z Hz.
      apply insert_key_In in Hz as [->|Hz].
      * now apply cell_ltb_total.
      * rewrite Forall_forall in Hy. now apply Hy.
Qed.

Lemma insert_key_value k ks :
  is_value k -> Forall is_value ks -> Forall is_value (pd.insert_key k ks).
Proof.
  intros Hk Hv. apply Forall_forall. intros x Hx.
  apply insert_key_In in Hx as [->|Hx]; [easy|].
  rewrite Forall_forall in Hv. now apply Hv.
Qed.

Lemma group_keys_cons c cs :
  pd.group_keys (c :: cs) =
  match c with NaN => pd.group_keys cs | _ => pd.insert_key c (pd.group_keys cs) end.
Proof. reflexivity. Qed.

Lemma group_keys_value cs : Forall is_value (pd.group_keys cs).
Proof.
  induction cs as [|c cs IH]; [constructor|]. rewrite group_keys_cons.
  destruct c; try exact IH; apply insert_key_value; easy.
Qed.

Lemma group_keys_sorted cs : StronglySorted cell_lt (pd.group_keys cs).
Proof.
  induction cs as [|c cs IH]; [constructor|]. rewrite group_keys_cons.
  destruct c; try exact IH;
    (apply insert_key_sorted; [easy|apply group_keys_value|exact IH]).
Qed.

Lemma group_keys_In cs k : In k (pd.group_keys cs) -> In k cs.
Proof.
  induction cs as [|c cs IH]; [easy|]. rewrite group_keys_cons.
  destruct c; cbn [In]; auto;
    (intros H; apply insert_key_In in H as [->|H]; auto).
Qed.

Lemma group_keys_has cs c :
  In c cs -> is_value c ->
  exists k, In k (pd.group_keys cs) /\ pd.cell_eqb c k = true.
Proof.
  induction cs as [|c0 cs IH]; [easy|]. intros [->|Hin] Hv.
  - rewrite group_keys_cons. destruct c; try (now contradiction Hv);
      now apply insert_key_has.
  - destruct (IH Hin Hv) as (k & Hk & E). exists k. split; [|easy].
    rewrite group_keys_cons. destruct c0; auto; now apply insert_key_keeps.
Qed.

Lemma traverse_map {A B} (f : A -> outcome B) (g : A -> B) l :
  (forall a, In a l -> f a = Returns (g a)) ->
  pd.traverse f l = Returns (map g l).
Proof.
  induction l as [|a l IH]; intros H; [reflexivity|].
  cbn [pd.traverse map]. rewrite H by now left. cbn [bind].
  rewrite IH by (intros; apply H; now right). reflexivity.
Qed.

Lemma numeric_values_numbers cells :
  (forall s, ~ In (Str s) cells) ->
  pd.numeric_values cells = Returns (numbers cells).
Proof.
  induction cells as [|c cells IH]; intros H; [reflexivity|].
  assert (H' : forall s, ~ In (Str s) cells) by (intros s Hs; apply (H s); now right).
  destruct c as [q|s|]; cbn [pd.numeric_values].
  - rewrite (IH H'). reflexivity.
  - exfalso. apply (H s). now left.
  - now apply IH.
Qed.

Section Means.
Context {M : Float64Means}.

Lemma mean_returns cells :
  (forall s, ~ In (Str s) cells) ->
  pd.group_mean_of cells = Returns (mean_cell cells).
Proof.
  intros H. unfold pd.group_mean_of, mean_cell.
  rewrite (numeric_values_numbers _ H). cbn [bind].
  destruct (numbers cells); reflexivity.
Qed.

(** [groupby_mean] on a frame that has the columns, and numbers or
    missing values in the fields. *)
Lemma groupby_mean_returns df key fields :
  pd.has_column df key = true ->
  forallb (pd.has_column df) fields = true ->
  numeric_fields fields (rows df) ->
  pd.groupby_mean df key fields = Returns (means_table df key fields).
Proof.
  intros Hk Hf Hn. unfold pd.groupby_mean. rewrite Hk, Hf. cbn [negb].
  erewrite traverse_map; [reflexivity|].
  intros k _. cbv beta.
  erewrite traverse_map; [reflexivity|].
  intros f Hin. cbv beta. rewrite mean_returns; [reflexivity|].
  intros s Hs. apply in_map_iff in Hs as (r & Hr & Hrin).
  unfold pd.group_rows in Hrin. apply filter_In in Hrin as [Hrin _].
  exact (Hn r f s Hrin Hin Hr).
Qed.

End Means.

(** [argmax] finds the first greatest number. *)
Lemma argmax_spec vals : forall i best,
  match pd.argmax vals i best with
  | None => best = None /\ numbers vals = []
  | Some (j, q) =>
      (best = Some (j, q) /\ forall x, In (Num x) vals -> float64_le x q)
      \/ (exists n,
            j = (i + n)%nat /\ nth_error vals n = Some (Num q) /\
            (forall m x, (m < n)%nat -> nth_error vals m = Some (Num x) -> float64_lt x q) /\
            (forall x, In (Num x) vals -> float64_le x q) /\
            match best with Some (_, b) => float64_lt b q | None => True end)
  end.
Proof.
  induction vals as [|c vals IH]; intros i best.
  - cbn [pd.argmax]. destruct best as [[j q]|]; [|now split].
    left. split; [reflexivity|]. intros x [].
  - destruct c as [q0|s|].
    + cbn [pd.argmax].
      set (best' := match best with
                    | Some (_, b) => if float64_leb q0 b then best else Some (i, q0)
                    | None => Some (i, q0)
                    end).
      assert (Hb : (best' = best /\ exists jb b, best = Some (jb, b) /\ float64_le q0 b)
                   \/ (best' = Some (i, q0) /\
                       match best with Some (_, b) => float64_lt b q0 | None => True end)).
      { subst best'. destruct best as [[jb b]|]; [|now right].
        destruct (float64_leb q0 b) eqn:E.
        - left. split; [reflexivity|]. exists jb, b. split; [reflexivity|].
          exact E.
        - right. split; [reflexivity|]. now apply leb_false. }
      specialize (IH (S i) best'). clearbody best'.
      destruct (pd.argmax vals (S i) best') as [[j q]|].
      2:{ destruct IH as [-> _]. destruct Hb as [[<- (? & ? & ? & _)]|[? _]]; discriminate. }
      destruct IH as [[-> Hall]|(n & -> & Hn & Hfirst & Hall & Hlt)].
      * destruct Hb as [[<- (jb & b & Hbest & Hle)]|[Hb Hbest]].
        -- left. split; [reflexivity|]. intros x [Hx|Hx]; [|now apply Hall].
           assert (x = q0) by congruence. subst x.
           assert (b = q) by congruence. now subst b.
        -- right. exists 0%nat. assert (j = i /\ q = q0) as [-> ->] by (split; congruence).
           split; [lia|]. split; [reflexivity|]. split; [intros m x Hm; lia|].
           split; [|exact Hbest].
           intros x [Hx|Hx]; [|now apply Hall].
           assert (x = q0) by congruence. subst x. apply le_refl.
      * assert (Hq0 : float64_lt q0 q).
        { destruct Hb as [[-> (jb & b & -> & Hle)]|[-> _]]; [|exact Hlt].
          eapply le_lt_trans; eauto. }
        right. exists (S n). split; [lia|]. split; [exact Hn|].
        split; [|split].
        -- intros [|m] x Hm Hx; cbn [nth_error] in Hx.
           ++ assert (x = q0) by congruence. now subst x.
           ++ apply (Hfirst m x); [lia|exact Hx].
        -- intros x [Hx|Hx]; [|now apply Hall].
           assert (x = q0) by congruence. subst x. now apply lt_le_weak.
        -- destruct Hb as [[-> _]|[-> Hbest]]; [exact Hlt|].
           destruct best as [[jb b]|]; [|exact I]. eapply lt_trans; eauto.
    + cbn [pd.argmax]. specialize (IH (S i) best).
      destruct (pd.argmax vals (S i) best) as [[j q]|]; [|exact IH].
      destruct IH as [[-> Hall]|(n & -> & Hn & Hfirst & Hall & Hlt)].
      * left. split; [reflexivity|]. intros x [Hx|Hx]; [discriminate|now apply Hall].
      * right. exists (S n). split; [lia|]. split; [exact Hn|]. split; [|split].
        -- intros [|m] x Hm Hx; cbn [nth_error] in Hx; [discriminate|].
           apply (Hfirst m x); [lia|exact Hx].
        -- intros x [Hx|Hx]; [discriminate|now apply Hall].
        -- exact Hlt.
    + cbn [pd.argmax]. specialize (IH (S i) best).
      destruct (pd.argmax vals (S i) best) as [[j q]|]; [|exact IH].
      destruct IH as [[-> Hall]|(n & -> & Hn & Hfirst & Hall & Hlt)].
      * left. split; [reflexivity|]. intros x [Hx|Hx]; [discriminate|now apply Hall].
      * right. exists (S n). split; [lia|]. split; [exact Hn|]. split; [|split].
        -- intros [|m] x Hm Hx; cbn [nth_error] in Hx; [discriminate|].
           apply (Hfirst m x); [lia|exact Hx].
        -- intros x [Hx|Hx]; [discriminate|now apply Hall].
        -- exact Hlt.
Qed.

Lemma idxmax_spec vals :
  numbers vals <> [] ->
  exists n q,
    pd.idxmax vals = Returns n /\ nth_error vals n = Some (Num q) /\
    (forall m x, (m < n)%nat -> nth_error vals m = Some (Num x) -> float64_lt x q) /\
    (forall x, In (Num x) vals -> float64_le x q).
Proof.
  intros Hne. unfold pd.idxmax. pose proof (argmax_spec vals 0 None) as H.
  destruct (pd.argmax vals 0 None) as [[j q]|].
  - destruct H as [[? _]|(n & -> & Hn & Hfirst & Hall & _)]; [discriminate|].
    exists n, q. cbn [Nat.add]. auto.
  - destruct H as [_ H]. contradiction.
Qed.

Lemma idxmax_empty vals : numbers vals = [] -> pd.idxmax vals = Raises ValueError.
Proof.
  intros Hne. unfold pd.idxmax. pose proof (argmax_spec vals 0 None) as H.
  destruct (pd.argmax vals 0 None) as [[j q]|]; [|reflexivity].
  destruct H as [[? _]|(n & _ & Hn & _)]; [discriminate|].
  exfalso. apply nth_error_In in Hn. clear - Hn Hne.
  induction vals as [|c vals IH]; [easy|]. destruct Hn as [->|Hn]; [discriminate|].
  destruct c; cbn in Hne; try discriminate; auto.
Qed.

Lemma series_map_target rs :
  pd.series_map SCHOOL_EC (map (row_get col_school) rs) = map target_ec rs.
Proof. unfold pd.series_map. rewrite map_map. reflexivity. Qed.

Lemma combine_map {A B} (f : A -> B) l :
  combine l (map f l) = map (fun x => (x, f x)) l.
Proof. induction l as [|a l IH]; [reflexivity|]. cbn [map combine]. now rewrite IH. Qed.

Lemma filter_map {A B} (p : B -> bool) (f : A -> B) l :
  filter p (map f l) = map f (filter (fun x => p (f x)) l).
Proof.
  induction l as [|a l IH]; [reflexivity|]. cbn [map filter].
  destruct (p (f a)); cbn [map]; now rewrite IH.
Qed.

Lemma has_column_setitem_series df col vals :
  pd.has_column (pd.setitem_series df col vals) col = true.
Proof.
  unfold pd.setitem_series, pd.has_column at 1. cbn [columns].
  destruct (pd.has_column df col) eqn:E; [exact E|].
  rewrite existsb_app. cbn [existsb]. rewrite str_eqb_refl. apply orb_true_r.
Qed.

Lemma has_column_setitem_series_keeps df col vals c :
  pd.has_column df c = true ->
  pd.has_column (pd.setitem_series df col vals) c = true.
Proof.
  intros H. unfold pd.setitem_series, pd.has_column at 1. cbn [columns].
  destruct (pd.has_column df col); [exact H|].
  unfold pd.has_column in H. rewrite existsb_app, H. reflexivity.
Qed.

Lemma col_EC_weight : col_EC <> col_weight.
Proof. apply str_eqb_neq. vm_compute. reflexivity. Qed.

Lemma col_EC_school : col_EC <> col_school.
Proof. apply str_eqb_neq. vm_compute. reflexivity. Qed.

Lemma target_ec_finite r x : target_ec r = Num x -> exists e : Q, x = Finite e.
Proof.
  unfold target_ec. destruct (row_get col_school r); try discriminate.
  destruct (dict_get s SCHOOL_EC) as [e|]; [|discriminate].
  intros [= <-]. now exists e.
Qed.

Lemma ec_group_eqb rs k k' :
  pd.cell_eqb k k' = true -> ec_group rs k = ec_group rs k'.
Proof.
  intros H. unfold ec_group. apply filter_ext. intros r.
  apply eq_true_iff_eq. split; intros E.
  - eapply cell_eqb_trans; eauto.
  - rewrite cell_eqb_sym in H. eapply cell_eqb_trans; eauto.
Qed.

(** Under [growth_records], every key of the table is the target EC of
    a record. *)
Lemma ec_means_entry df k :
  growth_records df ->
  In k (pd.group_keys (map target_ec (rows df))) ->
  exists e : Q, k = Num e /\ has_ec (rows df) e.
Proof.
  intros (_ & _ & Hrec) Hk. apply group_keys_In in Hk.
  apply in_map_iff in Hk as (r & <- & Hin).
  destruct (Hrec r Hin) as [(e & He) _].
  exists e. rewrite He. split; [reflexivity|]. now exists r.
Qed.

Lemma has_ec_key rs e :
  has_ec rs e ->
  exists e' : Q, In (Num e') (pd.group_keys (map target_ec rs)) /\ (e == e')%Q.
Proof.
  intros (r & Hin & He).
  destruct (group_keys_has (map target_ec rs) (Num e)) as (k & Hk & E).
  - rewrite <- He. now apply in_map.
  - discriminate.
  - pose proof (group_keys_In _ _ Hk) as Hin'.
    apply in_map_iff in Hin' as (r' & Hr' & _).
    destruct k as [x| |]; try discriminate.
    destruct (target_ec_finite r' x Hr') as (e' & ->).
    exists e'. split; [exact Hk|]. now apply Qeq_bool_iff.
Qed.

Lemma sorted_nth {A} (lt : A -> A -> Prop) l :
  StronglySorted lt l ->
  forall m n a b, (m < n)%nat -> nth_error l m = Some a -> nth_error l n = Some b ->
                  lt a b.
Proof.
  induction 1 as [|x l Hs IH Hx]; intros m n a b Hmn Hm Hn.
  - destruct m; discriminate.
  - destruct n as [|n]; [lia|]. cbn [nth_error] in Hn. destruct m as [|m].
    + cbn [nth_error] in Hm. assert (x = a) by congruence. subst.
      rewrite Forall_forall in Hx. apply Hx. eapply nth_error_In; eauto.
    + cbn [nth_error] in Hm. apply (IH m n); auto. lia.
Qed.

Section Best.
Context {M : Float64Means}.

(** Lines 244-245 on a frame with the two columns and no string among
    the weights. *)
Lemma mean_weight_returns df :
  pd.has_column df col_school = true ->
  pd.has_column df col_weight = true ->
  (forall r s, In r (rows df) -> row_get col_weight r <> Str s) ->
  mean_weight df =
  Returns (mkDataFrame [col_EC; col_weight]
             (map (fun km => [(col_EC, fst km); (col_weight, snd km)])
                  (ec_means (rows df)))).
Proof.
  intros Hs Hw Hn. unfold mean_weight, pd.getitem. rewrite Hs. cbn [bind].
  rewrite series_map_target.
  set (df' := pd.setitem_series df col_EC (map target_ec (rows df))).
  assert (Hrows : rows df' = map (fun r => dict_set col_EC (target_ec r) r) (rows df)).
  { subst df'. unfold pd.setitem_series. cbn [rows].
    rewrite combine_map, map_map. reflexivity. }
  rewrite groupby_mean_returns.
  - unfold means_table, ec_means. f_equal. f_equal. rewrite map_map.
    rewrite Hrows, map_map.
    rewrite (map_ext (fun r => row_get col_EC (dict_set col_EC (target_ec r) r)) target_ec)
      by (intros; apply row_get_set).
    apply map_ext. intros k. cbn [map fst snd]. do 3 f_equal.
    unfold pd.group_rows, ec_group. rewrite Hrows, filter_map, map_map.
    rewrite (filter_ext _ (fun r => pd.cell_eqb (target_ec r) k))
      by (intros; now rewrite row_get_set).
    f_equal. apply map_ext. intros r. apply row_get_set_other, col_EC_weight.
  - apply has_column_setitem_series.
  - cbn [forallb]. rewrite andb_true_r.
    now apply has_column_setitem_series_keeps.
  - intros r f s Hr [<-|[]]. rewrite Hrows in Hr.
    apply in_map_iff in Hr as (r0 & <- & Hr0).
    rewrite row_get_set_other by apply col_EC_weight. now apply Hn.
Qed.

Lemma mean_at_Qeq rs e e' : (e == e')%Q -> mean_at rs e = mean_at rs e'.
Proof.
  intros H. unfold mean_at.
  rewrite (ec_group_eqb rs (Num e) (Num e')); [reflexivity|].
  now apply Qeq_bool_iff.
Qed.

(** Line 247 on growth records of which some group has a mean that is a
    number: the EC of the first greatest mean of the table, which is the
    smallest EC among those of greatest mean. *)
Lemma best_ec_spec df :
  growth_records df ->
  (exists (e : Q) m, has_ec (rows df) e /\ mean_at (rows df) e = Num m) ->
  exists (e : Q) m,
    best_ec df = Returns (Num e) /\ has_ec (rows df) e /\
    mean_at (rows df) e = Num m /\
    forall (e' : Q) m', has_ec (rows df) e' -> mean_at (rows df) e' = Num m' ->
                  float64_le m' m /\ (float64_eq m' m -> (e <= e')%Q).
Proof.
  intros Hg (e0 & m0 & He0 & Hm0). pose proof Hg as (Hs & Hw & Hrec).
  unfold best_ec. rewrite mean_weight_returns; auto.
  2:{ intros r s Hr E. destruct (Hrec r Hr) as [_ (w & Hw')]. congruence. }
  cbn [bind]. unfold pd.getitem.
  change (pd.has_column (mkDataFrame [col_EC; col_weight] _) col_weight) with true.
  cbn [bind rows]. rewrite map_map.
  rewrite (map_ext _ snd) by (intros [a b]; reflexivity).
  set (ks := pd.group_keys (map target_ec (rows df))).
  assert (Hvals : map snd (ec_means (rows df)) =
                  map (fun k => mean_cell (map (row_get col_weight) (ec_group (rows df) k))) ks).
  { unfold ec_means. now rewrite map_map. }
  assert (Hkey : forall e' m', has_ec (rows df) e' -> mean_at (rows df) e' = Num m' ->
                 exists e'' : Q, In (Num e'') ks /\ (e' == e'')%Q /\
                                 mean_at (rows df) e'' = Num m').
  { intros e' m' He' Hm'. destruct (has_ec_key _ _ He') as (e'' & Hk & Hee).
    exists e''. split; [exact Hk|]. split; [exact Hee|].
    now rewrite <- (mean_at_Qeq _ _ _ Hee). }
  assert (Hin : forall e' m', has_ec (rows df) e' -> mean_at (rows df) e' = Num m' ->
                In (Num m') (map snd (ec_means (rows df)))).
  { intros e' m' He' Hm'. destruct (Hkey e' m' He' Hm') as (e'' & Hk & _ & Hm'').
    rewrite Hvals. apply in_map_iff. exists (Num e''). split; [exact Hm''|exact Hk]. }
  assert (Hnum : numbers (map snd (ec_means (rows df))) <> []).
  { specialize (Hin e0 m0 He0 Hm0). clear - Hin.
    induction (map snd (ec_means (rows df))) as [|c l IH]; [destruct Hin|].
    cbn [numbers flat_map]. destruct Hin as [->|Hin]; [discriminate|].
    intros E. apply app_eq_nil in E as [_ E]. now apply IH. }
  destruct (idxmax_spec _ Hnum) as (n & q & -> & Hn & Hfirst & Hall). cbn [bind].
  rewrite Hvals in Hn, Hfirst.
  destruct (nth_error ks n) as [k|] eqn:Ek.
  2:{ rewrite nth_error_map, Ek in Hn. discriminate. }
  assert (Hkin : In k ks) by (eapply nth_error_In; eauto).
  destruct (ec_means_entry df k Hg Hkin) as (e & -> & Hhas).
  rewrite nth_error_map, Ek in Hn. cbn [option_map] in Hn.
  assert (Hq : mean_at (rows df) e = Num q) by (unfold mean_at; congruence).
  exists e, q. split; [|split; [exact Hhas|split; [exact Hq|]]].
  - unfold pd.loc.
    change (pd.has_column (mkDataFrame [col_EC; col_weight] _) col_EC) with true.
    cbn [rows]. unfold ec_means. rewrite map_map, nth_error_map. fold ks. rewrite Ek.
    reflexivity.
  - intros e' m' He' Hm'. split; [apply Hall; now apply (Hin e')|].
    intros Heq. destruct (Hkey e' m' He' Hm') as (e'' & Hk' & Hee & Hm'').
    rewrite Hee. apply In_nth_error in Hk' as (i & Hi).
    destruct (Nat.lt_trichotomy i n) as [Hlt|[->|Hgt]].
    + exfalso. specialize (Hfirst i m' Hlt).
      rewrite nth_error_map, Hi in Hfirst. cbn [option_map] in Hfirst.
      fold (mean_at (rows df) e'') in Hfirst. rewrite Hm'' in Hfirst.
      specialize (Hfirst eq_refl). apply lt_neq in Hfirst.
      unfold float64_eq in Heq. congruence.
    + assert (e = e'') by congruence. subst. apply Qle_refl.
    + pose proof (sorted_nth cell_lt ks (group_keys_sorted _) n i _ _ Hgt Ek Hi) as H.
      unfold cell_lt in H. cbn in H. apply Qlt_bool_iff in H. now apply Qlt_le_weak.
Qed.

End Best.

End FrameFacts.

(** ** Claims about the loaders *)

(** C1, as stated, fails: a file whose name contains two identifiers is
    stored under both of them, not under the first one alone. *)
Lemma first_match_only_counterexample :
  contains (normalize songdo) (normalize (name two_schools_file)) = true /\
  contains (normalize haneul) (normalize (name two_schools_file)) = true /\
  load_environment_data (Directory [two_schools_file]) =
    ([], Returns [(songdo, stamp songdo two_readings);
                  (haneul, stamp haneul two_readings)]).
Proof. vm_compute. repeat split; reflexivity. Qed.

(** C1, amended: a readable CSV file is stored under every identifier its
    normalized name contains, each copy stamped with that identifier,
    unless a later entry of the directory matches the identifier too; an
    identifier no entry matches is no key. *)
Theorem every_matching_school_takes_the_file before file after df :
  readable (before ++ file :: after) ->
  is_csv file = true ->
  read_csv file = Returns df ->
  exists data,
    load_environment_data (Directory (before ++ file :: after)) = ([], Returns data) /\
    (forall school,
        In school (keys SCHOOL_EC) ->
        contains (normalize school) (normalize (name file)) = true ->
        Forall (fun f => matches school f = false) after ->
        dict_get school data = Some (stamp school df)) /\
    (forall school,
        Forall (fun f => matches school f = false) (before ++ file :: after) ->
        dict_get school data = None).
Proof.
  intros Hr Hcsv Hdf.
  destruct (LoaderFacts.load_environment_lookup _ Hr) as (data & Hload & Hget).
  exists data. split; [exact Hload|]. split.
  - intros school Hs Hc Hafter. rewrite Hget.
    rewrite (proj2 (LoaderFacts.known_In school) Hs).
    rewrite (LoaderFacts.find_last_here (matches school) before file after).
    + unfold stamped. now rewrite Hdf.
    + unfold matches. now rewrite Hcsv, Hc.
    + exact Hafter.
  - intros school Hnone. rewrite Hget. destruct (known school); [|reflexivity].
    destruct (find _ _) as [f|] eqn:E; [|reflexivity].
    apply find_some in E as [H1 H2]. rewrite <- in_rev in H1.
    rewrite Forall_forall in Hnone. rewrite (Hnone f H1) in H2. discriminate.
Qed.

Lemma every_matching_school_takes_the_file_witness :
  readable ([] ++ two_schools_file :: []) /\
  is_csv two_schools_file = true /\
  read_csv two_schools_file = Returns two_readings /\
  exists data,
    load_environment_data (Directory ([] ++ two_schools_file :: [])) = ([], Returns data) /\
    (forall school,
        In school (keys SCHOOL_EC) ->
        contains (normalize school) (normalize (name two_schools_file)) = true ->
        Forall (fun f => matches school f = false) [] ->
        dict_get school data = Some (stamp school two_readings)) /\
    (forall school,
        Forall (fun f => matches school f = false) ([] ++ two_schools_file :: []) ->
        dict_get school data = None).
Proof.
  assert (Hr : readable ([] ++ two_schools_file :: []))
    by (intros f [<-|[]] _; eexists; reflexivity).
  split; [exact Hr|]. split; [reflexivity|]. split; [reflexivity|].
  exact (every_matching_school_takes_the_file
           [] two_schools_file [] two_readings Hr eq_refl eq_refl).
Defined.

(** C10: every key of the mapping the loader returns is a key of
    [SCHOOL_EC], and every row of the frame stored under a key carries
    that key in its school column. *)
Theorem environment_keys_and_tags DATA_DIR data :
  snd (load_environment_data DATA_DIR) = Returns data ->
  (forall key, In key (keys data) -> In key (keys SCHOOL_EC)) /\
  (forall key df, dict_get key data = Some df ->
                  Forall (fun r => row_get col_school r = Str key) (rows df)) /\
  (forall key df, In (key, df) data ->
                  Forall (fun r => row_get col_school r = Str key) (rows df)).
Proof.
  intros H. apply LoaderFacts.load_environment_tagged in H.
  assert (Hget : forall key df, dict_get key data = Some df -> In (key, df) data).
  { clear H. intros key df. induction data as [|[k v] d IH]; simpl; [discriminate|].
    destruct (str_eqb k key) eqn:E.
    - apply StrFacts.str_eqb_eq in E. subst. intros [= <-]. now left.
    - intros Hd. right. auto. }
  repeat split.
  - intros key Hk. unfold keys in Hk. apply in_map_iff in Hk as ([k df] & <- & Hin).
    now apply (H k df).
  - intros key df Hd. now apply (H key df), Hget.
  - intros key df Hin. now apply (H key df).
Qed.

Lemma environment_keys_and_tags_witness :
  snd (load_environment_data (Directory [two_schools_file])) =
    Returns [(songdo, stamp songdo two_readings); (haneul, stamp haneul two_readings)] /\
  (forall key, In key [songdo; haneul] -> In key (keys SCHOOL_EC)) /\
  Forall (fun r => row_get col_school r = Str haneul)
         (rows (stamp haneul two_readings)).
Proof.
  assert (H : snd (load_environment_data (Directory [two_schools_file])) =
              Returns [(songdo, stamp songdo two_readings);
                       (haneul, stamp haneul two_readings)])
    by (vm_compute; reflexivity).
  split; [exact H|].
  destruct (environment_keys_and_tags _ _ H) as (Hk & Hd & _).
  split; [exact Hk|]. apply Hd. reflexivity.
Defined.




(** C8: a data directory that does not exist makes both loaders report
    and return their empty value; an existing directory without a file
    that matches makes the environment loader return the empty mapping,
    and one without a workbook makes the growth loader report and return
    the empty frame.  Neither raises. *)
Theorem loaders_empty_without_files :
  load_environment_data Missing = ([NoDataFolder], Returns []) /\
  load_growth_data Missing = ([NoDataFolder], Returns pd.DataFrame_) /\
  pd.empty pd.DataFrame_ = true /\
  (forall entries,
      (forall f school, In f entries -> In school (keys SCHOOL_EC) ->
                        matches school f = false) ->
      load_environment_data (Directory entries) = ([], Returns [])) /\
  (forall entries,
      (forall f, In f entries -> is_xlsx f = false) ->
      load_growth_data (Directory entries) = ([NoGrowthFile], Returns pd.DataFrame_)).
Proof.
  repeat split.
  - intros entries H. cbn [load_environment_data]. f_equal.
    induction entries as [|file rest IH]; [reflexivity|].
    cbn [scan_entries]. destruct (is_csv file) eqn:Hcsv; cbn [negb].
    + rewrite LoaderFacts.match_schools_none.
      * cbn [bind]. apply IH. intros f s Hf. apply H. now right.
      * intros s Hs. specialize (H file s (or_introl eq_refl) Hs).
        unfold matches in H. now rewrite Hcsv in H.
    + apply IH. intros f s Hf. apply H. now right.
  - intros entries H. cbn [load_growth_data].
    destruct (find is_xlsx entries) as [f|] eqn:E; [|reflexivity].
    apply find_some in E as [H1 H2]. rewrite (H f H1) in H2. discriminate.
Qed.

Lemma loaders_empty_without_files_witness :
  (forall f school, In f no_match_directory -> In school (keys SCHOOL_EC) ->
                    matches school f = false) /\
  (forall f, In f no_match_directory -> is_xlsx f = false) /\
  load_environment_data (Directory no_match_directory) = ([], Returns []) /\
  load_growth_data (Directory no_match_directory) = ([NoGrowthFile], Returns pd.DataFrame_).
Proof.
  assert (H1 : forall f school, In f no_match_directory -> In school (keys SCHOOL_EC) ->
                                matches school f = false)
    by (intros f school [<-|[<-|[]]] [<-|[<-|[<-|[<-|[]]]]]; vm_compute; reflexivity).
  assert (H2 : forall f, In f no_match_directory -> is_xlsx f = false)
    by (intros f [<-|[<-|[]]]; vm_compute; reflexivity).
  destruct loaders_empty_without_files as (_ & _ & _ & Henv & Hgrowth).
  split; [exact H1|]. split; [exact H2|]. split.
  - exact (Henv no_match_directory H1).
  - exact (Hgrowth no_match_directory H2).
Defined.

(** C4, as stated, fails: the growth loader takes any sheet name as the
    group of its rows; a row of a sheet that names no school is kept,
    tagged with that name. *)
Lemma unknown_sheet_counterexample :
  exists growth_df r,
    load_growth_data (Directory [unnamed_sheet_workbook]) = ([], Returns growth_df) /\
    In r (rows growth_df) /\
    row_get col_school r = Str (lit "Sheet1") /\
    known (lit "Sheet1") = false.
Proof.
  eexists _, _. split; [vm_compute; reflexivity|].
  split; [left; reflexivity|]. split; vm_compute; reflexivity.
Qed.

Lemma concat_rows frames df :
  pd.concat frames = Returns df -> rows df = flat_map rows frames.
Proof. destruct frames; [discriminate|]. cbn [pd.concat]. now intros [= <-]. Qed.

(** C4, amended: every row of a frame of the environment mapping carries
    its key, a known identifier.  The growth loader keeps every row of
    every sheet of the workbook and tags it with the name of its sheet,
    whatever that name is. *)
Theorem loaded_rows_tagged :
  (forall DATA_DIR data key df,
      snd (load_environment_data DATA_DIR) = Returns data ->
      In (key, df) data ->
      In key (keys SCHOOL_EC) /\
      Forall (fun r => row_get col_school r = Str key) (rows df)) /\
  (forall entries xlsx_file sheets,
      find is_xlsx entries = Some xlsx_file ->
      ExcelFile xlsx_file = Returns sheets ->
      sheets <> [] ->
      exists growth_df,
        load_growth_data (Directory entries) = ([], Returns growth_df) /\
        rows growth_df =
          flat_map (fun sd => map (dict_set col_school (Str (fst sd))) (rows (snd sd)))
                   sheets /\
        Forall (fun r => exists sheet, In sheet (map fst sheets) /\
                                       row_get col_school r = Str sheet)
               (rows growth_df)).
Proof.
  split.
  - intros DATA_DIR data key df H Hin.
    exact (LoaderFacts.load_environment_tagged _ _ H key df Hin).
  - intros entries xlsx_file sheets Hf He Hne.
    cbn [load_growth_data]. rewrite Hf, He. cbn [bind].
    destruct (pd.concat (stamp_sheets sheets)) as [growth_df|e] eqn:E.
    2:{ destruct sheets; [congruence|discriminate]. }
    exists growth_df. split; [reflexivity|].
    apply concat_rows in E.
    assert (Hrows : rows growth_df =
              flat_map (fun sd => map (dict_set col_school (Str (fst sd))) (rows (snd sd)))
                       sheets).
    { rewrite E. unfold stamp_sheets. rewrite flat_map_concat_map, map_map.
      now rewrite <- flat_map_concat_map. }
    split; [exact Hrows|]. rewrite Hrows. apply Forall_forall. intros r Hr.
    apply in_flat_map in Hr as ([sheet d] & Hin & Hr). cbn [fst snd] in Hr.
    apply in_map_iff in Hr as (r0 & <- & _). exists sheet. split.
    + apply in_map_iff. now exists (sheet, d).
    + apply LoaderFacts.row_get_set.
Qed.

Lemma loaded_rows_tagged_witness :
  find is_xlsx [unnamed_sheet_workbook] = Some unnamed_sheet_workbook /\
  ExcelFile unnamed_sheet_workbook = Returns [(lit "Sheet1", one_plant)] /\
  exists growth_df,
    load_growth_data (Directory [unnamed_sheet_workbook]) = ([], Returns growth_df) /\
    rows growth_df = [[(col_weight, Num 5); (col_school, Str (lit "Sheet1"))]].
Proof.
  split; [reflexivity|]. split; [reflexivity|].
  destruct loaded_rows_tagged as [_ H].
  destruct (H [unnamed_sheet_workbook] unnamed_sheet_workbook
              [(lit "Sheet1", one_plant)] eq_refl eq_refl)
    as (growth_df & Hload & Hrows & _); [discriminate|].
  exists growth_df. split; [exact Hload|]. rewrite Hrows. reflexivity.
Defined.

(** ** Claims about the best EC *)

Example mean_weight_example :
  mean_weight (M := exact_means) growth_example =
  Returns (mkDataFrame [col_EC; col_weight]
             [[(col_EC, Num 1); (col_weight, Num 5)];
              [(col_EC, Num 2); (col_weight, Num 8)];
              [(col_EC, Num 4); (col_weight, Num 3)]]).
Proof. vm_compute. reflexivity. Qed.

Example best_ec_example : best_ec (M := exact_means) growth_example = Returns (Num 2).
Proof. vm_compute. reflexivity. Qed.

Example best_ec_tie : best_ec (M := exact_means) growth_tie = Returns (Num 1).
Proof. vm_compute. reflexivity. Qed.








(** C2, as stated, fails: on the empty collection the aggregation of
    lines 244-247 raises; it returns no neutral value. *)
Lemma best_ec_empty_counterexample :
  pd.empty pd.DataFrame_ = true /\
  (forall M : Float64Means, best_ec pd.DataFrame_ = Raises KeyError) /\
  pd.empty no_plants = true /\
  (forall M : Float64Means, best_ec no_plants = Raises ValueError).
Proof. repeat split; intros; reflexivity. Qed.

Lemma groupby_mean_no_rows {M : Float64Means} df key fields :
  rows df = [] ->
  pd.groupby_mean df key fields = Raises KeyError \/
  pd.groupby_mean df key fields = Returns (mkDataFrame (key :: fields) []).
Proof.
  intros Hr. unfold pd.groupby_mean.
  destruct (pd.has_column df key); cbn [negb]; [|now left].
  destruct (forallb (pd.has_column df) fields); cbn [negb]; [|now left].
  rewrite Hr. right. reflexivity.
Qed.

(** C2, amended: the script stops after loading when the growth frame (or
    the environment mapping) is empty, so the best-EC aggregation only
    ever runs on a non-empty frame; on an empty frame it raises. *)
Theorem empty_growth_stops_before_aggregation :
  (forall DATA_DIR msgs env_data growth_df,
      startup DATA_DIR = (msgs, Running env_data growth_df) ->
      pd.empty growth_df = false /\ env_data <> []) /\
  (forall DATA_DIR env_data growth_df,
      snd (load_environment_data DATA_DIR) = Returns env_data ->
      snd (load_growth_data DATA_DIR) = Returns growth_df ->
      pd.empty growth_df = true ->
      snd (startup DATA_DIR) = Stopped) /\
  (forall (M : Float64Means) growth_df,
      pd.empty growth_df = true -> exists e, best_ec growth_df = Raises e).
Proof.
  split; [|split].
  - intros DATA_DIR msgs env_data growth_df. unfold startup.
    destruct (load_environment_data DATA_DIR) as [m1 [env|e]]; [|intros [= _ ?]; discriminate].
    destruct (load_growth_data DATA_DIR) as [m2 [growth|e]]; [|intros [= _ ?]; discriminate].
    destruct env as [|kv env]; [intros [= _ ?]; discriminate|].
    destruct (pd.empty growth) eqn:E; [intros [= _ ?]; discriminate|].
    intros [= _ <- <-]. split; [exact E|discriminate].
  - intros DATA_DIR env_data growth_df. unfold startup.
    destruct (load_environment_data DATA_DIR) as [m1 r1].
    destruct (load_growth_data DATA_DIR) as [m2 r2]. cbn [snd].
    intros -> -> E. destruct env_data; [reflexivity|]. now rewrite E.
  - intros M growth_df He. unfold best_ec, mean_weight, pd.getitem.
    destruct (pd.has_column growth_df col_school) eqn:Hs; cbn [bind]; [|eauto].
    assert (Hr : rows growth_df = []).
    { unfold pd.empty in He. unfold pd.has_column in Hs.
      destruct (columns growth_df); [discriminate|].
      destruct (rows growth_df); [reflexivity|discriminate]. }
    set (df' := pd.setitem_series growth_df col_EC _).
    assert (Hr' : rows df' = []).
    { subst df'. unfold pd.setitem_series. cbn [rows]. now rewrite Hr. }
    destruct (groupby_mean_no_rows df' col_EC [col_weight] Hr') as [->| ->];
      cbn [bind]; [eauto|].
    change (pd.has_column (mkDataFrame [col_EC; col_weight] []) col_weight) with true.
    cbn [bind rows map]. exists ValueError. reflexivity.
Qed.

Lemma empty_growth_stops_before_aggregation_witness :
  snd (load_growth_data (Directory [two_schools_file])) = Returns pd.DataFrame_ /\
  pd.empty pd.DataFrame_ = true /\
  snd (startup (Directory [two_schools_file])) = Stopped /\
  pd.empty no_plants = true /\
  forall M : Float64Means, exists e, best_ec no_plants = Raises e.
Proof.
  destruct empty_growth_stops_before_aggregation as (_ & Hstop & Hraise).
  split; [reflexivity|]. split; [reflexivity|]. split; [|split; [reflexivity|]].
  - eapply (Hstop (Directory [two_schools_file])); reflexivity.
  - intros M. apply Hraise. reflexivity.
Defined.

(** ** Claims about the group means *)

Module MeansFacts.
Import StrFacts LoaderFacts FrameFacts.

Lemma union_columns_In a b c : In c (pd.union_columns a b) <-> In c a \/ In c b.
Proof.
  unfold pd.union_columns. rewrite in_app_iff, filter_In. split.
  - tauto.
  - intros [H|H]; [now left|].
    destruct (existsb (str_eqb c) a) eqn:E.
    + left. now apply existsb_str_eqb.
    + right. split; [exact H|reflexivity].
Qed.

Lemma fold_union_In l : forall acc c,
  In c (fold_left pd.union_columns l acc) <-> In c acc \/ exists cols, In cols l /\ In c cols.
Proof.
  induction l as [|x l IH]; intros acc c; cbn [fold_left].
  - split; [now left|]. intros [H|(? & [] & _)]. exact H.
  - rewrite IH, union_columns_In. split.
    + intros [[H|H]|(cols & H1 & H2)]; eauto.
      * right. exists x. split; [now left|exact H].
      * right. exists cols. split; [now right|exact H2].
    + intros [H|(cols & [<-|H1] & H2)]; eauto.
Qed.

Lemma concat_returns frames :
  frames <> [] ->
  pd.concat frames =
  Returns (mkDataFrame (fold_left pd.union_columns (map columns frames) [])
                       (flat_map rows frames)).
Proof. destruct frames; [congruence|reflexivity]. Qed.

Lemma concat_has_column frames df c :
  In df frames -> pd.has_column df c = true ->
  pd.has_column (mkDataFrame (fold_left pd.union_columns (map columns frames) [])
                             (flat_map rows frames)) c = true.
Proof.
  intros Hin Hc. unfold pd.has_column in *. cbn [columns].
  apply existsb_str_eqb. apply fold_union_In. right.
  exists (columns df). split; [now apply in_map|]. now apply existsb_str_eqb.
Qed.






Section Tables.
Context {M : Float64Means}.


Lemma row_get_head key k rest : row_get key ((key, k) :: rest) = k.
Proof. unfold row_get. cbn [dict_get]. now rewrite str_eqb_refl. Qed.


End Tables.

End MeansFacts.

(** The means of the examples do not depend on the order of the values. *)
Module ExampleMeans.






End ExampleMeans.

Example mean_df_example :
  mean_df (M := exact_means) env_example = Returns env_example_means /\
  mean_df (M := exact_means) env_example_reordered = Returns env_example_means.
Proof. vm_compute. split; reflexivity. Qed.





(** ** Claims about the normalizer *)

Example normalize_decomposed_songdo :
  normalize [0x1109; 0x1169; 0x11BC; 0x1103; 0x1169; 0x1100; 0x1169] = songdo.
Proof. vm_compute. reflexivity. Qed.

Example normalize_e_acute : normalize [0x65; 0x301] = [0xE9].
Proof. vm_compute. reflexivity. Qed.

Example normalize_agrees_on_samples :
  forallb (fun p => str_eqb (normalize (fst p)) (snd p)) normalize_samples = true.
Proof. vm_compute. reflexivity. Qed.

(** Marks of different classes are put in canonical order before they
    combine: "a", dot below (class 220) and circumflex (class 230) give
    U+1EAD whichever mark comes first. *)
Example normalize_reorders_marks :
  normalize [0x61; 0x302; 0x323] = [0x1EAD] /\
  normalize [0x61; 0x323; 0x302] = [0x1EAD].
Proof. vm_compute. split; reflexivity. Qed.

(** C6: [normalize] is idempotent, and it sends canonically equivalent
    strings (strings with the same canonical decomposition, such as the
    composed and the decomposed spelling of a text) to the same string; in
    particular a string and its decomposed form have the same normal
    form. *)
Theorem normalize_idempotent_canonical :
  (forall s, normalize (normalize s) = normalize s)
  /\ (forall s, normalize (unicodedata.normalize unicodedata.NFD s) = normalize s)
  /\ (forall s t, Normalization.canonically_equivalent s t -> normalize s = normalize t).
Proof.
  unfold normalize, unicodedata.normalize, Normalization.canonically_equivalent.
  repeat split.
  - intros s. unfold unicodedata.nfc at 1. now rewrite NormalizationFacts.nfd_nfc.
  - intros s. unfold unicodedata.nfc. now rewrite NormalizationFacts.nfd_nfd.
  - intros s t H. unfold unicodedata.nfc. now rewrite H.
Qed.

Lemma normalize_idempotent_canonical_witness :
  Normalization.canonically_equivalent haneul (unicodedata.nfd haneul) /\
  normalize haneul = normalize (unicodedata.nfd haneul).
Proof.
  assert (H : Normalization.canonically_equivalent haneul (unicodedata.nfd haneul))
    by (vm_compute; reflexivity).
  split; [exact H|].
  exact (proj2 (proj2 normalize_idempotent_canonical) _ _ H).
Defined.

(** * Further facts about the loaders and the tabs *)

(** ** Scanning the directory *)

Module ScanFacts.
Import StrFacts LoaderFacts.

Lemma scan_entries_app a : forall b data,
  scan_entries (a ++ b) data = data' <- scan_entries a data ;; scan_entries b data'.
Proof.
  induction a as [|f a IH]; intros b data; [reflexivity|].
  cbn [app scan_entries]. destruct (negb (is_csv f)); [apply IH|].
  destruct (match_schools f (normalize (name f)) (keys SCHOOL_EC) data); cbn [bind];
    [apply IH|reflexivity].
Qed.

Lemma match_schools_raises file fname e schools : forall data school,
  In school schools -> contains (normalize school) fname = true ->
  read_csv file = Raises e ->
  match_schools file fname schools data = Raises e.
Proof.
  induction schools as [|s rest IH]; intros data school Hin Hc Hr; [destruct Hin|].
  rewrite match_schools_unfold.
  destruct (contains (normalize s) fname) eqn:E.
  - rewrite Hr. reflexivity.
  - destruct Hin as [->|Hin]; [congruence|]. eapply IH; eauto.
Qed.

Lemma relevant_false file :
  relevant file = false ->
  is_csv file = false \/
  forall s, In s (keys SCHOOL_EC) ->
            contains (normalize s) (normalize (name file)) = false.
Proof.
  unfold relevant. intros H. destruct (is_csv file) eqn:E; [right|now left].
  intros s Hs. destruct (contains (normalize s) (normalize (name file))) eqn:Ec; [|reflexivity].
  assert (existsb (fun school => matches school file) (keys SCHOOL_EC) = true).
  { apply existsb_exists. exists s. split; [exact Hs|]. unfold matches. now rewrite E, Ec. }
  congruence.
Qed.

Lemma scan_entries_skip file rest data :
  relevant file = false ->
  scan_entries (file :: rest) data = scan_entries rest data.
Proof.
  intros H. cbn [scan_entries].
  destruct (relevant_false file H) as [E|E].
  - now rewrite E.
  - destruct (negb (is_csv file)); [reflexivity|].
    now rewrite (match_schools_none _ _ _ _ E).
Qed.

Lemma scan_entries_filter entries : forall data,
  scan_entries entries data = scan_entries (filter relevant entries) data.
Proof.
  induction entries as [|f rest IH]; intros data; [reflexivity|].
  cbn [filter]. destruct (relevant f) eqn:E.
  - cbn [scan_entries]. destruct (negb (is_csv f)); [apply IH|].
    destruct (match_schools f (normalize (name f)) (keys SCHOOL_EC) data); cbn [bind];
      [apply IH|reflexivity].
  - rewrite scan_entries_skip by exact E. apply IH.
Qed.

Lemma relevant_name f f' : name f = name f' -> relevant f = relevant f'.
Proof.
  intros H. unfold relevant, matches, is_csv. now rewrite H.
Qed.

Lemma match_schools_read file file' fname schools : forall data,
  read_csv file = read_csv file' ->
  match_schools file fname schools data = match_schools file' fname schools data.
Proof.
  induction schools as [|s rest IH]; intros data H; [reflexivity|].
  rewrite !match_schools_unfold, H.
  destruct (contains (normalize s) fname); [|now apply IH].
  destruct (read_csv file'); cbn [bind]; [now apply IH|reflexivity].
Qed.

Lemma scan_entries_same entries entries' :
  same_relevant_files entries entries' ->
  forall data, scan_entries entries data = scan_entries entries' data.
Proof.
  induction 1 as [|f f' l l' [Hn Hr] _ IH]; intros data; [reflexivity|].
  destruct (relevant f) eqn:E.
  - cbn [scan_entries]. unfold is_csv. rewrite <- Hn.
    destruct (negb _); [apply IH|].
    rewrite (match_schools_read f f') by auto.
    destruct (match_schools f' _ _ data); cbn [bind]; [apply IH|reflexivity].
  - rewrite !scan_entries_skip; [apply IH| |exact E].
    now rewrite <- (relevant_name f f').
Qed.

Lemma scan_entries_none entries data :
  Forall (fun f => relevant f = false) entries ->
  scan_entries entries data = Returns data.
Proof.
  induction 1 as [|f l Hf _ IH]; [reflexivity|].
  now rewrite scan_entries_skip.
Qed.

Lemma scan_entries_nonempty entries data' :
  scan_entries entries [] = Returns data' -> data' <> [] ->
  exists f, In f entries /\ relevant f = true.
Proof.
  intros H Hne.
  destruct (existsb relevant entries) eqn:E.
  - apply existsb_exists in E. exact E.
  - exfalso. rewrite scan_entries_none in H.
    + injection H as <-. now apply Hne.
    + apply Forall_forall. intros f Hf.
      destruct (relevant f) eqn:Ef; [|reflexivity].
      assert (existsb relevant entries = true) by (apply existsb_exists; eauto).
      congruence.
Qed.

Lemma find_app_none {A} (p : A -> bool) before x after :
  Forall (fun y => p y = false) before -> p x = true ->
  find p (before ++ x :: after) = Some x.
Proof.
  induction 1 as [|y l Hy _ IH]; intros Hx; cbn [app find].
  - now rewrite Hx.
  - rewrite Hy. now apply IH.
Qed.

End ScanFacts.

(** ** Lookups in the tables *)

Module LookupFacts.
Import StrFacts LoaderFacts FrameFacts MeansFacts.

Section LookupMeans.
Context {M : Float64Means}.

Lemma traverse_returns {A B} (f : A -> outcome B) l : forall bs,
  pd.traverse f l = Returns bs -> Forall2 (fun a b => f a = Returns b) l bs.
Proof.
  induction l as [|a l IH]; intros bs; cbn [pd.traverse].
  - intros [= <-]. constructor.
  - destruct (f a) as [b|e] eqn:E; cbn [bind]; [|discriminate].
    destruct (pd.traverse f l) as [bs'|e]; cbn [bind]; [|discriminate].
    intros [= <-]. constructor; auto.
Qed.

Lemma groupby_mean_keys df key fields table :
  pd.groupby_mean df key fields = Returns table ->
  columns table = key :: fields /\
  map (row_get key) (rows table) = pd.group_keys (map (row_get key) (rows df)).
Proof.
  unfold pd.groupby_mean.
  destruct (negb (pd.has_column df key)); [discriminate|].
  destruct (negb (forallb (pd.has_column df) fields)); [discriminate|].
  destruct (pd.traverse _ _) as [rs|e] eqn:E; cbn [bind]; [|discriminate].
  intros [= <-]. split; [reflexivity|]. cbn [rows].
  apply traverse_returns in E.
  induction E as [|k r ks rs Hk _ IH]; [reflexivity|].
  cbn [map]. f_equal; [|exact IH].
  destruct (pd.traverse _ fields); cbn [bind] in Hk; [|discriminate].
  injection Hk as <-. apply row_get_head.
Qed.

Lemma find_rev_none {A} (p : A -> bool) l :
  Forall (fun y => p y = false) l -> find p (rev l) = None.
Proof.
  intros H. destruct (find p (rev l)) as [y|] eqn:E; [|reflexivity].
  apply find_some in E as [Hin Hy]. apply in_rev in Hin.
  rewrite Forall_forall in H. rewrite (H y Hin) in Hy. discriminate.
Qed.

End LookupMeans.

End LookupFacts.

(** ** The order of the directory *)

Module OrderFacts.
Import StrFacts LoaderFacts.

Lemma find_unique (p : Path -> bool) l l' :
  Permutation l l' -> at_most_one p l -> find p l = find p l'.
Proof.
  intros Hperm Huniq.
  destruct (find p l) as [x|] eqn:E.
  - apply find_some in E as [Hx Hpx].
    destruct (find p l') as [y|] eqn:E'.
    + apply find_some in E' as [Hy Hpy]. f_equal. apply Huniq; auto.
      apply Permutation_sym in Hperm. eapply Permutation_in; eauto.
    + exfalso. pose proof (find_none _ _ E' x) as H.
      rewrite H in Hpx; [discriminate|]. eapply Permutation_in; eauto.
  - destruct (find p l') as [y|] eqn:E'; [|reflexivity].
    apply find_some in E' as [Hy Hpy]. exfalso.
    pose proof (find_none _ _ E y) as H. rewrite H in Hpy; [discriminate|].
    apply Permutation_sym in Hperm. eapply Permutation_in; eauto.
Qed.

Lemma at_most_one_rev p l : at_most_one p l -> at_most_one p (rev l).
Proof.
  intros H f g Hf Hg. apply H; now apply in_rev.
Qed.

End OrderFacts.

(** ** Suffixes *)

Module SuffixFacts.
Import StrFacts LoaderFacts.

Lemma rfind_from_none c s : forall i,
  pathlib.rfind_from c s i = None <-> ~ In c s.
Proof.
  induction s as [|x s IH]; intros i; cbn [pathlib.rfind_from In]; [tauto|].
  destruct (pathlib.rfind_from c s (S i)) eqn:E.
  - split; [discriminate|]. intros H. exfalso.
    assert (pathlib.rfind_from c s (S i) = None) by (apply IH; tauto). congruence.
  - apply IH in E. destruct (Z.eqb_spec x c); split; try discriminate; tauto.
Qed.

Lemma rfind_from_app c stem e : forall i,
  ~ In c e ->
  pathlib.rfind_from c (stem ++ c :: e) i = Some (i + List.length stem)%nat.
Proof.
  induction stem as [|x stem IH]; intros i Hn; cbn [app pathlib.rfind_from List.length].
  - apply (rfind_from_none c e (S i)) in Hn. rewrite Hn, Z.eqb_refl. f_equal. lia.
  - rewrite IH by exact Hn. f_equal. lia.
Qed.

Lemma rfind_from_some c s : forall i j,
  pathlib.rfind_from c s i = Some j ->
  exists stem e, s = stem ++ c :: e /\ j = (i + List.length stem)%nat /\ ~ In c e.
Proof.
  induction s as [|x s IH]; intros i j; cbn [pathlib.rfind_from]; [discriminate|].
  destruct (pathlib.rfind_from c s (S i)) as [k|] eqn:E.
  - intros [= <-]. destruct (IH _ _ E) as (stem & e & -> & -> & Hn).
    exists (x :: stem), e. cbn [app List.length]. repeat split; [lia|exact Hn].
  - destruct (Z.eqb_spec x c) as [->|]; [|discriminate]. intros [= <-].
    exists [], s. cbn [app List.length]. repeat split; [lia|].
    now apply (rfind_from_none c s (S i)).
Qed.

Lemma lower_dot e : In 0x2E e <-> In 0x2E (lower e).
Proof.
  unfold lower. rewrite in_map_iff. split.
  - intros H. exists 0x2E. split; [reflexivity|exact H].
  - intros (x & Hx & Hin). unfold lower_char in Hx.
    destruct ((65 <=? x) && (x <=? 90)) eqn:E; [|now subst].
    rewrite andb_true_iff, !Z.leb_le in E. lia.
Qed.

Lemma skipn_app_length {A} (a b : list A) : skipn (List.length a) (a ++ b) = b.
Proof. induction a as [|x a IH]; [reflexivity|]. exact IH. Qed.

(** The suffix test of lines 76 and 96, for an extension without a dot. *)
Lemma suffix_test ext name :
  ext <> [] -> ~ In 0x2E ext ->
  str_eqb (lower (pathlib.suffix name)) (0x2E :: ext) = true <-> has_extension ext name.
Proof.
  intros Hne Hdot. rewrite str_eqb_eq. unfold pathlib.suffix, has_extension. split.
  - destruct (pathlib.rfind_from 46 name 0) as [i|] eqn:E; [|discriminate].
    destruct (rfind_from_some _ _ _ _ E) as (stem & e & -> & -> & Hn).
    destruct ((0 <? 0 + List.length stem) && _)%nat eqn:Eb; [|discriminate].
    apply andb_true_iff in Eb as [E1 _]. apply Nat.ltb_lt in E1.
    cbn [Nat.add]. rewrite skipn_app_length. unfold lower. cbn [map].
    intros [= H]. exists stem, e. repeat split; [|exact H].
    destruct stem; [cbn in E1; lia|discriminate].
  - intros (stem & e & -> & Hs & <-). cbn [app].
    assert (Hn : ~ In 0x2E e) by now rewrite lower_dot.
    rewrite rfind_from_app by exact Hn. cbn [Nat.add].
    assert (He : e <> []) by (intros ->; now apply Hne).
    replace ((0 <? List.length stem) && _)%nat with true.
    + now rewrite skipn_app_length.
    + symmetry. apply andb_true_iff. rewrite !Nat.ltb_lt, length_app. cbn [List.length].
      destruct stem; [congruence|]. destruct e; [congruence|]. cbn [List.length]. lia.
Qed.

End SuffixFacts.

(** ** The growth frame *)

Module GrowthFacts.
Import StrFacts LoaderFacts FrameFacts MeansFacts.

Section GrowthMeans.
Context {M : Float64Means}.

Lemma mask_filter {A} (g : A -> bool) l :
  map fst (filter snd (combine l (map g l))) = filter g l.
Proof.
  induction l as [|a l IH]; [reflexivity|]. cbn [map combine filter snd].
  destruct (g a); cbn [map fst]; now rewrite IH.
Qed.

Lemma count_school df school :
  pd.len (pd.getitem_mask df (pd.eq_str (map (row_get col_school) (rows df)) school)) =
  List.length (plants_of school (rows df)).
Proof.
  unfold pd.len, pd.getitem_mask, pd.eq_str, plants_of. cbn [rows].
  rewrite map_map, mask_filter. reflexivity.
Qed.

Lemma summary_rows_returns df :
  pd.has_column df col_school = true ->
  summary_rows df =
  Returns (map (fun item => (fst item, snd item,
                             List.length (plants_of (fst item) (rows df))))
               SCHOOL_EC).
Proof.
  intros H. unfold summary_rows. apply traverse_map. intros item _.
  unfold pd.getitem. rewrite H. cbn [bind]. now rewrite count_school.
Qed.

Lemma known_cases s :
  known s = true -> s = songdo \/ s = haneul \/ s = ara \/ s = dongsan.
Proof.
  intros H. apply known_In in H. cbn in H. intuition auto.
Qed.

Lemma known_dict_get s : known s = false -> dict_get s SCHOOL_EC = None.
Proof.
  intros H. destruct (dict_get s SCHOOL_EC) eqn:E; [|reflexivity].
  assert (In s (keys SCHOOL_EC)) by (apply dict_get_In; eauto).
  apply known_In in H0. congruence.
Qed.

Lemma plants_of_total rs :
  total (map (fun item => List.length (plants_of (fst item) rs)) SCHOOL_EC) =
  List.length (filter known_row rs).
Proof.
  unfold SCHOOL_EC, total. cbn [map fold_right fst].
  induction rs as [|r rs IH]; [reflexivity|].
  unfold plants_of in *. cbn [filter]. unfold known_row at 1.
  destruct (row_get col_school r) as [q|s|]; cbn [pd.cell_eqb List.length]; try exact IH.
  destruct (known s) eqn:Ek.
  - apply known_cases in Ek as [-> | [-> | [-> | -> ]]];
      (change (str_eqb songdo songdo) with true
       || change (str_eqb haneul haneul) with true
       || change (str_eqb ara ara) with true
       || change (str_eqb dongsan dongsan) with true);
      repeat match goal with
             | |- context [str_eqb ?a ?b] =>
                 let v := eval vm_compute in (str_eqb a b) in
                 change (str_eqb a b) with v
             end;
      cbn [List.length]; lia.
  - assert (forall k, In k (keys SCHOOL_EC) -> str_eqb s k = false) as Hk.
    { intros k Hin. apply str_eqb_neq. intros ->. apply known_In in Hin. congruence. }
    rewrite (Hk songdo), (Hk haneul), (Hk ara), (Hk dongsan); cbn; auto 6.
Qed.

Lemma target_ec_known r : known_row r = false <-> target_ec r = NaN.
Proof.
  unfold known_row, target_ec. destruct (row_get col_school r) as [q|s|]; try tauto.
  destruct (known s) eqn:Ek.
  - apply known_In, dict_get_In in Ek as (v & ->). split; discriminate.
  - now rewrite known_dict_get.
Qed.

Lemma group_keys_filter (f : row -> cell) (p : row -> bool) rs :
  (forall r, p r = false -> f r = NaN) ->
  pd.group_keys (map f (filter p rs)) = pd.group_keys (map f rs).
Proof.
  intros H. induction rs as [|r rs IH]; [reflexivity|]. cbn [filter map].
  destruct (p r) eqn:E.
  - cbn [map]. rewrite !group_keys_cons, IH. reflexivity.
  - rewrite group_keys_cons, (H r E). exact IH.
Qed.

Lemma ec_group_known rs k :
  ec_group (filter known_row rs) k = ec_group rs k.
Proof.
  unfold ec_group. induction rs as [|r rs IH]; [reflexivity|]. cbn [filter].
  destruct (known_row r) eqn:E.
  - cbn [filter]. now rewrite IH.
  - apply target_ec_known in E. rewrite E. cbn [pd.cell_eqb]. exact IH.
Qed.

Lemma ec_means_known rs : ec_means (filter known_row rs) = ec_means rs.
Proof.
  unfold ec_means.
  rewrite (group_keys_filter target_ec known_row) by (intros; now apply target_ec_known).
  apply map_ext. intros k. now rewrite ec_group_known.
Qed.

Lemma mean_weight_known df :
  pd.has_column df col_school = true ->
  pd.has_column df col_weight = true ->
  numeric_column col_weight df ->
  mean_weight df = mean_weight (known_rows df).
Proof.
  intros Hs Hw Hn. rewrite !mean_weight_returns; auto.
  - cbn [known_rows rows]. now rewrite ec_means_known.
  - intros r s Hr. apply Hn. cbn [known_rows rows] in Hr.
    now apply filter_In in Hr as [? _].
Qed.

(** Line 244 on a frame with the school column. *)
Lemma derive_EC_returns df :
  pd.has_column df col_school = true ->
  exists df',
    derive_EC df = Returns df' /\
    rows df' = map (fun r => dict_set col_EC (target_ec r) r) (rows df) /\
    pd.has_column df' col_EC = true /\
    (forall c, pd.has_column df c = true -> pd.has_column df' c = true).
Proof.
  intros Hs. unfold derive_EC, pd.getitem. rewrite Hs. cbn [bind].
  rewrite series_map_target. eexists. split; [reflexivity|]. split; [|split].
  - unfold pd.setitem_series. cbn [rows]. now rewrite combine_map, map_map.
  - apply has_column_setitem_series.
  - intros c. apply has_column_setitem_series_keeps.
Qed.

Lemma derived_keys rs :
  map (row_get col_EC) (map (fun r => dict_set col_EC (target_ec r) r) rs) =
  map target_ec rs.
Proof. rewrite map_map. apply map_ext. intros r. apply row_get_set. Qed.

Lemma derived_group df' rs k :
  rows df' = map (fun r => dict_set col_EC (target_ec r) r) rs ->
  pd.group_rows df' col_EC k =
  map (fun r => dict_set col_EC (target_ec r) r) (ec_group rs k).
Proof.
  intros H. unfold pd.group_rows, ec_group. rewrite H, filter_map. f_equal.
  apply filter_ext. intros r. now rewrite row_get_set.
Qed.

Lemma count_df_returns df :
  pd.has_column df col_school = true ->
  count_df df =
  Returns (map (fun k => (k, List.length (ec_group (rows df) k)))
               (pd.group_keys (map target_ec (rows df)))).
Proof.
  intros Hs. destruct (derive_EC_returns df Hs) as (df' & Hd & Hrows & HEC & _).
  unfold count_df. rewrite Hd. cbn [bind]. unfold pd.groupby_size. rewrite HEC. cbn [negb].
  rewrite Hrows, derived_keys. f_equal. apply map_ext. intros k.
  now rewrite (derived_group df' (rows df) k Hrows), length_map.
Qed.

(** Lines 267 and 270 on a frame with the columns and no string among
    the measurements. *)
Lemma series_mean_returns df col :
  pd.has_column df col_school = true ->
  pd.has_column df col = true ->
  col_EC <> col ->
  numeric_column col df ->
  (growth_df <- derive_EC df ;; pd.groupby_series_mean growth_df col_EC col) =
  Returns (map (fun k => (k, mean_cell (map (row_get col) (ec_group (rows df) k))))
               (pd.group_keys (map target_ec (rows df)))).
Proof.
  intros Hs Hc Hne Hn. destruct (derive_EC_returns df Hs) as (df' & Hd & Hrows & HEC & Hkeep).
  rewrite Hd. cbn [bind]. unfold pd.groupby_series_mean.
  rewrite HEC, (Hkeep col Hc). cbn [negb]. rewrite Hrows, derived_keys.
  apply traverse_map. intros k _.
  rewrite (derived_group df' (rows df) k Hrows), map_map.
  rewrite (map_ext _ (row_get col)) by (intros r; now apply row_get_set_other).
  rewrite mean_returns; [reflexivity|].
  intros s Hin. apply in_map_iff in Hin as (r & Hr & Hin).
  apply filter_In in Hin as [Hin _]. exact (Hn r s Hin Hr).
Qed.

Lemma ec_group_school school (ec : Q) rs :
  In (school, ec) SCHOOL_EC ->
  ec_group rs (Num ec) = plants_of school rs.
Proof.
  intros Hin. unfold ec_group, plants_of. apply filter_ext. intros r.
  unfold target_ec. destruct (row_get col_school r) as [q|s|]; try reflexivity.
  destruct (known s) eqn:Ek.
  - apply known_cases in Ek as [-> | [-> | [-> | -> ]]];
      cbn in Hin; destruct Hin as [H|[H|[H|[H|[]]]]]; injection H as <- <-;
      vm_compute; reflexivity.
  - rewrite known_dict_get by exact Ek. cbn [pd.cell_eqb]. symmetry.
    apply str_eqb_neq. intros ->.
    assert (In school (keys SCHOOL_EC)) by (apply in_map_iff; now exists (school, ec)).
    apply known_In in H. congruence.
Qed.

Lemma target_ec_school r (e : Q) :
  target_ec r = Num e ->
  exists school, row_get col_school r = Str school /\ In (school, e) SCHOOL_EC.
Proof.
  unfold target_ec. destruct (row_get col_school r) as [q|s|]; try discriminate.
  destruct (dict_get s SCHOOL_EC) as [q|] eqn:E; [|discriminate].
  intros [= <-]. exists s. split; [reflexivity|].
  clear r. unfold SCHOOL_EC in *. cbn [dict_get] in E.
  repeat match type of E with
         | (if str_eqb ?k s then _ else _) = _ =>
             destruct (str_eqb k s) eqn:?; [match goal with
               | H : str_eqb k s = true |- _ => apply str_eqb_eq in H; subst s end;
               injection E as <-; cbn; auto 6|]
         end.
  discriminate.
Qed.

(** The position of the best EC among the keys. *)
Lemma best_ec_position df best :
  pd.has_column df col_school = true ->
  pd.has_column df col_weight = true ->
  numeric_column col_weight df ->
  best_ec df = Returns best ->
  exists n, nth_error (pd.group_keys (map target_ec (rows df))) n = Some best.
Proof.
  intros Hs Hw Hn. unfold best_ec. rewrite mean_weight_returns; auto. cbn [bind].
  unfold pd.getitem.
  change (pd.has_column (mkDataFrame [col_EC; col_weight] _) col_weight) with true.
  cbn [bind]. destruct (pd.idxmax _) as [n|e]; cbn [bind]; [|discriminate].
  unfold pd.loc.
  change (pd.has_column (mkDataFrame [col_EC; col_weight] _) col_EC) with true.
  cbn [rows]. unfold ec_means. rewrite map_map, nth_error_map.
  destruct (nth_error _ n) as [k|] eqn:E; cbn [option_map]; [|discriminate].
  intros [= <-]. exists n. exact E.
Qed.

Lemma sorted_split_labels ks : forall n best,
  StronglySorted cell_lt ks -> Forall is_value ks ->
  nth_error ks n = Some best ->
  exists before after,
    ks = before ++ best :: after /\
    Forall (fun k => pd.cell_eqb k best = false) before /\
    Forall (fun k => pd.cell_eqb k best = false) after /\
    pd.cell_eqb best best = true.
Proof.
  intros n best Hsort Hval Hn.
  apply nth_error_split in Hn as (before & after & -> & _).
  exists before, after. split; [reflexivity|].
  apply Forall_app in Hval as [_ Hval]. inversion Hval as [|? ? Hb _]; subst.
  split; [|split; [|now apply cell_eqb_refl]].
  - apply Forall_forall. intros k Hk.
    apply cell_ltb_neq.
    clear - Hsort Hk. induction before as [|b bs IH]; [destruct Hk|].
    inversion Hsort as [|? ? Hs Hall]; subst. destruct Hk as [->|Hk]; [|now apply IH].
    rewrite Forall_forall in Hall. apply Hall. apply in_or_app. right. now left.
  - apply Forall_forall. intros k Hk. rewrite cell_eqb_sym. apply cell_ltb_neq.
    clear - Hsort Hk. induction before as [|b bs IH].
    + inversion Hsort as [|? ? _ Hall]; subst. rewrite Forall_forall in Hall. now apply Hall.
    + inversion Hsort; subst. now apply IH.
Qed.

End GrowthMeans.

End GrowthFacts.

(** ** Group sizes *)

Module GroupFacts.
Import StrFacts LoaderFacts FrameFacts MeansFacts GrowthFacts.

Section GroupMeans.
Context {M : Float64Means}.

Lemma total_add {A} (f g : A -> nat) l :
  total (map (fun x => (f x + g x)%nat) l) = (total (map f l) + total (map g l))%nat.
Proof.
  induction l as [|x l IH]; [reflexivity|]. unfold total in *. cbn [map fold_right].
  rewrite IH. lia.
Qed.

Lemma total_zero {A} (f : A -> nat) l :
  (forall x, In x l -> f x = 0%nat) -> total (map f l) = 0%nat.
Proof.
  induction l as [|x l IH]; intros H; [reflexivity|]. unfold total in *. cbn [map fold_right].
  rewrite (H x) by now left. rewrite IH; [reflexivity|]. intros; apply H; now right.
Qed.

(** In a sorted list of keys exactly one key equals a given value. *)
Lemma one_key c ks k :
  StronglySorted cell_lt ks -> In k ks -> pd.cell_eqb c k = true ->
  total (map (fun k' => if pd.cell_eqb c k' then 1%nat else 0%nat) ks) = 1%nat.
Proof.
  induction 1 as [|h ks Hs IH Hall]; intros Hin Hc; [destruct Hin|].
  unfold total in *. cbn [map fold_right]. rewrite Forall_forall in Hall.
  destruct (pd.cell_eqb c h) eqn:Eh.
  - fold (total (map (fun k' => if pd.cell_eqb c k' then 1%nat else 0%nat) ks)).
    rewrite total_zero; [reflexivity|]. intros k' Hk'.
    destruct (pd.cell_eqb c k') eqn:Ek; [|reflexivity]. exfalso.
    assert (pd.cell_eqb h k' = true).
    { apply cell_eqb_trans with c; [now rewrite cell_eqb_sym|exact Ek]. }
    pose proof (cell_ltb_neq h k' (Hall k' Hk')). congruence.
  - destruct Hin as [->|Hin]; [congruence|]. now rewrite IH.
Qed.

Lemma ec_group_total rs : forall ks,
  StronglySorted cell_lt ks ->
  (forall r, In r rs -> target_ec r <> NaN ->
             exists k, In k ks /\ pd.cell_eqb (target_ec r) k = true) ->
  total (map (fun k => List.length (ec_group rs k)) ks) = List.length (filter known_row rs).
Proof.
  intros ks Hs. induction rs as [|r rs IH]; intros Hcover.
  - apply total_zero. reflexivity.
  - rewrite (map_ext _ (fun k => ((if pd.cell_eqb (target_ec r) k then 1 else 0)
                                  + List.length (ec_group rs k))%nat)).
    2:{ intros k. unfold ec_group. cbn [filter].
        destruct (pd.cell_eqb (target_ec r) k); reflexivity. }
    rewrite total_add, IH by (intros; apply Hcover; [now right|assumption]).
    cbn [filter]. destruct (known_row r) eqn:Ek.
    + assert (Hv : target_ec r <> NaN).
      { intros E. apply target_ec_known in E. congruence. }
      destruct (Hcover r (or_introl eq_refl) Hv) as (k & Hk & Hc).
      rewrite (one_key _ ks k Hs Hk Hc). reflexivity.
    + apply target_ec_known in Ek. rewrite Ek.
      rewrite total_zero; reflexivity.
Qed.

End GroupMeans.

End GroupFacts.

(** ** Starting the script *)

Module StartupFacts.
Import StrFacts LoaderFacts FrameFacts MeansFacts ScanFacts.

Lemma setitem_has_column df col v : pd.has_column (pd.setitem df col v) col = true.
Proof.
  unfold pd.setitem, pd.has_column at 1. cbn [columns].
  destruct (pd.has_column df col) eqn:E; [exact E|].
  rewrite existsb_app. cbn [existsb]. rewrite str_eqb_refl. apply orb_true_r.
Qed.

Lemma stamp_sheets_columns sheets df :
  In df (stamp_sheets sheets) -> pd.has_column df col_school = true.
Proof.
  unfold stamp_sheets. intros H. apply in_map_iff in H as (sd & <- & _).
  apply setitem_has_column.
Qed.

(** A frame the growth loader builds from a workbook has the school
    column. *)
Lemma growth_frame_school_column sheets g :
  pd.concat (stamp_sheets sheets) = Returns g -> pd.has_column g col_school = true.
Proof.
  intros H.
  assert (Hne : stamp_sheets sheets <> []).
  { intros E. rewrite E in H. discriminate. }
  rewrite concat_returns in H by exact Hne.
  set (frames := stamp_sheets sheets) in *.
  assert (Hg : g = mkDataFrame (fold_left pd.union_columns (map columns frames) [])
                               (flat_map rows frames)) by congruence.
  rewrite Hg. destruct frames as [|df l] eqn:E; [congruence|].
  apply concat_has_column with df; [now left|].
  apply (stamp_sheets_columns sheets). fold frames. rewrite E. now left.
Qed.

Lemma loaded_growth_school_column DATA_DIR g :
  snd (load_growth_data DATA_DIR) = Returns g -> pd.empty g = false ->
  pd.has_column g col_school = true.
Proof.
  destruct DATA_DIR as [| |entries]; cbn [load_growth_data snd].
  - intros [= <-]. discriminate.
  - discriminate.
  - destruct (find is_xlsx entries) as [x|]; cbn [snd]; [|intros [= <-]; discriminate].
    destruct (ExcelFile x) as [sheets|e]; cbn [bind]; [|discriminate].
    intros H _. now apply (growth_frame_school_column sheets).
Qed.

Lemma startup_running DATA_DIR msgs env g :
  startup DATA_DIR = (msgs, Running env g) ->
  snd (load_environment_data DATA_DIR) = Returns env /\
  snd (load_growth_data DATA_DIR) = Returns g /\
  env <> [] /\ pd.empty g = false.
Proof.
  unfold startup.
  destruct (load_environment_data DATA_DIR) as [m1 [env'|e]]; [|intros [= _ ?]; discriminate].
  destruct (load_growth_data DATA_DIR) as [m2 [g'|e]]; [|intros [= _ ?]; discriminate].
  destruct env' as [|kv env']; [intros [= _ ?]; discriminate|].
  destruct (pd.empty g') eqn:E; [intros [= _ ?]; discriminate|].
  intros [= _ <- <-]. cbn [snd]. repeat split; [discriminate|exact E].
Qed.

Lemma stamp_sheets_rows sheets :
  flat_map rows (stamp_sheets sheets) = [] <->
  forall sheet df, In (sheet, df) sheets -> rows df = [].
Proof.
  unfold stamp_sheets. induction sheets as [|[sheet df] l IH]; cbn [map flat_map].
  - split; [intros _ ? ? []|reflexivity].
  - unfold pd.setitem at 1. cbn [rows fst snd]. split.
    + intros H. apply app_eq_nil in H as [H1 H2].
      intros s d [[= <- <-]|Hin].
      * destruct (rows df); [reflexivity|discriminate].
      * now apply (proj1 IH H2 s d).
    + intros H. rewrite (H sheet df) by now left. cbn [map app].
      apply IH. intros s d Hin. apply (H s d). now right.
Qed.

Lemma match_schools_columns file fname schools : forall data data',
  match_schools file fname schools data = Returns data' ->
  (forall k df, In (k, df) data -> pd.has_column df col_school = true) ->
  forall k df, In (k, df) data' -> pd.has_column df col_school = true.
Proof.
  induction schools as [|s rest IH]; intros data data'.
  - cbn. intros [= <-]. auto.
  - rewrite match_schools_unfold.
    destruct (contains (normalize s) fname); [|apply IH].
    destruct (read_csv file) as [d|e]; cbn [bind]; [|discriminate].
    intros H Hd. eapply IH; [exact H|].
    intros k df Hin. apply dict_set_In in Hin as [[_ ->]|Hin]; [|now apply (Hd k)].
    apply setitem_has_column.
Qed.

Lemma scan_entries_columns entries : forall data data',
  scan_entries entries data = Returns data' ->
  (forall k df, In (k, df) data -> pd.has_column df col_school = true) ->
  forall k df, In (k, df) data' -> pd.has_column df col_school = true.
Proof.
  induction entries as [|f rest IH]; intros data data'.
  - cbn. intros [= <-]. auto.
  - cbn [scan_entries]. destruct (negb (is_csv f)); [apply IH|].
    destruct (match_schools f _ _ data) as [d|e] eqn:E; cbn [bind]; [|discriminate].
    intros H Hd. eapply IH; [exact H|]. eapply match_schools_columns; eauto.
Qed.

Lemma loaded_environment_school_column DATA_DIR data k df :
  snd (load_environment_data DATA_DIR) = Returns data ->
  In (k, df) data -> pd.has_column df col_school = true.
Proof.
  destruct DATA_DIR as [| |entries]; cbn [load_environment_data snd].
  - intros [= <-] [].
  - discriminate.
  - intros H. eapply scan_entries_columns; [exact H|]. intros ? ? [].
Qed.

End StartupFacts.

(** ** Plain text *)

Module PlainFacts.
Import unicodedata Normalization StrFacts NormalizationFacts EmbeddingFacts.

Lemma audit_basic_latin_ok : audit_basic_latin = true.
Proof. vm_compute. reflexivity. Qed.

Lemma ascii_decomposition c : ascii c = true -> decomposition c = None.
Proof.
  intros H. destruct (decomposition c) as [ds|] eqn:E; [|reflexivity].
  pose proof audit_basic_latin_ok as A. unfold audit_basic_latin in A.
  apply andb_true_iff in A as [A _]. apply andb_true_iff in A as [A _].
  unfold decomposition in E. rewrite decomposition_map_eq in E.
  apply (lookup_index_table _ _ A) in E. cbv beta in E. clear A.
  rewrite H in E. discriminate E.
Qed.

Lemma ascii_combining c : ascii c = true -> combining c = 0.
Proof.
  intros H. unfold combining. destruct (lookup combining_map c) as [k|] eqn:E; [|reflexivity].
  pose proof audit_basic_latin_ok as A. unfold audit_basic_latin in A.
  apply andb_true_iff in A as [A _]. apply andb_true_iff in A as [_ A].
  rewrite combining_map_eq in E.
  apply (lookup_index_table _ _ A) in E. cbv beta in E. clear A.
  rewrite H in E. discriminate E.
Qed.

Lemma ascii_not_hangul c :
  ascii c = true -> is_syllable c = false /\ is_V c = false /\ is_T c = false.
Proof.
  unfold ascii. rewrite andb_true_iff, Z.leb_le, Z.ltb_lt. intros [? ?].
  hangul_unfold. repeat split; apply andb_false_iff; lia.
Qed.

Lemma ascii_composition l c : ascii c = true -> composition l c = None.
Proof.
  intros H. destruct (ascii_not_hangul c H) as (_ & HV & HT).
  unfold composition. rewrite HV, HT, !andb_false_r.
  destruct ((0 <=? l) && (0 <=? c) && (c <? 0x200000)) eqn:E3; [|reflexivity].
  rewrite !andb_true_iff, !Z.leb_le, Z.ltb_lt in E3. destruct E3 as [[Hl Hc] Hc'].
  destruct (lookup composition_map (pair_key l c)) as [p|] eqn:E; [|reflexivity].
  pose proof audit_basic_latin_ok as A. unfold audit_basic_latin in A.
  apply andb_true_iff in A as [_ A].
  rewrite composition_map_eq in E.
  apply (lookup_index_table _ _ A) in E. cbv beta in E.
  destruct (pair_key_decode l c) as [_ E2]; [lia|]. clear A.
  rewrite E2, H in E. discriminate E.
Qed.

Lemma ascii_fixed c : ascii c = true -> full_decomposition c = [c].
Proof.
  intros H. unfold full_decomposition. apply decompose_undecomposable.
  - now destruct (ascii_not_hangul c H).
  - now apply ascii_decomposition.
Qed.

Lemma plain_head c :
  plain c = true ->
  exists j r, full_decomposition c = j :: r /\ boundary j /\
              Forall (fun d => combining d = 0) r.
Proof.
  unfold plain. intros H. destruct (ascii c) eqn:Ea.
  - exists c, []. rewrite ascii_fixed by exact Ea. split; [reflexivity|]. split; [|constructor].
    split; [now apply ascii_combining|]. intros l. now apply ascii_composition.
  - cbn [orb] in H.
    assert (Hj : Forall (fun d => in_jamo_block d = true) (full_decomposition c)).
    { apply Forall_forall. intros d. now apply syllable_parts_jamo. }
    assert (HL : exists j r, full_decomposition c = j :: r /\ is_L j = true).
    { rewrite (syllable_decomposition c H). cbv zeta.
      assert (BL : 0 <= (c - SBase) / NCount < 19).
      { hangul_unfold. Z.div_mod_to_equations. lia. }
      revert BL. generalize ((c - SBase) / NCount). intros l BL.
      destruct (_ =? _); eexists; eexists; (split; [reflexivity|]); hangul_unfold; lia. }
    destruct HL as (j & r & E & HLj). exists j, r. split; [exact E|].
    rewrite E in Hj. inversion Hj as [|? ? Hj1 Hj2]; subst. split.
    + split; [apply combining_hangul; now left|]. intros l. now apply composition_leading_none.
    + eapply Forall_impl; [|exact Hj2]. intros d Hd. apply combining_hangul. now left.
Qed.

Lemma plain_starters s :
  forallb plain s = true -> Forall (fun d => combining d = 0) (flat_map full_decomposition s).
Proof.
  induction s as [|c s IH]; [constructor|]. cbn [forallb flat_map].
  rewrite andb_true_iff. intros [Hc Hs].
  apply Forall_app. split; [|now apply IH].
  destruct (plain_head c Hc) as (j & r & -> & [Hj _] & Hr). now constructor.
Qed.

(** Recomposition of a syllable from its jamo. *)
Lemma syllable_compose c :
  is_syllable c = true -> compose (full_decomposition c) = [c].
Proof.
  intros H. rewrite (syllable_decomposition c H). cbv zeta.
  assert (B : 0 <= c - SBase < 11172) by (hangul_unfold; lia).
  assert (BL : 0 <= (c - SBase) / NCount < 19)
    by (unfold NCount, VCount, TCount; Z.div_mod_to_equations; lia).
  assert (BV : 0 <= ((c - SBase) mod NCount) / TCount < 21)
    by (unfold NCount, VCount, TCount; Z.div_mod_to_equations; lia).
  assert (BT : 0 <= (c - SBase) mod TCount < 28)
    by (unfold TCount; Z.div_mod_to_equations; lia).
  assert (E : c = SBase + (((c - SBase) / NCount) * VCount
                           + ((c - SBase) mod NCount) / TCount) * TCount
                  + (c - SBase) mod TCount).
  { unfold NCount, VCount, TCount. Z.div_mod_to_equations. lia. }
  revert E BL BV BT.
  generalize ((c - SBase) / NCount) (((c - SBase) mod NCount) / TCount)
             ((c - SBase) mod TCount).
  intros l v t E BL BV BT.
  set (L := LBase + l). set (V := VBase + v). set (T := TBase + t).
  assert (HcL : combining L = 0) by (apply combining_hangul; left; subst L; hangul_unfold; lia).
  assert (HLV : composition L V = Some (SBase + (l * VCount + v) * TCount)).
  { unfold composition.
    replace (is_L L) with true by (symmetry; subst L; hangul_unfold; lia).
    replace (is_V V) with true by (symmetry; subst V; hangul_unfold; lia).
    cbn [andb]. do 2 f_equal. subst L V. f_equal. f_equal; lia. }
  destruct (Z.eqb_spec T TBase) as [Et|Et].
  - cbn [compose]. rewrite HcL. cbn [Z.eqb].
    rewrite compose_from_unfold. cbn [blocked]. rewrite HLV. cbn [compose_from rev].
    f_equal. subst T. lia.
  - cbn [compose]. rewrite HcL. cbn [Z.eqb].
    rewrite compose_from_unfold. cbn [blocked]. rewrite HLV.
    rewrite compose_from_unfold. cbn [blocked].
    set (LV := SBase + (l * VCount + v) * TCount).
    assert (HLVT : composition LV T = Some (LV + (T - TBase))).
    { unfold composition.
      replace (is_L LV) with false by (symmetry; subst LV; hangul_unfold; lia).
      cbn [andb].
      replace (is_syllable LV) with true by (symmetry; subst LV; hangul_unfold; lia).
      replace ((LV - SBase) mod TCount =? 0) with true.
      2:{ symmetry. apply Z.eqb_eq. subst LV.
          replace (SBase + (l * VCount + v) * TCount - SBase) with ((l * VCount + v) * TCount) by lia.
          apply Z_mod_mult. }
      replace (is_T T) with true by (symmetry; subst T; hangul_unfold; lia).
      reflexivity. }
    rewrite HLVT. cbn [compose_from rev]. f_equal. subst LV T. lia.
Qed.

Lemma plain_compose c : plain c = true -> compose (full_decomposition c) = [c].
Proof.
  unfold plain. intros H. destruct (ascii c) eqn:Ea.
  - rewrite ascii_fixed by exact Ea. cbn [compose].
    rewrite ascii_combining by exact Ea. reflexivity.
  - now apply syllable_compose.
Qed.

Lemma compose_starter j r : combining j = 0 -> compose (j :: r) = compose_from j [] r.
Proof. intros H. cbn [compose]. now rewrite H. Qed.

(** Normalization splits in front of a plain character. *)
Lemma nfc_app_plain s t :
  starts_plain t = true -> nfc (s ++ t) = nfc s ++ nfc t.
Proof.
  destruct t as [|c t]; [discriminate|]. cbn [starts_plain]. intros Hc.
  destruct (plain_head c Hc) as (j & r & E & [Hj Hcomp] & _).
  unfold nfc, nfd. rewrite flat_map_app. cbn [flat_map]. rewrite E.
  change ((j :: r) ++ flat_map full_decomposition t)
    with (j :: (r ++ flat_map full_decomposition t)).
  rewrite canonical_order_app_starter by exact Hj.
  rewrite compose_app_starter by assumption.
  assert (Hco : canonical_order (j :: (r ++ flat_map full_decomposition t)) =
                j :: canonical_order (r ++ flat_map full_decomposition t)).
  { unfold canonical_order. cbn [fold_right]. now apply insert_mark_starter. }
  rewrite Hco. now rewrite compose_starter.
Qed.

Lemma nfc_plain_char c : plain c = true -> nfc [c] = [c].
Proof.
  intros H. unfold nfc, nfd. cbn [flat_map]. rewrite app_nil_r.
  destruct (plain_head c H) as (j & r & E & [Hj _] & Hr).
  rewrite <- (app_nil_r (full_decomposition c)) at 1.
  rewrite canonical_order_starters by (rewrite E; now constructor).
  cbn [canonical_order fold_right]. rewrite app_nil_r. now apply plain_compose.
Qed.

Lemma nfc_plain s : forallb plain s = true -> nfc s = s.
Proof.
  induction s as [|c s IH]; [reflexivity|]. cbn [forallb]. rewrite andb_true_iff.
  intros [Hc Hs]. destruct s as [|c' s'].
  - now apply nfc_plain_char.
  - change (c :: c' :: s') with ([c] ++ c' :: s').
    rewrite nfc_app_plain.
    + rewrite nfc_plain_char by exact Hc. now rewrite IH.
    + cbn [forallb] in Hs. now apply andb_true_iff in Hs as [? _].
Qed.

End PlainFacts.

(** ** Decomposed names *)

Module DecomposedFacts.
Import Normalization StrFacts NormalizationFacts EmbeddingFacts.
Import LoaderFacts ScanFacts SuffixFacts PlainFacts.

Lemma nfc_nfd s : unicodedata.nfc (unicodedata.nfd s) = unicodedata.nfc s.
Proof. unfold unicodedata.nfc. now rewrite nfd_nfd. Qed.

Lemma nfd_plain s : forallb plain s = true -> unicodedata.nfd s = flat_map unicodedata.full_decomposition s.
Proof.
  intros H. unfold unicodedata.nfd.
  rewrite <- (app_nil_r (flat_map unicodedata.full_decomposition s)) at 1.
  rewrite canonical_order_starters by now apply plain_starters.
  cbn [unicodedata.canonical_order fold_right]. apply app_nil_r.
Qed.

Lemma ascii_text_fixed e : forallb ascii e = true -> flat_map unicodedata.full_decomposition e = e.
Proof.
  induction e as [|c e IH]; [reflexivity|]. cbn [forallb flat_map].
  rewrite andb_true_iff. intros [Hc He]. rewrite ascii_fixed by exact Hc.
  cbn [app]. now rewrite IH.
Qed.

Lemma lower_ascii e ext :
  lower e = ext -> forallb ascii ext = true -> forallb ascii e = true.
Proof.
  intros <-. unfold lower. induction e as [|c e IH]; [reflexivity|].
  cbn [map forallb]. rewrite !andb_true_iff. intros [Hc He]. split; [|now apply IH].
  unfold lower_char, ascii in *. rewrite andb_true_iff, Z.leb_le, Z.ltb_lt in *.
  destruct ((65 <=? c) && (c <=? 90)) eqn:E; [|lia].
  rewrite andb_true_iff, !Z.leb_le in E. lia.
Qed.

Lemma plain_decomposition_last c :
  plain c = true -> ascii c = false ->
  exists w j, unicodedata.full_decomposition c = w ++ [j] /\ ascii j = false.
Proof.
  intros Hp Ha. unfold plain in Hp. rewrite Ha in Hp. cbn [orb] in Hp.
  destruct (plain_head c) as (j0 & r & E & _); [unfold plain; now rewrite Hp, orb_true_r|].
  destruct (exists_last (l := unicodedata.full_decomposition c)) as (w & j & Ew);
    [rewrite E; discriminate|].
  exists w, j. split; [exact Ew|].
  assert (Hj : in_jamo_block j = true).
  { apply (syllable_parts_jamo c j Hp). rewrite Ew. apply in_or_app. right. now left. }
  unfold in_jamo_block, ascii in *. rewrite andb_true_iff, !Z.leb_le in Hj.
  apply andb_false_iff. right. apply Z.ltb_ge. lia.
Qed.

(** A Basic Latin tail of the decomposition of a plain text is a tail of
    the text. *)
Lemma decomposition_tail y : forall s x,
  forallb plain s = true ->
  flat_map unicodedata.full_decomposition s = x ++ y ->
  forallb ascii y = true ->
  exists s0, s = s0 ++ y /\ flat_map unicodedata.full_decomposition s0 = x.
Proof.
  induction y as [|a y IH] using rev_ind; intros s x Hp E Hy.
  - exists s. rewrite !app_nil_r in *. auto.
  - rewrite forallb_app in Hy. cbn [forallb] in Hy.
    rewrite !andb_true_iff in Hy. destruct Hy as [Hy [Ha _]].
    destruct s as [|c0 s0] using rev_ind.
    { cbn in E. symmetry in E. apply app_eq_nil in E as [_ E].
      apply app_eq_nil in E as [_ E]. discriminate. }
    clear IHs0. rewrite forallb_app in Hp. cbn [forallb] in Hp.
    rewrite !andb_true_iff in Hp. destruct Hp as [Hp [Hc _]].
    rewrite flat_map_app in E. cbn [flat_map] in E. rewrite app_nil_r in E.
    destruct (ascii c0) eqn:Ec.
    + rewrite ascii_fixed in E by exact Ec. rewrite app_assoc in E.
      apply app_inj_tail in E as [E ->].
      destruct (IH s0 x Hp E Hy) as (s1 & -> & E1).
      exists s1. split; [now rewrite app_assoc|exact E1].
    + exfalso. destruct (plain_decomposition_last c0 Hc Ec) as (w & j & Ew & Hj).
      rewrite Ew in E. rewrite !app_assoc in E. apply app_inj_tail in E as [_ ->].
      congruence.
Qed.

Lemma has_extension_decomposed ext s :
  forallb ascii ext = true -> forallb plain s = true ->
  has_extension ext s <-> has_extension ext (flat_map unicodedata.full_decomposition s).
Proof.
  intros Hext Hp. unfold has_extension. split.
  - intros (stem & e & -> & Hs & He).
    pose proof (lower_ascii e ext He Hext) as Hae.
    exists (flat_map unicodedata.full_decomposition stem), e.
    rewrite !flat_map_app. cbn [flat_map]. rewrite app_nil_r.
    rewrite (ascii_fixed 46) by reflexivity. rewrite (ascii_text_fixed e Hae).
    split; [reflexivity|]. split; [|exact He].
    destruct stem as [|c stem]; [congruence|]. cbn [flat_map].
    rewrite forallb_app in Hp. apply andb_true_iff in Hp as [Hp _].
    cbn [forallb] in Hp. apply andb_true_iff in Hp as [Hc _].
    destruct (plain_head c Hc) as (j & r & -> & _). discriminate.
  - intros (stem' & e & E & Hs & He).
    pose proof (lower_ascii e ext He Hext) as Hae.
    destruct (decomposition_tail ([46] ++ e) s stem' Hp E) as (s0 & -> & E0).
    { cbn [app forallb]. now rewrite Hae. }
    exists s0, e. split; [reflexivity|]. split; [|exact He].
    intros ->. cbn in E0. congruence.
Qed.

Lemma suffix_decomposed ext s :
  ext <> [] -> ~ In 46 ext -> forallb ascii ext = true -> forallb plain s = true ->
  str_eqb (lower (pathlib.suffix (unicodedata.nfd s))) (46 :: ext) =
  str_eqb (lower (pathlib.suffix s)) (46 :: ext).
Proof.
  intros Hne Hdot Hext Hp. rewrite (nfd_plain s Hp).
  pose proof (suffix_test ext s Hne Hdot) as H1.
  pose proof (suffix_test ext (flat_map unicodedata.full_decomposition s) Hne Hdot) as H2.
  pose proof (has_extension_decomposed ext s Hext Hp) as H3.
  destruct (str_eqb (lower (pathlib.suffix s)) (46 :: ext)),
           (str_eqb (lower (pathlib.suffix (flat_map unicodedata.full_decomposition s))) (46 :: ext));
    try reflexivity; exfalso.
  - assert (false = true); [|discriminate]. apply H2, H3, H1. reflexivity.
  - assert (false = true); [|discriminate]. apply H1, H3, H2. reflexivity.
Qed.

Lemma decomposed_is_csv f f' : decomposed_entry f f' -> is_csv f' = is_csv f.
Proof.
  intros (Hp & Hn & _). unfold is_csv. rewrite Hn. unfold unicodedata.normalize.
  apply (suffix_decomposed (lit "csv")); auto; try discriminate.
  cbn. intuition discriminate.
Qed.

Lemma decomposed_is_xlsx f f' : decomposed_entry f f' -> is_xlsx f' = is_xlsx f.
Proof.
  intros (Hp & Hn & _). unfold is_xlsx. rewrite Hn. unfold unicodedata.normalize.
  apply (suffix_decomposed (lit "xlsx")); auto; try discriminate.
  cbn. intuition discriminate.
Qed.

Lemma decomposed_scan entries entries' :
  Forall2 decomposed_entry entries entries' ->
  forall data, scan_entries entries' data = scan_entries entries data.
Proof.
  induction 1 as [|f f' l l' Hf _ IH]; intros data; [reflexivity|].
  cbn [scan_entries]. rewrite (decomposed_is_csv f f' Hf).
  destruct (negb (is_csv f)); [apply IH|].
  destruct Hf as (_ & Hn & Hr & _).
  replace (normalize (name f')) with (normalize (name f)).
  2:{ rewrite Hn. unfold normalize, unicodedata.normalize. symmetry. apply nfc_nfd. }
  rewrite (match_schools_read f' f) by exact Hr.
  destruct (match_schools f _ _ data); cbn [bind]; [apply IH|reflexivity].
Qed.

Lemma decomposed_find entries entries' :
  Forall2 decomposed_entry entries entries' ->
  match find is_xlsx entries, find is_xlsx entries' with
  | Some x, Some x' => ExcelFile x' = ExcelFile x
  | None, None => True
  | _, _ => False
  end.
Proof.
  induction 1 as [|f f' l l' Hf _ IH]; [exact I|].
  cbn [find]. rewrite (decomposed_is_xlsx f f' Hf).
  destruct (is_xlsx f); [|exact IH]. now destruct Hf as (_ & _ & _ & ?).
Qed.

End DecomposedFacts.

(** * Further properties of the script *)

(** ** The loaders *)

(** X1: Lines 75-84 read a directory entry only when it is a CSV file whose
    normalized name holds a school: the loader returns the same for the
    directory without the other entries, and whatever the other entries
    contain. *)
Theorem loader_reads_only_matching_csv :
  (forall entries,
      load_environment_data (Directory entries) =
      load_environment_data (Directory (filter relevant entries))) /\
  (forall entries entries',
      same_relevant_files entries entries' ->
      load_environment_data (Directory entries) =
      load_environment_data (Directory entries')).
Proof.
  split.
  - intros entries. cbn [load_environment_data]. f_equal. apply ScanFacts.scan_entries_filter.
  - intros entries entries' H. cbn [load_environment_data]. f_equal.
    now apply ScanFacts.scan_entries_same.
Qed.

(** X2: [pd.read_csv] is not guarded (line 82): when the first CSV file that
    cannot be read matches a school, the loader raises its exception and
    the script ends with it, whatever else the directory holds. *)
Theorem unreadable_csv_raises before file after school e :
  readable before ->
  In school (keys SCHOOL_EC) ->
  matches school file = true ->
  read_csv file = Raises e ->
  load_environment_data (Directory (before ++ file :: after)) = ([], Raises e) /\
  startup (Directory (before ++ file :: after)) = ([], Crashed e).
Proof.
  intros Hb Hs Hm Hr.
  assert (H : load_environment_data (Directory (before ++ file :: after)) = ([], Raises e)).
  { cbn [load_environment_data]. f_equal. rewrite ScanFacts.scan_entries_app.
    destruct (LoaderFacts.scan_entries_spec before [] Hb) as (data & -> & _). cbn [bind].
    unfold matches in Hm. apply andb_true_iff in Hm as [Hcsv Hc].
    cbn [scan_entries]. rewrite Hcsv. cbn [negb].
    rewrite (ScanFacts.match_schools_raises file _ e _ data school Hs Hc Hr). reflexivity. }
  split; [exact H|]. unfold startup. now rewrite H.
Qed.

Lemma unreadable_csv_raises_witness :
  readable [two_schools_file] /\
  In haneul (keys SCHOOL_EC) /\
  matches haneul unreadable_file = true /\
  read_csv unreadable_file = Raises ReadError /\
  load_environment_data (Directory ([two_schools_file] ++ unreadable_file :: [])) =
    ([], Raises ReadError) /\
  startup (Directory ([two_schools_file] ++ unreadable_file :: [])) = ([], Crashed ReadError).
Proof.
  assert (Hb : readable [two_schools_file]).
  { intros f [<-|[]] _. exists two_readings. reflexivity. }
  assert (Hs : In haneul (keys SCHOOL_EC)) by (right; left; reflexivity).
  assert (Hm : matches haneul unreadable_file = true) by (vm_compute; reflexivity).
  assert (Hr : read_csv unreadable_file = Raises ReadError) by reflexivity.
  split; [exact Hb|]. split; [exact Hs|]. split; [exact Hm|]. split; [exact Hr|].
  exact (unreadable_csv_raises [two_schools_file] unreadable_file [] haneul ReadError
                               Hb Hs Hm Hr).
Defined.

(** X3: The order in which [iterdir] lists the directory does not matter when
    no school of [SCHOOL_EC] has two CSV files and there is at most one
    workbook: every school gets the same frame and the growth frame is the
    same. *)
Theorem loaders_ignore_directory_order entries entries' :
  Permutation entries entries' ->
  readable entries ->
  (forall school, In school (keys SCHOOL_EC) ->
                  at_most_one (matches school) entries) ->
  at_most_one is_xlsx entries ->
  (exists data data',
      load_environment_data (Directory entries) = ([], Returns data) /\
      load_environment_data (Directory entries') = ([], Returns data') /\
      forall school, dict_get school data = dict_get school data') /\
  load_growth_data (Directory entries) = load_growth_data (Directory entries').
Proof.
  intros Hperm Hr Hcsv Hxlsx.
  assert (Hr' : readable entries').
  { intros f Hf. apply Hr. apply Permutation_sym in Hperm. eapply Permutation_in; eauto. }
  split.
  - destruct (LoaderFacts.load_environment_lookup entries Hr) as (data & Hload & Hget).
    destruct (LoaderFacts.load_environment_lookup entries' Hr') as (data' & Hload' & Hget').
    exists data, data'. split; [exact Hload|]. split; [exact Hload'|].
    intros school. rewrite Hget, Hget'.
    destruct (known school) eqn:Ek; [|reflexivity].
    apply LoaderFacts.known_In in Ek.
    rewrite (OrderFacts.find_unique (matches school) (rev entries) (rev entries')).
    + reflexivity.
    + rewrite <- !Permutation_rev. exact Hperm.
    + apply OrderFacts.at_most_one_rev, Hcsv, Ek.
  - cbn [load_growth_data].
    now rewrite (OrderFacts.find_unique is_xlsx entries entries' Hperm Hxlsx).
Qed.

Lemma loaders_ignore_directory_order_witness :
  Permutation [songdo_file; haneul_file; unnamed_sheet_workbook]
              [unnamed_sheet_workbook; haneul_file; songdo_file] /\
  readable [songdo_file; haneul_file; unnamed_sheet_workbook] /\
  (forall school, In school (keys SCHOOL_EC) ->
     at_most_one (matches school) [songdo_file; haneul_file; unnamed_sheet_workbook]) /\
  at_most_one is_xlsx [songdo_file; haneul_file; unnamed_sheet_workbook] /\
  load_environment_data (Directory [songdo_file; haneul_file; unnamed_sheet_workbook]) =
    ([], Returns [(songdo, stamp songdo songdo_readings);
                  (haneul, stamp haneul two_readings)]) /\
  load_environment_data (Directory [unnamed_sheet_workbook; haneul_file; songdo_file]) =
    ([], Returns [(haneul, stamp haneul two_readings);
                  (songdo, stamp songdo songdo_readings)]) /\
  (exists data data',
      load_environment_data (Directory [songdo_file; haneul_file; unnamed_sheet_workbook])
        = ([], Returns data) /\
      load_environment_data (Directory [unnamed_sheet_workbook; haneul_file; songdo_file])
        = ([], Returns data') /\
      forall school, dict_get school data = dict_get school data') /\
  load_growth_data (Directory [songdo_file; haneul_file; unnamed_sheet_workbook]) =
  load_growth_data (Directory [unnamed_sheet_workbook; haneul_file; songdo_file]).
Proof.
  assert (Hp : Permutation [songdo_file; haneul_file; unnamed_sheet_workbook]
                           [unnamed_sheet_workbook; haneul_file; songdo_file]).
  { eapply perm_trans; [apply perm_swap|].
    eapply perm_trans; [apply perm_skip, perm_swap|]. apply perm_swap. }
  assert (Hr : readable [songdo_file; haneul_file; unnamed_sheet_workbook]).
  { intros f [<-|[<-|[<-|[]]]] H;
      [exists songdo_readings; reflexivity|exists two_readings; reflexivity|].
    vm_compute in H. discriminate. }
  assert (Hc : forall school, In school (keys SCHOOL_EC) ->
             at_most_one (matches school)
                         [songdo_file; haneul_file; unnamed_sheet_workbook]).
  { intros school Hs. apply LoaderFacts.known_In, GrowthFacts.known_cases in Hs.
    intros f g Hf Hg Mf Mg.
    destruct Hs as [-> | [-> | [-> | -> ]]];
      destruct Hf as [<-|[<-|[<-|[]]]]; destruct Hg as [<-|[<-|[<-|[]]]];
      try reflexivity;
      first [ vm_compute in Mf; discriminate Mf | vm_compute in Mg; discriminate Mg ]. }
  assert (Hx : at_most_one is_xlsx [songdo_file; haneul_file; unnamed_sheet_workbook]).
  { intros f g Hf Hg Xf Xg.
    destruct Hf as [<-|[<-|[<-|[]]]]; destruct Hg as [<-|[<-|[<-|[]]]];
      try reflexivity;
      first [ vm_compute in Xf; discriminate Xf | vm_compute in Xg; discriminate Xg ]. }
  split; [exact Hp|]. split; [exact Hr|]. split; [exact Hc|]. split; [exact Hx|].
  split; [vm_compute; reflexivity|]. split; [vm_compute; reflexivity|].
  exact (loaders_ignore_directory_order _ _ Hp Hr Hc Hx).
Defined.

(** X4: The suffix tests of lines 76 and 96: an entry is taken as CSV (as a
    workbook) exactly when its name is a stem that is not empty, a dot and
    [csv] ([xlsx]) in any mix of upper and lower case. *)
Theorem extension_tests file :
  (is_csv file = true <-> has_extension (lit "csv") (name file)) /\
  (is_xlsx file = true <-> has_extension (lit "xlsx") (name file)).
Proof.
  split; apply SuffixFacts.suffix_test; try discriminate;
    cbn; intuition discriminate.
Qed.

Example extension_examples :
  is_csv (mkPath (lit "a.b.CsV") (Raises ReadError) (Raises ReadError)) = true /\
  is_csv (mkPath (lit ".csv") (Raises ReadError) (Raises ReadError)) = false /\
  is_csv (mkPath (lit "data.csv.bak") (Raises ReadError) (Raises ReadError)) = false /\
  is_csv (mkPath (lit "data.csv.") (Raises ReadError) (Raises ReadError)) = false /\
  is_xlsx (mkPath (lit "growth.XLSX") (Raises ReadError) (Raises ReadError)) = true.
Proof. vm_compute. repeat split; reflexivity. Qed.

(** X5: For names written in Basic Latin and precomposed Hangul syllables,
    the matching of lines 79-81 is plain containment: a school is a key
    of the mapping exactly when some CSV file has it in its name. *)
Theorem plain_names_match_literally entries :
  readable entries ->
  Forall (fun f => forallb plain (name f) = true) entries ->
  exists data,
    load_environment_data (Directory entries) = ([], Returns data) /\
    forall school,
      In school (keys SCHOOL_EC) ->
      (In school (keys data) <->
       exists f, In f entries /\ is_csv f = true /\ contains school (name f) = true).
Proof.
  intros Hr Hp. destruct (LoaderFacts.load_environment_lookup entries Hr) as (data & Hload & Hget).
  exists data. split; [exact Hload|]. intros school Hs.
  assert (Hm : forall f, In f entries ->
                 matches school f = is_csv f && contains school (name f)).
  { intros f Hf. unfold matches, normalize, unicodedata.normalize.
    rewrite Forall_forall in Hp.
    rewrite (PlainFacts.nfc_plain (name f)) by now apply Hp.
    now rewrite (EmbeddingFacts.schools_normalized school Hs). }
  rewrite LoaderFacts.dict_get_In, Hget.
  replace (known school) with true by (symmetry; now apply LoaderFacts.known_In).
  split.
  - intros (v & Hv). destruct (find (matches school) (rev entries)) as [f|] eqn:E; [|discriminate].
    apply find_some in E as [Hin Hf]. apply in_rev in Hin.
    exists f. split; [exact Hin|]. rewrite (Hm f Hin) in Hf. now apply andb_true_iff in Hf.
  - intros (f & Hin & Hcsv & Hc).
    assert (Hf : matches school f = true) by (rewrite (Hm f Hin); now rewrite Hcsv, Hc).
    destruct (LoaderFacts.find_last_some (matches school) entries f Hin Hf) as (y & -> & Hy & Hmy).
    assert (Hcsvy : is_csv y = true).
    { unfold matches in Hmy. now apply andb_true_iff in Hmy as [? _]. }
    destruct (Hr y Hy Hcsvy) as (df & Hdf). unfold stamped. rewrite Hdf. eauto.
Qed.

Lemma plain_names_match_literally_witness :
  readable [plain_name_file] /\
  Forall (fun f => forallb plain (name f) = true) [plain_name_file] /\
  exists data,
    load_environment_data (Directory [plain_name_file]) = ([], Returns data) /\
    In songdo (keys data) /\ ~ In haneul (keys data).
Proof.
  assert (Hr : readable [plain_name_file]).
  { intros f [<-|[]] _. exists two_readings. reflexivity. }
  assert (Hp : Forall (fun f => forallb plain (name f) = true) [plain_name_file]).
  { constructor; [vm_compute; reflexivity|constructor]. }
  split; [exact Hr|]. split; [exact Hp|].
  destruct (plain_names_match_literally [plain_name_file] Hr Hp) as (data & Hload & Hkeys).
  exists data. split; [exact Hload|]. split.
  - apply Hkeys; [left; reflexivity|].
    exists plain_name_file. split; [now left|]. split; vm_compute; reflexivity.
  - intros H. apply Hkeys in H as (f & [<-|[]] & _ & Hc); [|right; left; reflexivity].
    vm_compute in Hc. discriminate.
Defined.

(** X6: A directory whose plain names are listed in decomposed form (NFD, as
    some file systems store them) is loaded like the directory with the
    names as written: the suffix tests, the matching and so both loaders
    and the start of the script give the same. *)
Theorem decomposed_names_load_alike entries entries' :
  Forall2 decomposed_entry entries entries' ->
  load_environment_data (Directory entries') = load_environment_data (Directory entries) /\
  load_growth_data (Directory entries') = load_growth_data (Directory entries) /\
  startup (Directory entries') = startup (Directory entries).
Proof.
  intros H.
  assert (He : load_environment_data (Directory entries') =
               load_environment_data (Directory entries)).
  { cbn [load_environment_data]. f_equal. now apply DecomposedFacts.decomposed_scan. }
  assert (Hg : load_growth_data (Directory entries') = load_growth_data (Directory entries)).
  { cbn [load_growth_data]. pose proof (DecomposedFacts.decomposed_find _ _ H) as Hf.
    destruct (find is_xlsx entries), (find is_xlsx entries'); try contradiction.
    - now rewrite Hf.
    - reflexivity. }
  split; [exact He|]. split; [exact Hg|]. unfold startup. now rewrite He, Hg.
Qed.

Lemma decomposed_names_load_alike_witness :
  Forall2 decomposed_entry [haneul_file] [haneul_file_decomposed] /\
  name haneul_file_decomposed =
    [0x1112; 0x1161; 0x1102; 0x1173; 0x11AF; 0x1100; 0x1169] ++ lit "_1.csv" /\
  load_environment_data (Directory [haneul_file_decomposed]) =
  load_environment_data (Directory [haneul_file]).
Proof.
  assert (H : Forall2 decomposed_entry [haneul_file] [haneul_file_decomposed]).
  { constructor; [|constructor]. split; [vm_compute; reflexivity|].
    split; [reflexivity|]. split; reflexivity. }
  split; [exact H|]. split; [vm_compute; reflexivity|].
  exact (proj1 (decomposed_names_load_alike _ _ H)).
Defined.

(** X7: Lines 94-98 stop at the first workbook: the growth data are those of
    a directory that holds this workbook alone, whatever comes before or
    after it. *)
Theorem growth_loader_first_workbook before file after :
  Forall (fun f => is_xlsx f = false) before ->
  is_xlsx file = true ->
  load_growth_data (Directory (before ++ file :: after)) =
  load_growth_data (Directory [file]).
Proof.
  intros Hb Hf. cbn [load_growth_data find].
  now rewrite (ScanFacts.find_app_none is_xlsx before file after Hb Hf), Hf.
Qed.

Lemma growth_loader_first_workbook_witness :
  Forall (fun f => is_xlsx f = false) [two_schools_file] /\
  is_xlsx unnamed_sheet_workbook = true /\
  load_growth_data
    (Directory ([two_schools_file] ++ unnamed_sheet_workbook :: [second_workbook])) =
  load_growth_data (Directory [unnamed_sheet_workbook]).
Proof.
  assert (Hb : Forall (fun f => is_xlsx f = false) [two_schools_file]).
  { constructor; [vm_compute; reflexivity|constructor]. }
  assert (Hf : is_xlsx unnamed_sheet_workbook = true) by (vm_compute; reflexivity).
  split; [exact Hb|]. split; [exact Hf|].
  exact (growth_loader_first_workbook [two_schools_file] unnamed_sheet_workbook
                                      [second_workbook] Hb Hf).
Defined.

(** ** Starting the script *)

(** X8: Lines 69-73, 88-102 and 118-123: whenever a loader reports a failure
    the script stops; a missing data folder is reported by both loaders,
    and a directory without a workbook is reported once (unless reading a
    CSV file raised before). *)
Theorem reported_failure_stops :
  (forall DATA_DIR,
      fst (startup DATA_DIR) <> [] -> snd (startup DATA_DIR) = Stopped) /\
  startup Missing = ([NoDataFolder; NoDataFolder], Stopped) /\
  (forall entries,
      find is_xlsx entries = None ->
      (exists e, startup (Directory entries) = ([], Crashed e)) \/
      startup (Directory entries) = ([NoGrowthFile], Stopped)).
Proof.
  split; [|split; [reflexivity|]].
  - intros DATA_DIR. unfold startup.
    destruct DATA_DIR as [| |entries]; cbn [load_environment_data load_growth_data fst snd].
    + reflexivity.
    + congruence.
    + destruct (scan_entries entries []) as [env|e]; cbn [fst snd]; [|congruence].
      destruct (find is_xlsx entries) as [xlsx|].
      * destruct (sheets <- ExcelFile xlsx ;; pd.concat (stamp_sheets sheets)) as [g|e];
          cbn [fst snd app]; congruence.
      * cbn [fst snd app]. intros _. destruct env; reflexivity.
  - intros entries Hf. unfold startup. cbn [load_environment_data load_growth_data].
    rewrite Hf. destruct (scan_entries entries []) as [env|e]; [|left; eauto].
    right. cbn [app]. f_equal. destruct env; reflexivity.
Qed.

(** X9: Lines 118-123 with a readable directory and workbook: the script goes
    on to the tabs exactly when some CSV file matches a school and some
    sheet of the workbook has a row. *)
Theorem dashboard_runs entries xlsx_file sheets :
  readable entries ->
  find is_xlsx entries = Some xlsx_file ->
  ExcelFile xlsx_file = Returns sheets ->
  (exists env_data growth_df,
      startup (Directory entries) = ([], Running env_data growth_df)) <->
  (exists csv_file, In csv_file entries /\ relevant csv_file = true) /\
  (exists sheet df, In (sheet, df) sheets /\ rows df <> []).
Proof.
  intros Hr Hx Hs.
  destruct (LoaderFacts.load_environment_lookup entries Hr) as (data & Hload & Hget).
  assert (Hgrow : load_growth_data (Directory entries) = ([], pd.concat (stamp_sheets sheets))).
  { cbn [load_growth_data]. rewrite Hx, Hs. reflexivity. }
  split.
  - intros (env & g & Hrun).
    destruct (StartupFacts.startup_running _ _ _ _ Hrun) as (He & Hg & Hne & Hempty).
    split.
    + cbn [load_environment_data snd] in He.
      now apply (ScanFacts.scan_entries_nonempty entries env).
    + rewrite Hgrow in Hg. cbn [snd] in Hg. pose proof (concat_rows _ _ Hg) as Hrows.
      destruct (rows g) as [|r rs] eqn:Er.
      { unfold pd.empty in Hempty. rewrite Er in Hempty. now destruct (columns g). }
      assert (Hnot : ~ (forall sheet df, In (sheet, df) sheets -> rows df = [])).
      { intros H. apply (proj2 (StartupFacts.stamp_sheets_rows sheets)) in H. congruence. }
      clear - Hnot. induction sheets as [|[s d] l IH].
      * exfalso. apply Hnot. intros ? ? [].
      * destruct (rows d) eqn:E.
        -- destruct IH as (s' & d' & Hin & Hne).
           { intros H. apply Hnot. intros s' d' [[= <- <-]|Hin]; [exact E|now apply (H s' d')]. }
           exists s', d'. split; [now right|exact Hne].
        -- exists s, d. split; [now left|]. rewrite E. discriminate.
  - intros ((f & Hin & Hrel) & (sheet & df & Hsheet & Hrows)).
    assert (Hdata : data <> []).
    { unfold relevant in Hrel. apply existsb_exists in Hrel as (school & Hschool & Hm).
      destruct (LoaderFacts.find_last_some (matches school) entries f Hin Hm) as (y & Hy & Hyin & Hym).
      assert (Hcsv : is_csv y = true).
      { unfold matches in Hym. now apply andb_true_iff in Hym as [? _]. }
      destruct (Hr y Hyin Hcsv) as (d & Hd).
      specialize (Hget school). rewrite Hy in Hget.
      replace (known school) with true in Hget by (symmetry; now apply LoaderFacts.known_In).
      unfold stamped in Hget. rewrite Hd in Hget. intros ->. discriminate. }
    assert (Hframes : stamp_sheets sheets <> []).
    { destruct sheets; [destruct Hsheet|discriminate]. }
    pose proof (MeansFacts.concat_returns _ Hframes) as Hc.
    set (g := mkDataFrame _ _) in Hc. exists data, g.
    unfold startup. rewrite Hload, Hgrow, Hc. cbn [app]. f_equal.
    destruct data as [|kv data]; [congruence|].
    assert (Hcol : pd.has_column g col_school = true)
      by now apply (StartupFacts.growth_frame_school_column sheets).
    assert (Hrs : rows g <> []).
    { subst g. cbn [rows]. intros E.
      apply Hrows, (proj1 (StartupFacts.stamp_sheets_rows sheets) E sheet df Hsheet). }
    unfold pd.empty. unfold pd.has_column in Hcol.
    destruct (columns g); [discriminate|]. destruct (rows g); [congruence|reflexivity].
Qed.

Lemma dashboard_runs_witness :
  readable complete_directory /\
  find is_xlsx complete_directory = Some plants_workbook /\
  ExcelFile plants_workbook =
    Returns [(songdo, one_plant); (haneul, mkDataFrame [col_weight] [])] /\
  (exists csv_file, In csv_file complete_directory /\ relevant csv_file = true) /\
  (exists sheet df,
      In (sheet, df) [(songdo, one_plant); (haneul, mkDataFrame [col_weight] [])] /\
      rows df <> []) /\
  exists env_data growth_df,
    startup (Directory complete_directory) = ([], Running env_data growth_df).
Proof.
  assert (Hr : readable complete_directory).
  { intros f [<-|[<-|[]]] H; [exists songdo_readings; reflexivity|].
    vm_compute in H. discriminate. }
  assert (Hx : find is_xlsx complete_directory = Some plants_workbook)
    by (vm_compute; reflexivity).
  assert (Hs : ExcelFile plants_workbook =
               Returns [(songdo, one_plant); (haneul, mkDataFrame [col_weight] [])])
    by reflexivity.
  assert (H1 : exists csv_file, In csv_file complete_directory /\ relevant csv_file = true).
  { exists songdo_file. split; [now left|vm_compute; reflexivity]. }
  assert (H2 : exists sheet df,
             In (sheet, df) [(songdo, one_plant); (haneul, mkDataFrame [col_weight] [])] /\
             rows df <> []).
  { exists songdo, one_plant. split; [now left|discriminate]. }
  split; [exact Hr|]. split; [exact Hx|]. split; [exact Hs|].
  split; [exact H1|]. split; [exact H2|].
  exact (proj2 (dashboard_runs complete_directory plants_workbook _ Hr Hx Hs) (conj H1 H2)).
Defined.

(** X10: Line 123 stops without any message: when no CSV file matches a
    school, or no sheet of the workbook has a row, nothing is reported and
    the script stops. *)
Theorem stops_without_message entries xlsx_file sheets :
  readable entries ->
  find is_xlsx entries = Some xlsx_file ->
  ExcelFile xlsx_file = Returns sheets ->
  sheets <> [] ->
  Forall (fun f => relevant f = false) entries \/
  (forall sheet df, In (sheet, df) sheets -> rows df = []) ->
  startup (Directory entries) = ([], Stopped).
Proof.
  intros Hr Hx Hs Hne Hcase.
  destruct (LoaderFacts.load_environment_lookup entries Hr) as (data & Hload & _).
  assert (Hframes : stamp_sheets sheets <> []) by (destruct sheets; [congruence|discriminate]).
  unfold startup. rewrite Hload. cbn [load_growth_data]. rewrite Hx, Hs. cbn [bind].
  rewrite (MeansFacts.concat_returns _ Hframes). cbn [app]. f_equal.
  destruct Hcase as [Hnone|Hrows].
  - cbn [load_environment_data] in Hload.
    rewrite (ScanFacts.scan_entries_none entries [] Hnone) in Hload.
    injection Hload as <-. reflexivity.
  - destruct data; [reflexivity|]. unfold pd.empty. cbn [rows columns].
    rewrite (proj2 (StartupFacts.stamp_sheets_rows sheets) Hrows).
    now destruct (fold_left _ _ _).
Qed.

Lemma stops_without_message_witness :
  readable (no_match_directory ++ [unnamed_sheet_workbook]) /\
  find is_xlsx (no_match_directory ++ [unnamed_sheet_workbook]) = Some unnamed_sheet_workbook /\
  ExcelFile unnamed_sheet_workbook = Returns [(lit "Sheet1", one_plant)] /\
  Forall (fun f => relevant f = false) (no_match_directory ++ [unnamed_sheet_workbook]) /\
  startup (Directory (no_match_directory ++ [unnamed_sheet_workbook])) = ([], Stopped).
Proof.
  assert (Hr : readable (no_match_directory ++ [unnamed_sheet_workbook])).
  { intros f [<-|[<-|[<-|[]]]] H; try (vm_compute in H; discriminate).
    exists two_readings. reflexivity. }
  assert (Hx : find is_xlsx (no_match_directory ++ [unnamed_sheet_workbook]) =
               Some unnamed_sheet_workbook) by (vm_compute; reflexivity).
  assert (Hs : ExcelFile unnamed_sheet_workbook = Returns [(lit "Sheet1", one_plant)])
    by reflexivity.
  assert (Hn : Forall (fun f => relevant f = false)
                      (no_match_directory ++ [unnamed_sheet_workbook])).
  { repeat constructor. }
  split; [exact Hr|]. split; [exact Hx|]. split; [exact Hs|]. split; [exact Hn|].
  apply (stops_without_message _ unnamed_sheet_workbook [(lit "Sheet1", one_plant)] Hr Hx Hs).
  - discriminate.
  - left. exact Hn.
Defined.

(** X11: Once the script runs, every frame has the school column the loaders
    stamped (lines 83 and 109), so the counts of line 156, the EC column
    of line 244 and the group sizes of line 273 do not raise. *)
Theorem running_session_has_school_columns DATA_DIR msgs env_data growth_df :
  startup DATA_DIR = (msgs, Running env_data growth_df) ->
  pd.has_column growth_df col_school = true /\
  (forall school df, In (school, df) env_data -> pd.has_column df col_school = true) /\
  (exists summary, summary_rows growth_df = Returns summary) /\
  (exists growth_df', derive_EC growth_df = Returns growth_df') /\
  (exists counts, count_df growth_df = Returns counts).
Proof.
  intros Hrun.
  destruct (StartupFacts.startup_running _ _ _ _ Hrun) as (He & Hg & Hne & Hempty).
  assert (Hcol : pd.has_column growth_df col_school = true)
    by now apply (StartupFacts.loaded_growth_school_column DATA_DIR).
  split; [exact Hcol|]. split; [|split; [|split]].
  - intros school df Hin. now apply (StartupFacts.loaded_environment_school_column DATA_DIR env_data school).
  - eexists. now apply GrowthFacts.summary_rows_returns.
  - destruct (GrowthFacts.derive_EC_returns growth_df Hcol) as (df' & H & _). eauto.
  - eexists. now apply GrowthFacts.count_df_returns.
Qed.

Lemma running_session_has_school_columns_witness :
  (exists env_data growth_df,
      startup (Directory complete_directory) = ([], Running env_data growth_df) /\
      pd.has_column growth_df col_school = true /\
      exists summary, summary_rows growth_df = Returns summary).
Proof.
  assert (exists env_data growth_df,
             startup (Directory complete_directory) = ([], Running env_data growth_df))
    as (env & g & Hrun).
  { eexists. eexists. vm_compute. reflexivity. }
  exists env, g. split; [exact Hrun|].
  destruct (running_session_has_school_columns _ _ _ _ Hrun) as (H1 & _ & H2 & _).
  split; [exact H1|exact H2].
Defined.

(** ** The tabs *)

(** X12: Lines 154-167: the summary has one row per entry of [SCHOOL_EC], in
    its order, with the number of rows tagged with the school; the counts
    add up to the number of rows of known schools, which is the total
    count exactly when every row belongs to a known school. *)
Theorem summary_counts growth_df :
  pd.has_column growth_df col_school = true ->
  exists summary,
    summary_rows growth_df = Returns summary /\
    map (fun row => (fst (fst row), snd (fst row))) summary = SCHOOL_EC /\
    (forall school ec count,
        In (school, ec, count) summary ->
        count = List.length (plants_of school (rows growth_df))) /\
    total (map snd summary) = List.length (filter known_row (rows growth_df)) /\
    (total (map snd summary) <= total_count growth_df)%nat /\
    (total (map snd summary) = total_count growth_df <->
     Forall (fun r => known_row r = true) (rows growth_df)).
Proof.
  intros Hs. eexists. split; [now apply GrowthFacts.summary_rows_returns|].
  assert (Htot : total (map snd (map (fun item : str * Q =>
                   (fst item, snd item, List.length (plants_of (fst item) (rows growth_df))))
                   SCHOOL_EC)) = List.length (filter known_row (rows growth_df))).
  { rewrite map_map. cbn [snd]. apply GrowthFacts.plants_of_total. }
  split; [|split; [|split; [exact Htot|split]]].
  - rewrite map_map. cbn [fst snd]. rewrite (map_ext _ (fun x => x)) by (now intros []).
    apply map_id.
  - intros school ec count Hin. apply in_map_iff in Hin as (item & [= <- <- <-] & _).
    reflexivity.
  - rewrite Htot. apply filter_length_le.
  - rewrite Htot. unfold total_count, pd.len. split.
    + intros H. apply Forall_forall. intros r Hr.
      assert (E : filter known_row (rows growth_df) = rows growth_df).
      { clear - H. induction (rows growth_df) as [|a l IH]; [reflexivity|].
        cbn [filter] in *. destruct (known_row a).
        - cbn [List.length] in H. f_equal. apply IH. lia.
        - pose proof (filter_length_le known_row l). cbn [List.length] in H. lia. }
      rewrite <- E in Hr. now apply filter_In in Hr as [_ ?].
    + intros H. f_equal. clear - H. induction H as [|a l Ha _ IH]; [reflexivity|].
      cbn [filter]. now rewrite Ha, IH.
Qed.

Lemma summary_counts_witness :
  pd.has_column growth_with_unknown col_school = true /\
  summary_rows growth_with_unknown =
    Returns [(songdo, 1%Q, 2%nat); (haneul, 2%Q, 1%nat); (ara, 4%Q, 0%nat);
             (dongsan, 8%Q, 0%nat)] /\
  total_count growth_with_unknown = 4%nat /\
  exists summary,
    summary_rows growth_with_unknown = Returns summary /\
    total (map snd summary) = List.length (filter known_row (rows growth_with_unknown)).
Proof.
  assert (Hs : pd.has_column growth_with_unknown col_school = true) by reflexivity.
  split; [exact Hs|]. split; [vm_compute; reflexivity|]. split; [reflexivity|].
  destruct (summary_counts growth_with_unknown Hs) as (summary & H1 & _ & _ & H2 & _).
  exists summary. split; [exact H1|exact H2].
Defined.

(** X14: Line 198 finds a target EC for every row of the table of means: on
    data of the environment loader the lookups [SCHOOL_EC[s]] do not
    raise. *)
Theorem target_ecs_found {M : Float64Means} DATA_DIR env_data table :
  snd (load_environment_data DATA_DIR) = Returns env_data ->
  mean_df env_data = Returns table ->
  exists ecs,
    target_ecs table = Returns ecs /\
    Forall2 (fun row ec => exists school,
                 row_get col_school row = Str school /\
                 dict_get school SCHOOL_EC = Some ec)
            (rows table) ecs.
Proof.
  intros Hload Hmean.
  apply LoaderFacts.load_environment_tagged in Hload.
  unfold mean_df in Hmean.
  destruct (pd.concat (values env_data)) as [env_all|e] eqn:Ec; cbn [bind] in Hmean;
    [|discriminate].
  apply concat_rows in Ec.
  destruct (LookupFacts.groupby_mean_keys _ _ _ _ Hmean) as [Hcols Hkeys].
  assert (Hrow : forall row, In row (rows table) ->
            exists school ec, row_get col_school row = Str school /\
                              dict_get school SCHOOL_EC = Some ec).
  { intros row Hin.
    assert (Hk : In (row_get col_school row) (pd.group_keys (map (row_get col_school) (rows env_all)))).
    { rewrite <- Hkeys. now apply in_map. }
    apply FrameFacts.group_keys_In in Hk. apply in_map_iff in Hk as (r & Hr & Hin').
    rewrite Ec in Hin'. apply in_flat_map in Hin' as (df & Hdf & Hin').
    apply in_map_iff in Hdf as ([key df'] & <- & Hkv).
    destruct (Hload key df' Hkv) as [Hkey Htag].
    rewrite Forall_forall in Htag. cbn [snd] in Hin'.
    apply LoaderFacts.dict_get_In in Hkey as (ec & Hec).
    exists key, ec. split; [|exact Hec]. rewrite <- Hr. now apply Htag. }
  unfold target_ecs, pd.getitem, pd.has_column. rewrite Hcols. cbn [existsb].
  rewrite StrFacts.str_eqb_refl. cbn [orb bind].
  clear Hkeys Hmean. induction (rows table) as [|row rs IH].
  - exists []. split; [reflexivity|constructor].
  - destruct IH as (ecs & Hecs & Hall); [intros; apply Hrow; now right|].
    destruct (Hrow row (or_introl eq_refl)) as (school & ec & Hs & Hec).
    exists (ec :: ecs). split.
    + cbn [map pd.traverse]. rewrite Hs. unfold dict_getitem at 1. rewrite Hec.
      cbn [bind]. rewrite Hecs. reflexivity.
    + constructor; [|exact Hall]. eauto.
Qed.

Lemma target_ecs_found_witness :
  snd (load_environment_data (Directory [songdo_file])) = Returns songdo_loaded /\
  mean_df (M := exact_means) songdo_loaded = Returns songdo_means /\
  exists ecs,
    target_ecs songdo_means = Returns ecs /\
    Forall2 (fun row ec => exists school,
                 row_get col_school row = Str school /\
                 dict_get school SCHOOL_EC = Some ec)
            (rows songdo_means) ecs.
Proof.
  assert (H1 : snd (load_environment_data (Directory [songdo_file])) = Returns songdo_loaded)
    by (vm_compute; reflexivity).
  assert (H2 : mean_df (M := exact_means) songdo_loaded = Returns songdo_means)
    by (vm_compute; reflexivity).
  split; [exact H1|]. split; [exact H2|].
  exact (target_ecs_found (M := exact_means) (Directory [songdo_file]) songdo_loaded
                          songdo_means H1 H2).
Defined.

(** X15: Lines 214-215: with "전체" selected no frame is looked up; selecting
    a school that no CSV file matches raises [KeyError]; selecting a
    school with a file yields a frame whose rows carry that school. *)
Theorem selected_school_needs_a_file entries :
  readable entries ->
  exists env_data,
    load_environment_data (Directory entries) = ([], Returns env_data) /\
    selected_frame env_data all_schools = Returns None /\
    forall school_option,
      In school_option school_options -> school_option <> all_schools ->
      (Forall (fun f => matches school_option f = false) entries ->
       selected_frame env_data school_option = Raises KeyError) /\
      (forall f, In f entries -> matches school_option f = true ->
                 exists df,
                   selected_frame env_data school_option = Returns (Some df) /\
                   Forall (fun r => row_get col_school r = Str school_option) (rows df)).
Proof.
  intros Hr. destruct (LoaderFacts.load_environment_lookup entries Hr) as (data & Hload & Hget).
  exists data. split; [exact Hload|]. split; [reflexivity|].
  intros opt Hopt Hne.
  assert (Hk : known opt = true).
  { destruct Hopt as [<-|Hin]; [congruence|]. now apply LoaderFacts.known_In. }
  assert (Hsel : selected_frame data opt =
                 df <- dict_getitem data opt ;; Returns (Some df)).
  { unfold selected_frame.
    destruct (str_eqb opt all_schools) eqn:E; [|reflexivity].
    apply StrFacts.str_eqb_eq in E. congruence. }
  rewrite Hsel. unfold dict_getitem. rewrite Hget, Hk. split.
  - intros Hnone. now rewrite LookupFacts.find_rev_none.
  - intros f Hin Hm.
    destruct (LoaderFacts.find_last_some (matches opt) entries f Hin Hm) as (y & -> & Hy & Hmy).
    assert (Hcsv : is_csv y = true).
    { unfold matches in Hmy. now apply andb_true_iff in Hmy as [? _]. }
    destruct (Hr y Hy Hcsv) as (df & Hdf). unfold stamped. rewrite Hdf. cbn [bind].
    exists (stamp opt df). split; [reflexivity|]. apply LoaderFacts.stamp_tagged.
Qed.

Lemma selected_school_needs_a_file_witness :
  readable [songdo_file] /\
  exists env_data,
    load_environment_data (Directory [songdo_file]) = ([], Returns env_data) /\
    selected_frame env_data haneul = Raises KeyError /\
    exists df,
      selected_frame env_data songdo = Returns (Some df) /\
      Forall (fun r => row_get col_school r = Str songdo) (rows df).
Proof.
  assert (Hr : readable [songdo_file]).
  { intros f [<-|[]] _. exists songdo_readings. reflexivity. }
  split; [exact Hr|].
  destruct (selected_school_needs_a_file [songdo_file] Hr) as (data & Hload & _ & Hsel).
  exists data. split; [exact Hload|]. split.
  - apply (Hsel haneul); [right; right; left; reflexivity|discriminate|].
    constructor; [vm_compute; reflexivity|constructor].
  - apply (Hsel songdo) with (f := songdo_file);
      [right; left; reflexivity|discriminate|left; reflexivity|vm_compute; reflexivity].
Defined.

(** X16: Lines 244-247 ignore the rows whose school is no key of [SCHOOL_EC]:
    the table of means and the best EC are those of the frame without
    them, and when no row is left the table is empty and [idxmax] raises
    [ValueError]. *)
Theorem best_ec_ignores_unknown_schools {M : Float64Means} growth_df :
  pd.has_column growth_df col_school = true ->
  pd.has_column growth_df col_weight = true ->
  numeric_column col_weight growth_df ->
  mean_weight growth_df = mean_weight (known_rows growth_df) /\
  best_ec growth_df = best_ec (known_rows growth_df) /\
  (Forall (fun r => known_row r = false) (rows growth_df) ->
   mean_weight growth_df = Returns (mkDataFrame [col_EC; col_weight] []) /\
   best_ec growth_df = Raises ValueError).
Proof.
  intros Hs Hw Hn.
  pose proof (GrowthFacts.mean_weight_known growth_df Hs Hw Hn) as H.
  split; [exact H|]. split; [unfold best_ec; now rewrite H|].
  intros Hnone.
  assert (Hmw : mean_weight growth_df = Returns (mkDataFrame [col_EC; col_weight] [])).
  { rewrite H, FrameFacts.mean_weight_returns; cbn [known_rows rows columns]; auto.
    - replace (filter known_row (rows growth_df)) with (@nil row); [reflexivity|].
      clear - Hnone. induction Hnone as [|r l Hr _ IH]; [reflexivity|].
      cbn [filter]. now rewrite Hr.
    - intros r s Hr. apply Hn. now apply filter_In in Hr as [? _]. }
  split; [exact Hmw|]. unfold best_ec. rewrite Hmw. reflexivity.
Qed.

Example best_ec_unknown_only :
  pd.empty growth_unknown_only = false /\
  forall M : Float64Means, best_ec growth_unknown_only = Raises ValueError.
Proof. split; [reflexivity|]. intros M. reflexivity. Qed.

Lemma best_ec_ignores_unknown_schools_witness :
  pd.has_column growth_with_unknown col_school = true /\
  pd.has_column growth_with_unknown col_weight = true /\
  numeric_column col_weight growth_with_unknown /\
  best_ec (M := exact_means) growth_with_unknown =
    best_ec (M := exact_means) (known_rows growth_with_unknown) /\
  best_ec (M := exact_means) growth_with_unknown = Returns (Num 2).
Proof.
  assert (Hs : pd.has_column growth_with_unknown col_school = true) by reflexivity.
  assert (Hw : pd.has_column growth_with_unknown col_weight = true) by reflexivity.
  assert (Hn : numeric_column col_weight growth_with_unknown).
  { intros r s [<-|[<-|[<-|[<-|[]]]]]; discriminate. }
  split; [exact Hs|]. split; [exact Hw|]. split; [exact Hn|].
  split; [|vm_compute; reflexivity].
  exact (proj1 (proj2 (best_ec_ignores_unknown_schools (M := exact_means)
                         growth_with_unknown Hs Hw Hn))).
Defined.

(** X18: Lines 250-256 mark exactly one metric: when the mean of some EC
    value is a number, the metric of the best EC carries the label and
    every other label is empty, also when means tie. *)
Theorem one_best_metric {M : Float64Means} growth_df :
  growth_records growth_df ->
  (exists (e : Q) m, has_ec (rows growth_df) e /\ mean_at (rows growth_df) e = Num m) ->
  exists ms best before w after,
    metrics growth_df = Returns ms /\
    best_ec growth_df = Returns best /\
    ms = before ++ (best, w, star) :: after /\
    Forall (fun m => snd m = []) before /\
    Forall (fun m => snd m = []) after.
Proof.
  intros Hg Hne. pose proof Hg as (Hs & Hw & Hrec).
  assert (Hn : numeric_column col_weight growth_df).
  { intros r s Hr E. destruct (Hrec r Hr) as [_ (w & Hw')]. congruence. }
  destruct (FrameFacts.best_ec_spec growth_df Hg Hne) as (e & m & Hbest & _).
  destruct (GrowthFacts.best_ec_position growth_df (Num e) Hs Hw Hn Hbest) as (n & Hpos).
  destruct (GrowthFacts.sorted_split_labels _ n (Num e)
              (FrameFacts.group_keys_sorted _) (FrameFacts.group_keys_value _) Hpos)
    as (kb & ka & Hks & Hb & Ha & Hrefl).
  set (entry := fun k : cell =>
         (k, mean_cell (map (row_get col_weight) (ec_group (rows growth_df) k)),
          if pd.cell_eqb k (Num e) then star else [])).
  exists (map entry (pd.group_keys (map target_ec (rows growth_df)))), (Num e),
         (map entry kb),
         (mean_cell (map (row_get col_weight) (ec_group (rows growth_df) (Num e)))),
         (map entry ka).
  split; [|split; [exact Hbest|split; [|split]]].
  - unfold metrics. rewrite FrameFacts.mean_weight_returns, Hbest; auto. cbn [bind rows].
    unfold ec_means. rewrite !map_map. reflexivity.
  - rewrite Hks, map_app. cbn [map]. unfold entry at 2. now rewrite Hrefl.
  - apply Forall_map. eapply Forall_impl; [|exact Hb]. intros k Hk.
    unfold entry. cbn [snd]. now rewrite Hk.
  - apply Forall_map. eapply Forall_impl; [|exact Ha]. intros k Hk.
    unfold entry. cbn [snd]. now rewrite Hk.
Qed.

Lemma one_best_metric_witness :
  growth_records growth_tie /\
  (exists (e : Q) m, has_ec (rows growth_tie) e /\
                     mean_at (M := exact_means) (rows growth_tie) e = Num m) /\
  metrics (M := exact_means) growth_tie =
    Returns [(Num 1, Num 6, star); (Num 2, Num 6, []); (Num 4, Num 3, [])] /\
  exists ms best before w after,
    metrics (M := exact_means) growth_tie = Returns ms /\
    best_ec (M := exact_means) growth_tie = Returns best /\
    ms = before ++ (best, w, star) :: after /\
    Forall (fun m => snd m = []) before /\
    Forall (fun m => snd m = []) after.
Proof.
  assert (Hg : growth_records growth_tie).
  { split; [reflexivity|]. split; [reflexivity|].
    intros r [<-|[<-|[<-|[<-|[]]]]]; split; eexists; vm_compute; reflexivity. }
  assert (Hne : exists (e : Q) m, has_ec (rows growth_tie) e /\
                  mean_at (M := exact_means) (rows growth_tie) e = Num m).
  { exists 2%Q, (Finite 6). split; [|reflexivity].
    exists (growth_row haneul 6). split; [left; reflexivity|reflexivity]. }
  split; [exact Hg|]. split; [exact Hne|]. split; [vm_compute; reflexivity|].
  exact (one_best_metric (M := exact_means) growth_tie Hg Hne).
Defined.

(** X19: Lines 265-274: the four bar charts are drawn over the same EC values,
    in ascending order, and the leaf and shoot series hold, for each EC
    value, what [GroupBy.mean] makes of the values of their column in the
    rows of that EC value. *)
Theorem growth_charts_share_axis {M : Float64Means} growth_df :
  growth_measurements growth_df ->
  exists mean_weight_ leaves shoots counts,
    mean_weight growth_df = Returns mean_weight_ /\
    leaf_mean growth_df = Returns leaves /\
    shoot_mean growth_df = Returns shoots /\
    count_df growth_df = Returns counts /\
    map fst leaves = map (row_get col_EC) (rows mean_weight_) /\
    map fst shoots = map (row_get col_EC) (rows mean_weight_) /\
    map fst counts = map (row_get col_EC) (rows mean_weight_) /\
    StronglySorted cell_lt (map (row_get col_EC) (rows mean_weight_)) /\
    (forall k m, In (k, m) leaves ->
                 m = mean_cell (map (row_get col_leaves) (ec_group (rows growth_df) k))) /\
    (forall k m, In (k, m) shoots ->
                 m = mean_cell (map (row_get col_shoot) (ec_group (rows growth_df) k))).
Proof.
  intros (Hs & Hcols).
  inversion Hcols as [|? ? [Hw Hnw] Hcols1]; subst.
  inversion Hcols1 as [|? ? [Hl Hnl] Hcols2]; subst.
  inversion Hcols2 as [|? ? [Hsh Hnsh] _]; subst.
  do 4 eexists.
  split; [now apply FrameFacts.mean_weight_returns|].
  split; [apply GrowthFacts.series_mean_returns; auto;
          apply StrFacts.str_eqb_neq; vm_compute; reflexivity|].
  split; [apply GrowthFacts.series_mean_returns; auto;
          apply StrFacts.str_eqb_neq; vm_compute; reflexivity|].
  split; [now apply GrowthFacts.count_df_returns|].
  cbn [rows]. unfold ec_means. rewrite !map_map. cbn [fst].
  rewrite (map_ext (fun x : cell => row_get col_EC _) (fun x => x))
    by (intros; apply MeansFacts.row_get_head).
  rewrite map_id.
  split; [reflexivity|]. split; [reflexivity|]. split; [reflexivity|].
  split; [apply FrameFacts.group_keys_sorted|].
  split; intros k m Hin; apply in_map_iff in Hin as (k' & [= <- <-] & _); reflexivity.
Qed.

Lemma growth_charts_share_axis_witness :
  growth_measurements plants_example /\
  mean_weight (M := exact_means) plants_example =
    Returns (mkDataFrame [col_EC; col_weight]
               [[(col_EC, Num 1); (col_weight, Num 4)];
                [(col_EC, Num 2); (col_weight, Num 8)]]) /\
  leaf_mean (M := exact_means) plants_example = Returns [(Num 1, Num 4); (Num 2, Num 6)] /\
  shoot_mean (M := exact_means) plants_example = Returns [(Num 1, Num 20); (Num 2, Num 35)] /\
  count_df plants_example = Returns [(Num 1, 1%nat); (Num 2, 2%nat)] /\
  exists mean_weight_ leaves shoots counts,
    mean_weight (M := exact_means) plants_example = Returns mean_weight_ /\
    leaf_mean (M := exact_means) plants_example = Returns leaves /\
    shoot_mean (M := exact_means) plants_example = Returns shoots /\
    count_df plants_example = Returns counts /\
    map fst leaves = map (row_get col_EC) (rows mean_weight_) /\
    map fst shoots = map (row_get col_EC) (rows mean_weight_) /\
    map fst counts = map (row_get col_EC) (rows mean_weight_) /\
    StronglySorted cell_lt (map (row_get col_EC) (rows mean_weight_)) /\
    (forall k m, In (k, m) leaves ->
                 m = mean_cell (M := exact_means)
                       (map (row_get col_leaves) (ec_group (rows plants_example) k))) /\
    (forall k m, In (k, m) shoots ->
                 m = mean_cell (M := exact_means)
                       (map (row_get col_shoot) (ec_group (rows plants_example) k))).
Proof.
  assert (Hg : growth_measurements plants_example).
  { split; [reflexivity|].
    repeat constructor; intros r s [<-|[<-|[<-|[]]]]; discriminate. }
  split; [exact Hg|]. do 4 (split; [vm_compute; reflexivity|]).
  exact (growth_charts_share_axis (M := exact_means) plants_example Hg).
Defined.

(** X20: Line 273 against line 156: every group size of [count_df] is the
    number of rows of the one school with that target EC, every school
    with a row has its entry, and the sizes add up to the number of rows
    of known schools. *)
Theorem group_sizes_are_school_counts growth_df :
  pd.has_column growth_df col_school = true ->
  exists counts,
    count_df growth_df = Returns counts /\
    (forall k n, In (k, n) counts ->
        exists school (ec : Q),
          k = Num ec /\ In (school, ec) SCHOOL_EC /\
          n = List.length (plants_of school (rows growth_df)) /\ (0 < n)%nat) /\
    (forall school (ec : Q),
        In (school, ec) SCHOOL_EC -> plants_of school (rows growth_df) <> [] ->
        In (Num ec, List.length (plants_of school (rows growth_df))) counts) /\
    total (map snd counts) = List.length (filter known_row (rows growth_df)).
Proof.
  intros Hs. eexists. split; [now apply GrowthFacts.count_df_returns|].
  set (rs := rows growth_df). split; [|split].
  - intros k n Hin. apply in_map_iff in Hin as (k' & [= <- <-] & Hk).
    pose proof (FrameFacts.group_keys_In _ _ Hk) as Hin.
    apply in_map_iff in Hin as (r & Hr & Hin).
    pose proof (FrameFacts.group_keys_value (map target_ec rs)) as Hv.
    rewrite Forall_forall in Hv. specialize (Hv _ Hk).
    destruct k' as [e|s|]; [| |now elim Hv].
    2:{ exfalso. clear - Hr. unfold target_ec in Hr.
        destruct (row_get col_school r); try discriminate.
        destruct (dict_get s0 SCHOOL_EC); discriminate. }
    rename Hr into Et.
    destruct (FrameFacts.target_ec_finite r e Et) as (q & ->). rename q into e.
    destruct (GrowthFacts.target_ec_school r e Et) as (school & Hsch & Hitem).
    exists school, e. split; [reflexivity|]. split; [exact Hitem|].
    rewrite (GrowthFacts.ec_group_school school e rs Hitem). split; [reflexivity|].
    assert (In r (plants_of school rs)).
    { unfold plants_of. apply filter_In. split; [exact Hin|]. rewrite Hsch.
      cbn. apply StrFacts.str_eqb_refl. }
    destruct (plants_of school rs); [contradiction|cbn; lia].
  - intros school ec Hitem Hne.
    rewrite <- (GrowthFacts.ec_group_school school ec rs Hitem) in *.
    destruct (ec_group rs (Num ec)) as [|r l] eqn:Eg; [congruence|].
    assert (Hr : In r (ec_group rs (Num ec))) by (rewrite Eg; now left).
    unfold ec_group in Hr. apply filter_In in Hr as [Hin Heq].
    destruct (target_ec r) as [e| |] eqn:Et; try discriminate.
    destruct (FrameFacts.target_ec_finite r e Et) as (q & ->). rename q into e.
    destruct (GrowthFacts.target_ec_school r e Et) as (school' & Hsch & Hitem').
    assert (e = ec).
    { clear - Hitem Hitem' Heq. cbn in Hitem, Hitem'.
      destruct Hitem as [H|[H|[H|[H|[]]]]]; injection H as <- <-;
      destruct Hitem' as [H|[H|[H|[H|[]]]]]; injection H as <- <-;
      try reflexivity; vm_compute in Heq; discriminate. }
    subst e. rewrite <- Eg. apply in_map_iff. exists (Num ec). split; [reflexivity|].
    destruct (FrameFacts.group_keys_has (map target_ec rs) (Num ec)) as (k & Hk & Hkeq).
    + rewrite <- Et. now apply in_map.
    + discriminate.
    + pose proof (FrameFacts.group_keys_In _ _ Hk) as Hin'.
      apply in_map_iff in Hin' as (r' & Hr' & _).
      destruct k as [e'| |]; try discriminate.
      destruct (FrameFacts.target_ec_finite r' e' Hr') as (q & ->). rename q into e'.
      destruct (GrowthFacts.target_ec_school r' e' Hr') as (s'' & _ & Hitem'').
      assert (e' = ec).
      { clear - Hitem Hitem'' Hkeq. cbn in Hitem, Hitem''.
        destruct Hitem as [H|[H|[H|[H|[]]]]]; injection H as <- <-;
        destruct Hitem'' as [H|[H|[H|[H|[]]]]]; injection H as <- <-;
        try reflexivity; vm_compute in Hkeq; discriminate. }
      now subst e'.
  - rewrite map_map. cbn [snd]. apply GroupFacts.ec_group_total.
    + apply FrameFacts.group_keys_sorted.
    + intros r Hin Hv. apply FrameFacts.group_keys_has; [now apply in_map|exact Hv].
Qed.

Lemma group_sizes_are_school_counts_witness :
  pd.has_column growth_with_unknown col_school = true /\
  count_df growth_with_unknown = Returns [(Num 1, 2%nat); (Num 2, 1%nat)] /\
  exists counts,
    count_df growth_with_unknown = Returns counts /\
    total (map snd counts) = List.length (filter known_row (rows growth_with_unknown)).
Proof.
  assert (Hs : pd.has_column growth_with_unknown col_school = true) by reflexivity.
  split; [exact Hs|]. split; [vm_compute; reflexivity|].
  destruct (group_sizes_are_school_counts growth_with_unknown Hs) as (counts & H1 & _ & _ & H2).
  exists counts. split; [exact H1|exact H2].
Defined.

(** ** The normalizer *)

(** X21: [normalize] leaves plain text as it is: a text of Basic Latin
    characters and precomposed Hangul syllables is its own NFC form. *)
Theorem normalize_plain_text s :
  forallb plain s = true -> normalize s = s.
Proof. apply PlainFacts.nfc_plain. Qed.

Lemma normalize_plain_text_witness :
  forallb plain (name plain_name_file) = true /\
  normalize (name plain_name_file) = name plain_name_file.
Proof.
  assert (H : forallb plain (name plain_name_file) = true) by (vm_compute; reflexivity).
  split; [exact H|]. exact (normalize_plain_text (name plain_name_file) H).
Defined.

(** X22: [normalize] works piecewise in front of a plain character: where the
    second part starts with a Basic Latin character or a precomposed
    Hangul syllable, the two parts are normalized separately. *)
Theorem normalize_splits_before_plain s t :
  starts_plain t = true -> normalize (s ++ t) = normalize s ++ normalize t.
Proof. apply PlainFacts.nfc_app_plain. Qed.

Lemma normalize_splits_before_plain_witness :
  starts_plain (lit ".csv") = true /\
  normalize (unicodedata.nfd haneul ++ lit ".csv") =
  normalize (unicodedata.nfd haneul) ++ normalize (lit ".csv").
Proof.
  assert (H : starts_plain (lit ".csv") = true) by reflexivity.
  split; [exact H|].
  exact (normalize_splits_before_plain (unicodedata.nfd haneul) (lit ".csv") H).
Defined.
